(** * LinkedIn Insights: cache-aside orchestration, upsert-merge and summaries

    A shallow embedding of the orchestration layer of the LinkedIn Insights
    microservice (FastAPI + SQLAlchemy + Redis) and the proofs of its
    specified properties.

    Conventions of the embedding:
    - Python [None] is [option]; a dict with a fixed key set is a record;
      a JSON document of unknown shape is a [json] tree.
    - Python integers are [Z]; timestamps are [Z] clock readings.
    - An [async def] that touches the database or the cache is a function in
      the state-and-exception monad [M] over [World].
    - Everything outside the process (the LinkedIn API, S3, OpenAI, the wall
      clock, whether the Redis server answers) is a field of [Env] or of
      [World]; the code never decides it. *)

From Stdlib Require Import ZArith Lia Bool Ascii String List.
From stdpp Require Import base option list strings pretty gmap fin_maps.

Local Open Scope string_scope.
Local Open Scope Z_scope.

(* ===================================================================== *)
(** ** Exceptions and results *)
(* ===================================================================== *)

(** The exceptions that can leave the modelled functions.  [HTTPException]
    is FastAPI's; the others are raised by Python itself, by SQLAlchemy or
    by redis-py. *)
Inductive exn : Type :=
  | HTTPException (status_code : Z) (detail : string)
  | IntegrityError
  | TypeError
  | AttributeError
  | IndexError
  | ValidationError
  | ConnectionError.

Inductive result (A : Type) : Type :=
  | Ok (a : A)
  | Raise (e : exn).
Arguments Ok {A} a.
Arguments Raise {A} e.

(** Failure classes of the specification. *)
Definition is_validation_failure {A} (r : result A) : bool :=
  match r with Raise (HTTPException 400 _) => true | _ => false end.

Definition is_not_found {A} (r : result A) : bool :=
  match r with Raise (HTTPException 404 _) => true | _ => false end.

Definition is_ok {A} (r : result A) : bool :=
  match r with Ok _ => true | Raise _ => false end.

(* ===================================================================== *)
(** ** JSON values *)
(* ===================================================================== *)

#[local] Set Warnings "-register-all".
Inductive json : Type :=
  | JNull
  | JBool (b : bool)
  | JNum (n : Z)
  | JStr (s : string)
  | JArr (items : list json)
  | JObj (fields : list (string * json)).

(** Python truthiness of a decoded JSON value. *)
Definition json_truthy (j : json) : bool :=
  match j with
  | JNull => false
  | JBool b => b
  | JNum n => negb (n =? 0)
  | JStr s => negb (String.eqb s "")
  | JArr l => match l with [] => false | _ => true end
  | JObj l => match l with [] => false | _ => true end
  end.

Fixpoint assoc_get {V} (k : string) (l : list (string * V)) : option V :=
  match l with
  | [] => None
  | (k', v) :: l' => if String.eqb k k' then Some v else assoc_get k l'
  end.

(** [d.get(key, default)]: an [AttributeError] when [d] is not a dict. *)
Definition dict_get (d : json) (key : string) (default : json) : result json :=
  match d with
  | JObj fields =>
      match assoc_get key fields with
      | Some v => Ok v
      | None => Ok default
      end
  | _ => Raise AttributeError
  end.

(** Python truthiness of an optional string: [None] and [""] are falsy. *)
Definition str_truthy (s : option string) : bool :=
  match s with
  | Some s => negb (String.eqb s "")
  | None => false
  end.

(** [a or b] on optional strings. *)
Definition or_str (a b : option string) : option string :=
  if str_truthy a then a else b.

(** [str(x)] of an optional string, as an f-string renders it. *)
Definition py_str (s : option string) : string :=
  match s with
  | Some s => s
  | None => "None"
  end.

(* ===================================================================== *)
(** ** Glob patterns of the Redis [KEYS] command *)
(* ===================================================================== *)

(** [KEYS pattern] matches glob-style: [*] any sequence, [?] any one
    character, [[...]] a character class (with [^] negation, [a-b] ranges
    and backslash escapes), and a backslash escapes the next character.
    Matching is case sensitive. *)
Definition in_range (a b x : ascii) : bool :=
  let lo := N.min (N_of_ascii a) (N_of_ascii b) in
  let hi := N.max (N_of_ascii a) (N_of_ascii b) in
  (N.leb lo (N_of_ascii x) && N.leb (N_of_ascii x) hi)%bool.

Definition is_empty_string (s : string) : bool :=
  match s with EmptyString => true | String _ _ => false end.

Fixpoint glob_match (p : string) : string -> bool :=
  match p with
  | EmptyString => is_empty_string
  | String c p' =>
      if Ascii.eqb c "*" then
        fix star (s : string) : bool :=
          glob_match p' s
          || match s with
             | EmptyString => false
             | String _ s' => star s'
             end
      else if Ascii.eqb c "?" then
        fun s => match s with
                 | EmptyString => false
                 | String _ s' => glob_match p' s'
                 end
      else if Ascii.eqb c "[" then
        fun s => match s with
                 | EmptyString => false
                 | String x s' =>
                     match p' with
                     | String n p'' =>
                         if Ascii.eqb n "^" then glob_class p'' x true false s'
                         else glob_class p' x false false s'
                     | EmptyString => glob_class p' x false false s'
                     end
                 end
      else if Ascii.eqb c "\" then
        match p' with
        | String d p'' =>
            fun s => match s with
                     | EmptyString => false
                     | String x s' => Ascii.eqb d x && glob_match p'' s'
                     end
        | EmptyString =>
            fun s => match s with
                     | EmptyString => false
                     | String x s' => Ascii.eqb c x && is_empty_string s'
                     end
        end
      else
        fun s => match s with
                 | EmptyString => false
                 | String x s' => Ascii.eqb c x && glob_match p' s'
                 end
  end
with glob_class (p : string) (x : ascii) (neg matched : bool) (s' : string)
  {struct p} : bool :=
  match p with
  | EmptyString => xorb neg matched && is_empty_string s'
  | String a p1 =>
      let literal := glob_class p1 x neg (matched || Ascii.eqb a x) s' in
      match p1 with
      | String b p2 =>
          if Ascii.eqb a "\" then
            glob_class p2 x neg (matched || Ascii.eqb b x) s'
          else if Ascii.eqb a "]" then
            xorb neg matched && glob_match p1 s'
          else if Ascii.eqb b "-" then
            match p2 with
            | String e p3 => glob_class p3 x neg (matched || in_range a e x) s'
            | EmptyString => literal
            end
          else literal
      | EmptyString =>
          if Ascii.eqb a "]" then xorb neg matched && glob_match p1 s'
          else literal
      end
  end.

(* ===================================================================== *)
(** ** Normalized records of the upstream fetcher *)
(* ===================================================================== *)

(** A value of a normalized record, as the merge loop sees it through
    [dict.items()].  Each constructor carries an optional payload: [None]
    in Python is [None] here. *)
Inductive value : Type :=
  | VStr (s : option string)
  | VInt (n : option Z)
  | VJson (j : option json).

Definition is_not_None (v : value) : bool :=
  match v with
  | VStr s => bool_decide (is_Some s)
  | VInt n => bool_decide (is_Some n)
  | VJson j => match j with Some _ => true | None => false end
  end.

(** The dict built by [LinkedInService._get_organization_details]: these
    fifteen keys, always all present, any value possibly [None]. *)
Module OrgData.
Record t : Type := mk {
    linkedin_id : option string;
    name : option string;
    page_id : option string;
    description : option string;
    website : option string;
    industry : option string;
    company_size : option string;
    headquarters : option string;
    founded_year : option Z;
    company_type : option string;
    specialties : option json;
    locations : option json;
    profile_picture_url : option string;
    follower_count : option Z;
    url : option string
  }.

  (** [linkedin_data.items()], in the insertion order of the dict literal. *)
Definition items (d : t) : list (string * value) :=
    [("linkedin_id", VStr (d.(linkedin_id)));
     ("name", VStr (d.(name)));
     ("page_id", VStr (d.(page_id)));
     ("description", VStr (d.(description)));
     ("website", VStr (d.(website)));
     ("industry", VStr (d.(industry)));
     ("company_size", VStr (d.(company_size)));
     ("headquarters", VStr (d.(headquarters)));
     ("founded_year", VInt (d.(founded_year)));
     ("company_type", VStr (d.(company_type)));
     ("specialties", VJson (d.(specialties)));
     ("locations", VJson (d.(locations)));
     ("profile_picture_url", VStr (d.(profile_picture_url)));
     ("follower_count", VInt (d.(follower_count)));
     ("url", VStr (d.(url)))].
End OrgData.

(** The dict built by [LinkedInService._parse_post]. *)
Module PostData.
Record t : Type := mk {
    post_id : option string;
    text : option string;
    content_type : option string;
    media_url : option string;
    media_type : option string;
    posted_at : option Z;
    like_count : option Z;
    comment_count : option Z;
    share_count : option Z;
    hashtags : option (list string);
    mentions : option (list string)
  }.
End PostData.

(** The dict built by [LinkedInService._parse_employee]. *)
Module EmployeeData.
Record t : Type := mk {
    linkedin_id : option string;
    first_name : option string;
    last_name : option string;
    headline : option string;
    profile_url : option string;
    profile_picture_url : option string;
    location : option string;
    industry : option string
  }.
End EmployeeData.

(* ===================================================================== *)
(** ** Entity models and their [to_dict] *)
(* ===================================================================== *)

(** The dicts returned by the [to_dict] methods: one field per key. *)
Module PageDict.
Record t : Type := mk {
    id : option Z;
    page_id : option string;
    linkedin_id : option string;
    name : option string;
    url : option string;
    profile_picture_url : option string;
    description : option string;
    tagline : option string;
    website : option string;
    industry : option string;
    company_size : option string;
    headquarters : option string;
    founded_year : option Z;
    company_type : option string;
    follower_count : option Z;
    employee_count : option Z;
    specialties : option json;
    locations : option json;
    created_at : option Z;
    updated_at : option Z;
    last_scraped_at : option Z
  }.
End PageDict.

Module PostDict.
Record t : Type := mk {
    id : option Z;
    post_id : option string;
    page_id : option Z;
    text : option string;
    content_type : option string;
    media_url : option string;
    media_type : option string;
    like_count : option Z;
    comment_count : option Z;
    share_count : option Z;
    view_count : option Z;
    posted_at : option Z;
    author_name : option string;
    author_title : option string;
    hashtags : option (list string);
    mentions : option (list string);
    created_at : option Z;
    updated_at : option Z
  }.
End PostDict.

Module EmployeeDict.
Record t : Type := mk {
    id : option Z;
    linkedin_id : option string;
    page_id : option Z;
    first_name : option string;
    last_name : option string;
    full_name : option string;
    headline : option string;
    profile_url : option string;
    profile_picture_url : option string;
    current_title : option string;
    current_company : option string;
    location : option string;
    country : option string;
    industry : option string;
    connections_count : option Z;
    is_following : option bool;
    is_follower : option bool;
    is_employee : option bool;
    skills : option json;
    created_at : option Z;
    updated_at : option Z
  }.
End EmployeeDict.

(** [app/models/page.py].  Every column is an attribute that may hold
    [None] on the Python side; the NOT NULL and UNIQUE declarations are
    enforced by the store at commit (see [page_constraints]). *)
Module Page.
Record t : Type := mk {
    id : option Z;
    page_id : option string;
    linkedin_id : option string;
    name : option string;
    url : option string;
    profile_picture_url : option string;
    profile_picture_s3_url : option string;
    description : option string;
    tagline : option string;
    website : option string;
    industry : option string;
    company_size : option string;
    headquarters : option string;
    founded_year : option Z;
    company_type : option string;
    follower_count : option Z;
    employee_count : option Z;
    specialties : option json;
    locations : option json;
    extra_data : option json;
    created_at : option Z;
    updated_at : option Z;
    last_scraped_at : option Z
  }.

  (** The attributes of a [Page] instance that a normalized record can name:
      its mapped columns. *)
Definition columns : list string :=
    ["id"; "page_id"; "linkedin_id"; "name"; "url"; "profile_picture_url"; "profile_picture_s3_url"; "description"; "tagline"; "website"; "industry"; "company_size"; "headquarters"; "founded_year"; "company_type"; "follower_count"; "employee_count"; "specialties"; "locations"; "extra_data"; "created_at"; "updated_at"; "last_scraped_at"].

Definition hasattr (key : string) : bool :=
    bool_decide (key ∈ columns).

Definition set_id (x : option Z) (self : t) : t :=
    {| id := x; page_id := self.(page_id); linkedin_id := self.(linkedin_id); name := self.(name); url := self.(url); profile_picture_url := self.(profile_picture_url); profile_picture_s3_url := self.(profile_picture_s3_url); description := self.(description); tagline := self.(tagline); website := self.(website); industry := self.(industry); company_size := self.(company_size); headquarters := self.(headquarters); founded_year := self.(founded_year); company_type := self.(company_type); follower_count := self.(follower_count); employee_count := self.(employee_count); specialties := self.(specialties); locations := self.(locations); extra_data := self.(extra_data); created_at := self.(created_at); updated_at := self.(updated_at); last_scraped_at := self.(last_scraped_at) |}.

Definition set_page_id (x : option string) (self : t) : t :=
    {| id := self.(id); page_id := x; linkedin_id := self.(linkedin_id); name := self.(name); url := self.(url); profile_picture_url := self.(profile_picture_url); profile_picture_s3_url := self.(profile_picture_s3_url); description := self.(description); tagline := self.(tagline); website := self.(website); industry := self.(industry); company_size := self.(company_size); headquarters := self.(headquarters); founded_year := self.(founded_year); company_type := self.(company_type); follower_count := self.(follower_count); employee_count := self.(employee_count); specialties := self.(specialties); locations := self.(locations); extra_data := self.(extra_data); created_at := self.(created_at); updated_at := self.(updated_at); last_scraped_at := self.(last_scraped_at) |}.

Definition set_linkedin_id (x : option string) (self : t) : t :=
    {| id := self.(id); page_id := self.(page_id); linkedin_id := x; name := self.(name); url := self.(url); profile_picture_url := self.(profile_picture_url); profile_picture_s3_url := self.(profile_picture_s3_url); description := self.(description); tagline := self.(tagline); website := self.(website); industry := self.(industry); company_size := self.(company_size); headquarters := self.(headquarters); founded_year := self.(founded_year); company_type := self.(company_type); follower_count := self.(follower_count); employee_count := self.(employee_count); specialties := self.(specialties); locations := self.(locations); extra_data := self.(extra_data); created_at := self.(created_at); updated_at := self.(updated_at); last_scraped_at := self.(last_scraped_at) |}.

Definition set_name (x : option string) (self : t) : t :=
    {| id := self.(id); page_id := self.(page_id); linkedin_id := self.(linkedin_id); name := x; url := self.(url); profile_picture_url := self.(profile_picture_url); profile_picture_s3_url := self.(profile_picture_s3_url); description := self.(description); tagline := self.(tagline); website := self.(website); industry := self.(industry); company_size := self.(company_size); headquarters := self.(headquarters); founded_year := self.(founded_year); company_type := self.(company_type); follower_count := self.(follower_count); employee_count := self.(employee_count); specialties := self.(specialties); locations := self.(locations); extra_data := self.(extra_data); created_at := self.(created_at); updated_at := self.(updated_at); last_scraped_at := self.(last_scraped_at) |}.

Definition set_url (x : option string) (self : t) : t :=
    {| id := self.(id); page_id := self.(page_id); linkedin_id := self.(linkedin_id); name := self.(name); url := x; profile_picture_url := self.(profile_picture_url); profile_picture_s3_url := self.(profile_picture_s3_url); description := self.(description); tagline := self.(tagline); website := self.(website); industry := self.(industry); company_size := self.(company_size); headquarters := self.(headquarters); founded_year := self.(founded_year); company_type := self.(company_type); follower_count := self.(follower_count); employee_count := self.(employee_count); specialties := self.(specialties); locations := self.(locations); extra_data := self.(extra_data); created_at := self.(created_at); updated_at := self.(updated_at); last_scraped_at := self.(last_scraped_at) |}.

Definition set_profile_picture_url (x : option string) (self : t) : t :=
    {| id := self.(id); page_id := self.(page_id); linkedin_id := self.(linkedin_id); name := self.(name); url := self.(url); profile_picture_url := x; profile_picture_s3_url := self.(profile_picture_s3_url); description := self.(description); tagline := self.(tagline); website := self.(website); industry := self.(industry); company_size := self.(company_size); headquarters := self.(headquarters); founded_year := self.(founded_year); company_type := self.(company_type); follower_count := self.(follower_count); employee_count := self.(employee_count); specialties := self.(specialties); locations := self.(locations); extra_data := self.(extra_data); created_at := self.(created_at); updated_at := self.(updated_at); last_scraped_at := self.(last_scraped_at) |}.

Definition set_profile_picture_s3_url (x : option string) (self : t) : t :=
    {| id := self.(id); page_id := self.(page_id); linkedin_id := self.(linkedin_id); name := self.(name); url := self.(url); profile_picture_url := self.(profile_picture_url); profile_picture_s3_url := x; description := self.(description); tagline := self.(tagline); website := self.(website); industry := self.(industry); company_size := self.(company_size); headquarters := self.(headquarters); founded_year := self.(founded_year); company_type := self.(company_type); follower_count := self.(follower_count); employee_count := self.(employee_count); specialties := self.(specialties); locations := self.(locations); extra_data := self.(extra_data); created_at := self.(created_at); updated_at := self.(updated_at); last_scraped_at := self.(last_scraped_at) |}.

Definition set_description (x : option string) (self : t) : t :=
    {| id := self.(id); page_id := self.(page_id); linkedin_id := self.(linkedin_id); name := self.(name); url := self.(url); profile_picture_url := self.(profile_picture_url); profile_picture_s3_url := self.(profile_picture_s3_url); description := x; tagline := self.(tagline); website := self.(website); industry := self.(industry); company_size := self.(company_size); headquarters := self.(headquarters); founded_year := self.(founded_year); company_type := self.(company_type); follower_count := self.(follower_count); employee_count := self.(employee_count); specialties := self.(specialties); locations := self.(locations); extra_data := self.(extra_data); created_at := self.(created_at); updated_at := self.(updated_at); last_scraped_at := self.(last_scraped_at) |}.

Definition set_tagline (x : option string) (self : t) : t :=
    {| id := self.(id); page_id := self.(page_id); linkedin_id := self.(linkedin_id); name := self.(name); url := self.(url); profile_picture_url := self.(profile_picture_url); profile_picture_s3_url := self.(profile_picture_s3_url); description := self.(description); tagline := x; website := self.(website); industry := self.(industry); company_size := self.(company_size); headquarters := self.(headquarters); founded_year := self.(founded_year); company_type := self.(company_type); follower_count := self.(follower_count); employee_count := self.(employee_count); specialties := self.(specialties); locations := self.(locations); extra_data := self.(extra_data); created_at := self.(created_at); updated_at := self.(updated_at); last_scraped_at := self.(last_scraped_at) |}.

Definition set_website (x : option string) (self : t) : t :=
    {| id := self.(id); page_id := self.(page_id); linkedin_id := self.(linkedin_id); name := self.(name); url := self.(url); profile_picture_url := self.(profile_picture_url); profile_picture_s3_url := self.(profile_picture_s3_url); description := self.(description); tagline := self.(tagline); website := x; industry := self.(industry); company_size := self.(company_size); headquarters := self.(headquarters); founded_year := self.(founded_year); company_type := self.(company_type); follower_count := self.(follower_count); employee_count := self.(employee_count); specialties := self.(specialties); locations := self.(locations); extra_data := self.(extra_data); created_at := self.(created_at); updated_at := self.(updated_at); last_scraped_at := self.(last_scraped_at) |}.

Definition set_industry (x : option string) (self : t) : t :=
    {| id := self.(id); page_id := self.(page_id); linkedin_id := self.(linkedin_id); name := self.(name); url := self.(url); profile_picture_url := self.(profile_picture_url); profile_picture_s3_url := self.(profile_picture_s3_url); description := self.(description); tagline := self.(tagline); website := self.(website); industry := x; company_size := self.(company_size); headquarters := self.(headquarters); founded_year := self.(founded_year); company_type := self.(company_type); follower_count := self.(follower_count); employee_count := self.(employee_count); specialties := self.(specialties); locations := self.(locations); extra_data := self.(extra_data); created_at := self.(created_at); updated_at := self.(updated_at); last_scraped_at := self.(last_scraped_at) |}.

Definition set_company_size (x : option string) (self : t) : t :=
    {| id := self.(id); page_id := self.(page_id); linkedin_id := self.(linkedin_id); name := self.(name); url := self.(url); profile_picture_url := self.(profile_picture_url); profile_picture_s3_url := self.(profile_picture_s3_url); description := self.(description); tagline := self.(tagline); website := self.(website); industry := self.(industry); company_size := x; headquarters := self.(headquarters); founded_year := self.(founded_year); company_type := self.(company_type); follower_count := self.(follower_count); employee_count := self.(employee_count); specialties := self.(specialties); locations := self.(locations); extra_data := self.(extra_data); created_at := self.(created_at); updated_at := self.(updated_at); last_scraped_at := self.(last_scraped_at) |}.

Definition set_headquarters (x : option string) (self : t) : t :=
    {| id := self.(id); page_id := self.(page_id); linkedin_id := self.(linkedin_id); name := self.(name); url := self.(url); profile_picture_url := self.(profile_picture_url); profile_picture_s3_url := self.(profile_picture_s3_url); description := self.(description); tagline := self.(tagline); website := self.(website); industry := self.(industry); company_size := self.(company_size); headquarters := x; founded_year := self.(founded_year); company_type := self.(company_type); follower_count := self.(follower_count); employee_count := self.(employee_count); specialties := self.(specialties); locations := self.(locations); extra_data := self.(extra_data); created_at := self.(created_at); updated_at := self.(updated_at); last_scraped_at := self.(last_scraped_at) |}.

Definition set_founded_year (x : option Z) (self : t) : t :=
    {| id := self.(id); page_id := self.(page_id); linkedin_id := self.(linkedin_id); name := self.(name); url := self.(url); profile_picture_url := self.(profile_picture_url); profile_picture_s3_url := self.(profile_picture_s3_url); description := self.(description); tagline := self.(tagline); website := self.(website); industry := self.(industry); company_size := self.(company_size); headquarters := self.(headquarters); founded_year := x; company_type := self.(company_type); follower_count := self.(follower_count); employee_count := self.(employee_count); specialties := self.(specialties); locations := self.(locations); extra_data := self.(extra_data); created_at := self.(created_at); updated_at := self.(updated_at); last_scraped_at := self.(last_scraped_at) |}.

Definition set_company_type (x : option string) (self : t) : t :=
    {| id := self.(id); page_id := self.(page_id); linkedin_id := self.(linkedin_id); name := self.(name); url := self.(url); profile_picture_url := self.(profile_picture_url); profile_picture_s3_url := self.(profile_picture_s3_url); description := self.(description); tagline := self.(tagline); website := self.(website); industry := self.(industry); company_size := self.(company_size); headquarters := self.(headquarters); founded_year := self.(founded_year); company_type := x; follower_count := self.(follower_count); employee_count := self.(employee_count); specialties := self.(specialties); locations := self.(locations); extra_data := self.(extra_data); created_at := self.(created_at); updated_at := self.(updated_at); last_scraped_at := self.(last_scraped_at) |}.

Definition set_follower_count (x : option Z) (self : t) : t :=
    {| id := self.(id); page_id := self.(page_id); linkedin_id := self.(linkedin_id); name := self.(name); url := self.(url); profile_picture_url := self.(profile_picture_url); profile_picture_s3_url := self.(profile_picture_s3_url); description := self.(description); tagline := self.(tagline); website := self.(website); industry := self.(industry); company_size := self.(company_size); headquarters := self.(headquarters); founded_year := self.(founded_year); company_type := self.(company_type); follower_count := x; employee_count := self.(employee_count); specialties := self.(specialties); locations := self.(locations); extra_data := self.(extra_data); created_at := self.(created_at); updated_at := self.(updated_at); last_scraped_at := self.(last_scraped_at) |}.

Definition set_employee_count (x : option Z) (self : t) : t :=
    {| id := self.(id); page_id := self.(page_id); linkedin_id := self.(linkedin_id); name := self.(name); url := self.(url); profile_picture_url := self.(profile_picture_url); profile_picture_s3_url := self.(profile_picture_s3_url); description := self.(description); tagline := self.(tagline); website := self.(website); industry := self.(industry); company_size := self.(company_size); headquarters := self.(headquarters); founded_year := self.(founded_year); company_type := self.(company_type); follower_count := self.(follower_count); employee_count := x; specialties := self.(specialties); locations := self.(locations); extra_data := self.(extra_data); created_at := self.(created_at); updated_at := self.(updated_at); last_scraped_at := self.(last_scraped_at) |}.

Definition set_specialties (x : option json) (self : t) : t :=
    {| id := self.(id); page_id := self.(page_id); linkedin_id := self.(linkedin_id); name := self.(name); url := self.(url); profile_picture_url := self.(profile_picture_url); profile_picture_s3_url := self.(profile_picture_s3_url); description := self.(description); tagline := self.(tagline); website := self.(website); industry := self.(industry); company_size := self.(company_size); headquarters := self.(headquarters); founded_year := self.(founded_year); company_type := self.(company_type); follower_count := self.(follower_count); employee_count := self.(employee_count); specialties := x; locations := self.(locations); extra_data := self.(extra_data); created_at := self.(created_at); updated_at := self.(updated_at); last_scraped_at := self.(last_scraped_at) |}.

Definition set_locations (x : option json) (self : t) : t :=
    {| id := self.(id); page_id := self.(page_id); linkedin_id := self.(linkedin_id); name := self.(name); url := self.(url); profile_picture_url := self.(profile_picture_url); profile_picture_s3_url := self.(profile_picture_s3_url); description := self.(description); tagline := self.(tagline); website := self.(website); industry := self.(industry); company_size := self.(company_size); headquarters := self.(headquarters); founded_year := self.(founded_year); company_type := self.(company_type); follower_count := self.(follower_count); employee_count := self.(employee_count); specialties := self.(specialties); locations := x; extra_data := self.(extra_data); created_at := self.(created_at); updated_at := self.(updated_at); last_scraped_at := self.(last_scraped_at) |}.

Definition set_extra_data (x : option json) (self : t) : t :=
    {| id := self.(id); page_id := self.(page_id); linkedin_id := self.(linkedin_id); name := self.(name); url := self.(url); profile_picture_url := self.(profile_picture_url); profile_picture_s3_url := self.(profile_picture_s3_url); description := self.(description); tagline := self.(tagline); website := self.(website); industry := self.(industry); company_size := self.(company_size); headquarters := self.(headquarters); founded_year := self.(founded_year); company_type := self.(company_type); follower_count := self.(follower_count); employee_count := self.(employee_count); specialties := self.(specialties); locations := self.(locations); extra_data := x; created_at := self.(created_at); updated_at := self.(updated_at); last_scraped_at := self.(last_scraped_at) |}.

Definition set_created_at (x : option Z) (self : t) : t :=
    {| id := self.(id); page_id := self.(page_id); linkedin_id := self.(linkedin_id); name := self.(name); url := self.(url); profile_picture_url := self.(profile_picture_url); profile_picture_s3_url := self.(profile_picture_s3_url); description := self.(description); tagline := self.(tagline); website := self.(website); industry := self.(industry); company_size := self.(company_size); headquarters := self.(headquarters); founded_year := self.(founded_year); company_type := self.(company_type); follower_count := self.(follower_count); employee_count := self.(employee_count); specialties := self.(specialties); locations := self.(locations); extra_data := self.(extra_data); created_at := x; updated_at := self.(updated_at); last_scraped_at := self.(last_scraped_at) |}.

Definition set_updated_at (x : option Z) (self : t) : t :=
    {| id := self.(id); page_id := self.(page_id); linkedin_id := self.(linkedin_id); name := self.(name); url := self.(url); profile_picture_url := self.(profile_picture_url); profile_picture_s3_url := self.(profile_picture_s3_url); description := self.(description); tagline := self.(tagline); website := self.(website); industry := self.(industry); company_size := self.(company_size); headquarters := self.(headquarters); founded_year := self.(founded_year); company_type := self.(company_type); follower_count := self.(follower_count); employee_count := self.(employee_count); specialties := self.(specialties); locations := self.(locations); extra_data := self.(extra_data); created_at := self.(created_at); updated_at := x; last_scraped_at := self.(last_scraped_at) |}.

Definition set_last_scraped_at (x : option Z) (self : t) : t :=
    {| id := self.(id); page_id := self.(page_id); linkedin_id := self.(linkedin_id); name := self.(name); url := self.(url); profile_picture_url := self.(profile_picture_url); profile_picture_s3_url := self.(profile_picture_s3_url); description := self.(description); tagline := self.(tagline); website := self.(website); industry := self.(industry); company_size := self.(company_size); headquarters := self.(headquarters); founded_year := self.(founded_year); company_type := self.(company_type); follower_count := self.(follower_count); employee_count := self.(employee_count); specialties := self.(specialties); locations := self.(locations); extra_data := self.(extra_data); created_at := self.(created_at); updated_at := self.(updated_at); last_scraped_at := x |}.

  (** [setattr(self, key, value)] on a column, with a value of the
      column's type. *)
Definition setattr (self : t) (key : string) (v : value) : t :=
    match v with
    | VStr x =>
        if String.eqb key "page_id" then set_page_id x self else
        if String.eqb key "linkedin_id" then set_linkedin_id x self else
        if String.eqb key "name" then set_name x self else
        if String.eqb key "url" then set_url x self else
        if String.eqb key "profile_picture_url" then set_profile_picture_url x self else
        if String.eqb key "profile_picture_s3_url" then set_profile_picture_s3_url x self else
        if String.eqb key "description" then set_description x self else
        if String.eqb key "tagline" then set_tagline x self else
        if String.eqb key "website" then set_website x self else
        if String.eqb key "industry" then set_industry x self else
        if String.eqb key "company_size" then set_company_size x self else
        if String.eqb key "headquarters" then set_headquarters x self else
        if String.eqb key "company_type" then set_company_type x self else
        self
    | VInt x =>
        if String.eqb key "id" then set_id x self else
        if String.eqb key "founded_year" then set_founded_year x self else
        if String.eqb key "follower_count" then set_follower_count x self else
        if String.eqb key "employee_count" then set_employee_count x self else
        if String.eqb key "created_at" then set_created_at x self else
        if String.eqb key "updated_at" then set_updated_at x self else
        if String.eqb key "last_scraped_at" then set_last_scraped_at x self else
        self
    | VJson x =>
        if String.eqb key "specialties" then set_specialties x self else
        if String.eqb key "locations" then set_locations x self else
        if String.eqb key "extra_data" then set_extra_data x self else
        self
    end.

  (** [getattr(self, key)] on a column. *)
Definition getattr (self : t) (key : string) : option value :=
    if String.eqb key "id" then Some (VInt self.(id)) else
    if String.eqb key "page_id" then Some (VStr self.(page_id)) else
    if String.eqb key "linkedin_id" then Some (VStr self.(linkedin_id)) else
    if String.eqb key "name" then Some (VStr self.(name)) else
    if String.eqb key "url" then Some (VStr self.(url)) else
    if String.eqb key "profile_picture_url" then Some (VStr self.(profile_picture_url)) else
    if String.eqb key "profile_picture_s3_url" then Some (VStr self.(profile_picture_s3_url)) else
    if String.eqb key "description" then Some (VStr self.(description)) else
    if String.eqb key "tagline" then Some (VStr self.(tagline)) else
    if String.eqb key "website" then Some (VStr self.(website)) else
    if String.eqb key "industry" then Some (VStr self.(industry)) else
    if String.eqb key "company_size" then Some (VStr self.(company_size)) else
    if String.eqb key "headquarters" then Some (VStr self.(headquarters)) else
    if String.eqb key "founded_year" then Some (VInt self.(founded_year)) else
    if String.eqb key "company_type" then Some (VStr self.(company_type)) else
    if String.eqb key "follower_count" then Some (VInt self.(follower_count)) else
    if String.eqb key "employee_count" then Some (VInt self.(employee_count)) else
    if String.eqb key "specialties" then Some (VJson self.(specialties)) else
    if String.eqb key "locations" then Some (VJson self.(locations)) else
    if String.eqb key "extra_data" then Some (VJson self.(extra_data)) else
    if String.eqb key "created_at" then Some (VInt self.(created_at)) else
    if String.eqb key "updated_at" then Some (VInt self.(updated_at)) else
    if String.eqb key "last_scraped_at" then Some (VInt self.(last_scraped_at)) else
    None.

Definition to_dict (self : t) : PageDict.t :=
    {| PageDict.id := self.(id);
       PageDict.page_id := self.(page_id);
       PageDict.linkedin_id := self.(linkedin_id);
       PageDict.name := self.(name);
       PageDict.url := self.(url);
       PageDict.profile_picture_url := or_str self.(profile_picture_s3_url) self.(profile_picture_url);
       PageDict.description := self.(description);
       PageDict.tagline := self.(tagline);
       PageDict.website := self.(website);
       PageDict.industry := self.(industry);
       PageDict.company_size := self.(company_size);
       PageDict.headquarters := self.(headquarters);
       PageDict.founded_year := self.(founded_year);
       PageDict.company_type := self.(company_type);
       PageDict.follower_count := self.(follower_count);
       PageDict.employee_count := self.(employee_count);
       PageDict.specialties := self.(specialties);
       PageDict.locations := self.(locations);
       PageDict.created_at := self.(created_at);
       PageDict.updated_at := self.(updated_at);
       PageDict.last_scraped_at := self.(last_scraped_at) |}.
End Page.

(** [app/models/post.py]. *)
Module Post.
Record t : Type := mk {
    id : option Z;
    post_id : option string;
    page_id : option Z;
    text : option string;
    content_type : option string;
    media_url : option string;
    media_s3_url : option string;
    media_type : option string;
    like_count : option Z;
    comment_count : option Z;
    share_count : option Z;
    view_count : option Z;
    posted_at : option Z;
    author_name : option string;
    author_title : option string;
    hashtags : option (list string);
    mentions : option (list string);
    extra_data : option json;
    created_at : option Z;
    updated_at : option Z
  }.

Definition to_dict (self : t) : PostDict.t :=
    {| PostDict.id := self.(id);
       PostDict.post_id := self.(post_id);
       PostDict.page_id := self.(page_id);
       PostDict.text := self.(text);
       PostDict.content_type := self.(content_type);
       PostDict.media_url := or_str self.(media_s3_url) self.(media_url);
       PostDict.media_type := self.(media_type);
       PostDict.like_count := self.(like_count);
       PostDict.comment_count := self.(comment_count);
       PostDict.share_count := self.(share_count);
       PostDict.view_count := self.(view_count);
       PostDict.posted_at := self.(posted_at);
       PostDict.author_name := self.(author_name);
       PostDict.author_title := self.(author_title);
       PostDict.hashtags := self.(hashtags);
       PostDict.mentions := self.(mentions);
       PostDict.created_at := self.(created_at);
       PostDict.updated_at := self.(updated_at) |}.
End Post.

(** [app/models/employee.py]. *)
Module Employee.
Record t : Type := mk {
    id : option Z;
    linkedin_id : option string;
    page_id : option Z;
    first_name : option string;
    last_name : option string;
    full_name : option string;
    headline : option string;
    profile_url : option string;
    profile_picture_url : option string;
    profile_picture_s3_url : option string;
    current_title : option string;
    current_company : option string;
    location : option string;
    country : option string;
    industry : option string;
    connections_count : option Z;
    is_following : option bool;
    is_follower : option bool;
    is_employee : option bool;
    experience_summary : option json;
    education_summary : option json;
    skills : option json;
    extra_data : option json;
    created_at : option Z;
    updated_at : option Z
  }.

Definition to_dict (self : t) : EmployeeDict.t :=
    {| EmployeeDict.id := self.(id);
       EmployeeDict.linkedin_id := self.(linkedin_id);
       EmployeeDict.page_id := self.(page_id);
       EmployeeDict.first_name := self.(first_name);
       EmployeeDict.last_name := self.(last_name);
       EmployeeDict.full_name := self.(full_name);
       EmployeeDict.headline := self.(headline);
       EmployeeDict.profile_url := self.(profile_url);
       EmployeeDict.profile_picture_url := or_str self.(profile_picture_s3_url) self.(profile_picture_url);
       EmployeeDict.current_title := self.(current_title);
       EmployeeDict.current_company := self.(current_company);
       EmployeeDict.location := self.(location);
       EmployeeDict.country := self.(country);
       EmployeeDict.industry := self.(industry);
       EmployeeDict.connections_count := self.(connections_count);
       EmployeeDict.is_following := self.(is_following);
       EmployeeDict.is_follower := self.(is_follower);
       EmployeeDict.is_employee := self.(is_employee);
       EmployeeDict.skills := self.(skills);
       EmployeeDict.created_at := self.(created_at);
       EmployeeDict.updated_at := self.(updated_at) |}.
End Employee.

(* ===================================================================== *)
(** ** The world: entity store, key-value cache, environment *)
(* ===================================================================== *)

(** The composed page-detail response of [get_page]:
    [{**page.to_dict(), "posts_count": ..., "recent_posts": [...]}]. *)
Module PageDetail.
Record t : Type := mk {
    page : PageDict.t;
    posts_count : Z;
    recent_posts : list PostDict.t
  }.
End PageDetail.

(** What the cache holds under a key, after [json.loads].  [CachedOrg None]
    is the empty dict that [_get_organization_details] returns on a non-200
    answer. *)
Inductive cached : Type :=
  | CachedPageDetail (d : PageDetail.t)
  | CachedOrg (d : option OrgData.t)
  | CachedPosts (l : list PostData.t)
  | CachedEmployees (l : list EmployeeData.t)
  | CachedJson (j : json).

(** Python truthiness of a decoded cache value ([if cached:]). *)
Definition truthy (c : cached) : bool :=
  match c with
  | CachedPageDetail _ => true
  | CachedOrg d => match d with Some _ => true | None => false end
  | CachedPosts l => match l with [] => false | _ => true end
  | CachedEmployees l => match l with [] => false | _ => true end
  | CachedJson j => json_truthy j
  end.

(** The relational store: three tables and their AUTO_INCREMENT counters. *)
Record DB : Type := mkDB {
  pages : list Page.t;
  posts : list Post.t;
  employees : list Employee.t;
  next_page_id : Z;
  next_post_id : Z;
  next_employee_id : Z
}.

(** [redis] is the content of the Redis server (key to TTL and value),
    [redis_up] whether the server answers, [client] whether
    [redis_client._client] holds a connection object. *)
Record World : Type := mkWorld {
  db : DB;
  redis : gmap string (Z * cached);
  redis_up : bool;
  client : bool
}.

Definition with_db (d : DB) (w : World) : World :=
  {| db := d; redis := w.(redis); redis_up := w.(redis_up); client := w.(client) |}.

Definition with_redis (r : gmap string (Z * cached)) (w : World) : World :=
  {| db := w.(db); redis := r; redis_up := w.(redis_up); client := w.(client) |}.

Definition with_client (c : bool) (w : World) : World :=
  {| db := w.(db); redis := w.(redis); redis_up := w.(redis_up); client := c |}.

(** State and exceptions. *)
Definition M (A : Type) : Type := World -> result A * World.

Definition ret {A} (a : A) : M A := fun w => (Ok a, w).

Definition raise {A} (e : exn) : M A := fun w => (Raise e, w).

Definition bind {A B} (m : M A) (k : A -> M B) : M B :=
  fun w =>
    match m w with
    | (Ok a, w') => k a w'
    | (Raise e, w') => (Raise e, w')
    end.

Definition lift {A} (r : result A) : M A := fun w => (r, w).

Definition get_db : M DB := fun w => (Ok w.(db), w).

Definition put_db (d : DB) : M unit := fun w => (Ok tt, with_db d w).

Declare Scope io_scope.
Delimit Scope io_scope with io.
Notation "x <- m ;; k" := (bind m (fun x => k))
  (at level 100, m at next level, right associativity) : io_scope.
Notation "m ;;; k" := (bind m (fun _ => k))
  (at level 100, right associativity) : io_scope.
Local Open Scope io_scope.

Fixpoint for_each {A B} (f : A -> M B) (l : list A) : M (list B) :=
  match l with
  | [] => ret []
  | a :: l' => b <- f a ;; bs <- for_each f l' ;; ret (b :: bs)
  end.

(* ===================================================================== *)
(** ** [app/core/cache.py]: RedisClient *)
(* ===================================================================== *)

Module RedisClient.

  (** A command sent to the server through [self._client]: answered from
      the server's content, or [ConnectionError] when the server does not
      answer. *)
Definition command {A}
    (op : gmap string (Z * cached) -> A * gmap string (Z * cached)) : M A :=
    fun w =>
      if w.(redis_up) then
        let '(a, r) := op w.(redis) in (Ok a, with_redis r w)
      else (Raise ConnectionError, w).

  (** [initialize]: connect and ping; on any exception [_client = None]. *)
Definition initialize : M unit :=
    fun w => (Ok tt, with_client w.(redis_up) w).

Definition get (key : string) : M (option cached) :=
    fun w =>
      if negb w.(client) then (Ok None, w)
      else command (fun r => (snd <$> r !! key, r)) w.

Definition set (ttl_default : Z) (key : string) (value : cached)
    (ttl : option Z) : M bool :=
    fun w =>
      if negb w.(client) then (Ok false, w)
      else
        let ttl := match ttl with
                   | Some t => if t =? 0 then ttl_default else t
                   | None => ttl_default
                   end in
        command (fun r => (true, <[key := (ttl, value)]> r)) w.

Definition delete (key : string) : M bool :=
    fun w =>
      if negb w.(client) then (Ok false, w)
      else command (fun r => (true, base.delete key r)) w.

  (** The server's answer to [KEYS pattern]. *)
Definition keys (pattern : string) (r : gmap string (Z * cached))
    : list string :=
    (map_to_list (filter (fun kv => glob_match pattern kv.1 = true) r)).*1.

  (** [KEYS pattern], then [DEL *keys] when some key was found; the answer
      is the number of keys removed. *)
Definition clear_pattern (pattern : string) : M Z :=
    fun w =>
      if negb w.(client) then (Ok 0, w)
      else
        bind (command (fun r => (keys pattern r, r)))
          (fun ks =>
             match ks with
             | [] => ret 0
             | _ :: _ =>
                 command (fun r =>
                   (Z.of_nat (length (filter (fun k => is_Some (r !! k)) ks)),
                    foldr base.delete r ks))
             end) w.

Definition cache_key (prefix : string) (args : list string) : string :=
    prefix +:+ ":" +:+ String.concat ":" args.

End RedisClient.

(* ===================================================================== *)
(** ** The environment *)
(* ===================================================================== *)

(** Answer of the LinkedIn organization lookup followed by
    [_get_organization_details]. *)
Inductive org_answer : Type :=
  | OrgUnavailable                      (* HTTP error, non-200, no element *)
  | OrgDetails (d : option OrgData.t).  (* the details dict; [None] is [{}] *)

(** The float quotient [total / count], kept as the exact fraction. *)
Record ratio : Type := mkRatio { numerator : Z; denominator : Z }.

(** The context dict of [AIService._prepare_context]. *)
Record PageContext : Type := mkPageContext {
  ctx_name : option string;
  ctx_industry : option string;
  ctx_description : option string;
  ctx_follower_count : option Z;
  ctx_employee_count : option Z;
  ctx_company_size : option string;
  ctx_specialties : option json;
  ctx_headquarters : option string;
  ctx_founded_year : option Z;
  ctx_company_type : option string
}.

Record ContentContext : Type := mkContentContext {
  total_posts_analyzed : Z;
  total_engagement : Z;
  ctx_avg_likes : ratio;
  ctx_avg_comments : ratio;
  ctx_avg_shares : ratio;
  content_types : list (option string * Z);
  top_hashtags : list string;
  sample_posts : list (string * Z)
}.

Record EmployeesContext : Type := mkEmployeesContext {
  total_analyzed : Z;
  top_titles : list string;
  ctx_locations : list string;
  ctx_industries : list string
}.

Record SummaryContext : Type := mkSummaryContext {
  ctx_page : PageContext;
  ctx_content : option ContentContext;
  ctx_employees : option EmployeesContext
}.

(** One page of the comparison prompt of [_generate_comparison]. *)
Record PageFacts : Type := mkPageFacts {
  facts_name : option string;
  facts_industry : option string;
  facts_followers : option Z;
  facts_employees : option Z;
  facts_description : string
}.

(** Everything the process does not decide: settings, the clock, the
    upstream provider, object storage, the narrative engine (its answer
    parsed by [json.loads]; [None] when the call or the parsing raises), and
    the LIKE operator and the row order of the SQL engine. *)
Record Env : Type := mkEnv {
  CACHE_TTL : Z;
  AWS_S3_BUCKET : string;
  AWS_REGION : string;
  now : Z;
  api_organization : string -> org_answer;
  api_posts : string -> option (list PostData.t);
  api_employees : string -> option (list EmployeeData.t);
  s3_transfer : string -> bool;
  generated_filename : string -> string;
  chat_summary : SummaryContext -> option json;
  chat_compare : list PageFacts -> option json;
  sql_ilike : string -> option string -> bool;
  order_by_follower_count_desc : list Page.t -> list Page.t;
  order_by_posted_at_desc : list Post.t -> list Post.t
}.

(* ===================================================================== *)
(** ** The SQLAlchemy session against the entity store *)
(* ===================================================================== *)

Module Store.

  (** [select(Page).where(Page.page_id == page_id)], [scalar_one_or_none]. *)
Definition page_by_page_id (page_id : string) (d : DB) : option Page.t :=
    List.find (fun p => bool_decide (p.(Page.page_id) = Some page_id)) d.(pages).

  (** A UNIQUE column admits a value when it is NULL or held by no row. *)
Definition unique_among {A} (column : A -> option string) (rows : list A)
    (v : option string) : bool :=
    match v with
    | None => true
    | Some _ => negb (bool_decide (v ∈ column <$> rows))
    end.

Definition not_null {A} (v : option A) : bool :=
    match v with Some _ => true | None => false end.

  (** The constraints declared on [pages]: [page_id] NOT NULL UNIQUE,
      [linkedin_id] UNIQUE, [name] NOT NULL. *)
Definition page_constraints (others : list Page.t) (p : Page.t) : bool :=
    not_null p.(Page.page_id) && not_null p.(Page.name)
    && unique_among Page.page_id others p.(Page.page_id)
    && unique_among Page.linkedin_id others p.(Page.linkedin_id).

  (** The constraints declared on [posts]: [post_id] NOT NULL UNIQUE,
      [page_id] NOT NULL referencing [pages.id]. *)
Definition post_constraints (d : DB) (p : Post.t) : bool :=
    not_null p.(Post.post_id)
    && unique_among Post.post_id d.(posts) p.(Post.post_id)
    && not_null p.(Post.page_id)
    && bool_decide (p.(Post.page_id) ∈ Page.id <$> d.(pages)).

  (** The constraints declared on [employees]: [linkedin_id] NOT NULL
      UNIQUE, [page_id] NOT NULL referencing [pages.id]. *)
Definition employee_constraints (d : DB) (e : Employee.t) : bool :=
    not_null e.(Employee.linkedin_id)
    && unique_among Employee.linkedin_id d.(employees) e.(Employee.linkedin_id)
    && not_null e.(Employee.page_id)
    && bool_decide (e.(Employee.page_id) ∈ Page.id <$> d.(pages)).

  (** A column default applies when the attribute is [None] at INSERT. *)
Definition or_default {A} (dflt : A) (v : option A) : option A :=
    match v with Some _ => v | None => Some dflt end.

Definition page_row (now id : Z) (p : Page.t) : Page.t :=
    Page.set_id (Some id)
      (Page.set_follower_count (or_default 0 p.(Page.follower_count))
         (Page.set_employee_count (or_default 0 p.(Page.employee_count))
            (Page.set_created_at (Some now) p))).

  (** [db.add(page); await db.commit(); await db.refresh(page)]. *)
Definition add_page (now : Z) (p : Page.t) : M Page.t :=
    d <- get_db ;;
    if page_constraints d.(pages) p then
      let row := page_row now d.(next_page_id) p in
      put_db {| pages := d.(pages) ++ [row]; posts := d.(posts);
                employees := d.(employees);
                next_page_id := d.(next_page_id) + 1;
                next_post_id := d.(next_post_id);
                next_employee_id := d.(next_employee_id) |} ;;;
      ret row
    else raise IntegrityError.

Definition same_row (p q : Page.t) : bool :=
    bool_decide (p.(Page.id) = q.(Page.id)).

  (** [await db.commit(); await db.refresh(page)] after attributes of the
      persistent [page] were assigned: an UPDATE of its row, which also
      fires [onupdate] of [updated_at]. *)
Definition update_page (now : Z) (p : Page.t) : M Page.t :=
    d <- get_db ;;
    let others := List.filter (fun q => negb (same_row p q)) d.(pages) in
    if page_constraints others p then
      let row := Page.set_updated_at (Some now) p in
      put_db {| pages := (fun q => if same_row p q then row else q) <$> d.(pages);
                posts := d.(posts); employees := d.(employees);
                next_page_id := d.(next_page_id);
                next_post_id := d.(next_post_id);
                next_employee_id := d.(next_employee_id) |} ;;;
      ret row
    else raise IntegrityError.

Definition post_row (now id : Z) (p : Post.t) : Post.t :=
    {| Post.id := Some id; Post.post_id := p.(Post.post_id);
       Post.page_id := p.(Post.page_id); Post.text := p.(Post.text);
       Post.content_type := p.(Post.content_type);
       Post.media_url := p.(Post.media_url);
       Post.media_s3_url := p.(Post.media_s3_url);
       Post.media_type := p.(Post.media_type);
       Post.like_count := or_default 0 p.(Post.like_count);
       Post.comment_count := or_default 0 p.(Post.comment_count);
       Post.share_count := or_default 0 p.(Post.share_count);
       Post.view_count := or_default 0 p.(Post.view_count);
       Post.posted_at := p.(Post.posted_at);
       Post.author_name := p.(Post.author_name);
       Post.author_title := p.(Post.author_title);
       Post.hashtags := p.(Post.hashtags); Post.mentions := p.(Post.mentions);
       Post.extra_data := p.(Post.extra_data);
       Post.created_at := Some now; Post.updated_at := p.(Post.updated_at) |}.

  (** The INSERTs of one flush, row by row; [None] when a constraint
      fails. *)
Fixpoint insert_posts (now : Z) (new : list Post.t) (d : DB) : option DB :=
    match new with
    | [] => Some d
    | p :: rest =>
        if post_constraints d p then
          insert_posts now rest
            {| pages := d.(pages);
               posts := d.(posts) ++ [post_row now d.(next_post_id) p];
               employees := d.(employees);
               next_page_id := d.(next_page_id);
               next_post_id := d.(next_post_id) + 1;
               next_employee_id := d.(next_employee_id) |}
        else None
    end.

  (** [db.add(post)] for each post, then [await db.commit()]: one
      transaction, rolled back as a whole on an [IntegrityError]. *)
Definition add_posts (now : Z) (new : list Post.t) : M unit :=
    d <- get_db ;;
    match insert_posts now new d with
    | Some d' => put_db d'
    | None => raise IntegrityError
    end.

Definition employee_row (now id : Z) (e : Employee.t) : Employee.t :=
    {| Employee.id := Some id; Employee.linkedin_id := e.(Employee.linkedin_id);
       Employee.page_id := e.(Employee.page_id);
       Employee.first_name := e.(Employee.first_name);
       Employee.last_name := e.(Employee.last_name);
       Employee.full_name := e.(Employee.full_name);
       Employee.headline := e.(Employee.headline);
       Employee.profile_url := e.(Employee.profile_url);
       Employee.profile_picture_url := e.(Employee.profile_picture_url);
       Employee.profile_picture_s3_url := e.(Employee.profile_picture_s3_url);
       Employee.current_title := e.(Employee.current_title);
       Employee.current_company := e.(Employee.current_company);
       Employee.location := e.(Employee.location);
       Employee.country := e.(Employee.country);
       Employee.industry := e.(Employee.industry);
       Employee.connections_count := e.(Employee.connections_count);
       Employee.is_following := or_default false e.(Employee.is_following);
       Employee.is_follower := or_default false e.(Employee.is_follower);
       Employee.is_employee := or_default true e.(Employee.is_employee);
       Employee.experience_summary := e.(Employee.experience_summary);
       Employee.education_summary := e.(Employee.education_summary);
       Employee.skills := e.(Employee.skills);
       Employee.extra_data := e.(Employee.extra_data);
       Employee.created_at := Some now;
       Employee.updated_at := e.(Employee.updated_at) |}.

Fixpoint insert_employees (now : Z) (new : list Employee.t) (d : DB)
    : option DB :=
    match new with
    | [] => Some d
    | e :: rest =>
        if employee_constraints d e then
          insert_employees now rest
            {| pages := d.(pages); posts := d.(posts);
               employees := d.(employees)
                            ++ [employee_row now d.(next_employee_id) e];
               next_page_id := d.(next_page_id);
               next_post_id := d.(next_post_id);
               next_employee_id := d.(next_employee_id) + 1 |}
        else None
    end.

Definition add_employees (now : Z) (new : list Employee.t) : M unit :=
    d <- get_db ;;
    match insert_employees now new d with
    | Some d' => put_db d'
    | None => raise IntegrityError
    end.

End Store.

(* ===================================================================== *)
(** ** [app/services/linkedin_service.py] and [storage_service.py] *)
(* ===================================================================== *)

Module LinkedInService.

  (** [get_organization_by_vanity_name]: the raw provider answer is itself
      cached under [org:{vanity_name}].  The result is [None], the empty
      dict ([Some None]) or the details dict. *)
Definition get_organization_by_vanity_name (env : Env) (vanity_name : string)
    : M (option (option OrgData.t)) :=
    let cache_key := RedisClient.cache_key "org" [vanity_name] in
    cached <- RedisClient.get cache_key ;;
    let fetch :=
      match env.(api_organization) vanity_name with
      | OrgDetails org_data =>
          RedisClient.set env.(CACHE_TTL) cache_key (CachedOrg org_data) None ;;;
          ret (Some org_data)
      | OrgUnavailable => ret None
      end in
    match cached with
    | Some c =>
        if truthy c then
          match c with
          | CachedOrg d => ret (Some d)
          | _ => raise ValidationError  (* no writer stores another shape here *)
          end
        else fetch
    | None => fetch
    end.

  (** [get_organization_posts(org_id, count=25, start=0)]. *)
Definition get_organization_posts (env : Env) (org_id : option string)
    : M (list PostData.t) :=
    let cache_key := RedisClient.cache_key "posts" [py_str org_id; "0"; "25"] in
    cached <- RedisClient.get cache_key ;;
    let fetch :=
      match env.(api_posts) (py_str org_id) with
      | Some posts =>
          RedisClient.set env.(CACHE_TTL) cache_key (CachedPosts posts) None ;;;
          ret posts
      | None => ret []
      end in
    match cached with
    | Some c =>
        if truthy c then
          match c with
          | CachedPosts l => ret l
          | _ => raise ValidationError
          end
        else fetch
    | None => fetch
    end.

  (** [get_organization_employees(org_id, count=50, start=0)]. *)
Definition get_organization_employees (env : Env) (org_id : option string)
    : M (list EmployeeData.t) :=
    let cache_key := RedisClient.cache_key "employees" [py_str org_id; "0"; "50"] in
    cached <- RedisClient.get cache_key ;;
    let fetch :=
      match env.(api_employees) (py_str org_id) with
      | Some employees =>
          RedisClient.set env.(CACHE_TTL) cache_key (CachedEmployees employees) None ;;;
          ret employees
      | None => ret []
      end in
    match cached with
    | Some c =>
        if truthy c then
          match c with
          | CachedEmployees l => ret l
          | _ => raise ValidationError
          end
        else fetch
    | None => fetch
    end.

End LinkedInService.

Module StorageService.

  (** [upload_from_url]: [None] for a falsy URL and on any failure of the
      download or of [put_object]; otherwise the public URL of the copy. *)
Definition upload_from_url (env : Env) (url : option string) (folder : string)
    (custom_filename : option string) : option string :=
    match url with
    | Some u =>
        if String.eqb u "" then None
        else if env.(s3_transfer) u then
          let filename :=
            match custom_filename with
            | Some f => if String.eqb f "" then env.(generated_filename) u else f
            | None => env.(generated_filename) u
            end in
          let s3_key := folder +:+ "/" +:+ filename in
          Some ("https://" +:+ env.(AWS_S3_BUCKET) +:+ ".s3." +:+ env.(AWS_REGION)
                +:+ ".amazonaws.com/" +:+ s3_key)
        else None
    | None => None
    end.

Definition clone_page_images (env : Env) (profile_picture_url : option string)
    (page_id : string) : option string :=
    if negb (str_truthy profile_picture_url) then None
    else upload_from_url env profile_picture_url ("pages/" +:+ page_id)
           (Some "profile_picture.jpg").

Definition clone_post_media (env : Env) (media_url : option string)
    (page_id : string) (post_id : string) : option string :=
    if negb (str_truthy media_url) then None
    else upload_from_url env media_url
           ("pages/" +:+ page_id +:+ "/posts/" +:+ post_id) None.

End StorageService.

(* ===================================================================== *)
(** ** [app/api/v1/pages.py]: the fetch-and-store pipeline *)
(* ===================================================================== *)

(** Whitespace of [str.strip()] in the ASCII range. *)
Definition is_space (c : ascii) : bool :=
  let n := N_of_ascii c in
  (N.leb 9 n && N.leb n 13 || N.leb 28 n && N.leb n 32)%bool.

Fixpoint lstrip (s : list ascii) : list ascii :=
  match s with
  | c :: s' => if is_space c then lstrip s' else s
  | [] => []
  end.

Definition strip (s : string) : string :=
  string_of_list_ascii
    (rev (lstrip (rev (lstrip (list_ascii_of_string s))))).

(** [_fetch_and_store_posts]: every fetched post is added as a new row. *)
Definition _fetch_and_store_posts (env : Env) (page : Page.t) : M unit :=
  posts_data <- LinkedInService.get_organization_posts env page.(Page.linkedin_id) ;;
  let new :=
    (fun post_data =>
       let s3_media_url :=
         StorageService.clone_post_media env post_data.(PostData.media_url)
           (py_str page.(Page.page_id)) (py_str post_data.(PostData.post_id)) in
       {| Post.id := None;
          Post.post_id := post_data.(PostData.post_id);
          Post.page_id := page.(Page.id);
          Post.text := post_data.(PostData.text);
          Post.content_type := post_data.(PostData.content_type);
          Post.media_url := post_data.(PostData.media_url);
          Post.media_s3_url := s3_media_url;
          Post.media_type := post_data.(PostData.media_type);
          Post.like_count := post_data.(PostData.like_count);
          Post.comment_count := post_data.(PostData.comment_count);
          Post.share_count := post_data.(PostData.share_count);
          Post.view_count := None;
          Post.posted_at := post_data.(PostData.posted_at);
          Post.author_name := None;
          Post.author_title := None;
          Post.hashtags := post_data.(PostData.hashtags);
          Post.mentions := post_data.(PostData.mentions);
          Post.extra_data := None;
          Post.created_at := None;
          Post.updated_at := None |}) <$> posts_data in
  Store.add_posts env.(now) new.

(** [_fetch_and_store_employees]: every fetched employee is added as a new
    row. *)
Definition _fetch_and_store_employees (env : Env) (page : Page.t) : M unit :=
  employees_data <-
    LinkedInService.get_organization_employees env page.(Page.linkedin_id) ;;
  let new :=
    (fun emp_data =>
       {| Employee.id := None;
          Employee.linkedin_id := emp_data.(EmployeeData.linkedin_id);
          Employee.page_id := page.(Page.id);
          Employee.first_name := emp_data.(EmployeeData.first_name);
          Employee.last_name := emp_data.(EmployeeData.last_name);
          Employee.full_name :=
            Some (strip (py_str emp_data.(EmployeeData.first_name) +:+ " "
                         +:+ py_str emp_data.(EmployeeData.last_name)));
          Employee.headline := emp_data.(EmployeeData.headline);
          Employee.profile_url := emp_data.(EmployeeData.profile_url);
          Employee.profile_picture_url := emp_data.(EmployeeData.profile_picture_url);
          Employee.profile_picture_s3_url := None;
          Employee.current_title := None;
          Employee.current_company := None;
          Employee.location := emp_data.(EmployeeData.location);
          Employee.country := None;
          Employee.industry := emp_data.(EmployeeData.industry);
          Employee.connections_count := None;
          Employee.is_following := None;
          Employee.is_follower := None;
          Employee.is_employee := Some true;
          Employee.experience_summary := None;
          Employee.education_summary := None;
          Employee.skills := None;
          Employee.extra_data := None;
          Employee.created_at := None;
          Employee.updated_at := None |}) <$> employees_data in
  Store.add_employees env.(now) new.

(** One turn of the merge loop:
    [if hasattr(existing_page, key) and value is not None: setattr(...)]. *)
Definition merge_step (existing_page : Page.t) (item : string * value) : Page.t :=
  let '(key, v) := item in
  if Page.hasattr key && is_not_None v then Page.setattr existing_page key v
  else existing_page.

(** The update branch up to the commit: the merge loop, then the two
    unconditional assignments. *)
Definition merge_page (now : Z) (existing_page : Page.t) (linkedin_data : OrgData.t)
  (s3_picture_url : option string) : Page.t :=
  let merged := foldl merge_step existing_page (OrgData.items linkedin_data) in
  Page.set_last_scraped_at (Some now)
    (Page.set_profile_picture_s3_url s3_picture_url merged).

(** The [Page(...)] constructor call of the create branch. *)
Definition new_page (now : Z) (page_id : string) (linkedin_data : OrgData.t)
  (s3_picture_url : option string) : Page.t :=
  {| Page.id := None;
     Page.page_id := Some page_id;
     Page.linkedin_id := linkedin_data.(OrgData.linkedin_id);
     Page.name := linkedin_data.(OrgData.name);
     Page.url := linkedin_data.(OrgData.url);
     Page.profile_picture_url := linkedin_data.(OrgData.profile_picture_url);
     Page.profile_picture_s3_url := s3_picture_url;
     Page.description := linkedin_data.(OrgData.description);
     Page.tagline := None;
     Page.website := linkedin_data.(OrgData.website);
     Page.industry := linkedin_data.(OrgData.industry);
     Page.company_size := linkedin_data.(OrgData.company_size);
     Page.headquarters := linkedin_data.(OrgData.headquarters);
     Page.founded_year := linkedin_data.(OrgData.founded_year);
     Page.company_type := linkedin_data.(OrgData.company_type);
     Page.follower_count := linkedin_data.(OrgData.follower_count);
     Page.employee_count := None;
     Page.specialties := linkedin_data.(OrgData.specialties);
     Page.locations := linkedin_data.(OrgData.locations);
     Page.extra_data := None;
     Page.created_at := None;
     Page.updated_at := None;
     Page.last_scraped_at := Some now |}.

(** [_fetch_and_store_page(page_id, db, force_update)]. *)
Definition _fetch_and_store_page (env : Env) (page_id : string)
  (force_update : bool) : M (option Page.t) :=
  d <- get_db ;;
  let existing_page := Store.page_by_page_id page_id d in
  if Store.not_null existing_page && negb force_update then ret existing_page
  else
    linkedin_data <- LinkedInService.get_organization_by_vanity_name env page_id ;;
    match linkedin_data with
    | None | Some None => ret None
    | Some (Some linkedin_data) =>
        let s3_picture_url :=
          StorageService.clone_page_images env
            linkedin_data.(OrgData.profile_picture_url) page_id in
        match existing_page with
        | Some existing_page =>
            page <- Store.update_page env.(now)
                      (merge_page env.(now) existing_page linkedin_data s3_picture_url) ;;
            ret (Some page)
        | None =>
            page <- Store.add_page env.(now)
                      (new_page env.(now) page_id linkedin_data s3_picture_url) ;;
            _fetch_and_store_posts env page ;;;
            _fetch_and_store_employees env page ;;;
            ret (Some page)
        end
    end.

(* ===================================================================== *)
(** ** [app/api/v1/pages.py] and [posts.py]: the endpoints *)
(* ===================================================================== *)

(** [PageResponse.model_validate(page)]: the response model reads the
    attributes of the row ([from_attributes]); it has the keys of
    [Page.to_dict].  Pydantic's checks of the field types are not
    modelled. *)
Definition PageResponse_model_validate (p : Page.t) : PageDict.t :=
  {| PageDict.id := p.(Page.id); PageDict.page_id := p.(Page.page_id);
     PageDict.linkedin_id := p.(Page.linkedin_id); PageDict.name := p.(Page.name);
     PageDict.url := p.(Page.url);
     PageDict.profile_picture_url := p.(Page.profile_picture_url);
     PageDict.description := p.(Page.description);
     PageDict.tagline := p.(Page.tagline); PageDict.website := p.(Page.website);
     PageDict.industry := p.(Page.industry);
     PageDict.company_size := p.(Page.company_size);
     PageDict.headquarters := p.(Page.headquarters);
     PageDict.founded_year := p.(Page.founded_year);
     PageDict.company_type := p.(Page.company_type);
     PageDict.follower_count := p.(Page.follower_count);
     PageDict.employee_count := p.(Page.employee_count);
     PageDict.specialties := p.(Page.specialties);
     PageDict.locations := p.(Page.locations);
     PageDict.created_at := p.(Page.created_at);
     PageDict.updated_at := p.(Page.updated_at);
     PageDict.last_scraped_at := p.(Page.last_scraped_at) |}.

(** [PostResponse.model_validate(post)], likewise. *)
Definition PostResponse_model_validate (p : Post.t) : PostDict.t :=
  {| PostDict.id := p.(Post.id); PostDict.post_id := p.(Post.post_id);
     PostDict.page_id := p.(Post.page_id); PostDict.text := p.(Post.text);
     PostDict.content_type := p.(Post.content_type);
     PostDict.media_url := p.(Post.media_url);
     PostDict.media_type := p.(Post.media_type);
     PostDict.like_count := p.(Post.like_count);
     PostDict.comment_count := p.(Post.comment_count);
     PostDict.share_count := p.(Post.share_count);
     PostDict.view_count := p.(Post.view_count);
     PostDict.posted_at := p.(Post.posted_at);
     PostDict.author_name := p.(Post.author_name);
     PostDict.author_title := p.(Post.author_title);
     PostDict.hashtags := p.(Post.hashtags); PostDict.mentions := p.(Post.mentions);
     PostDict.created_at := p.(Post.created_at);
     PostDict.updated_at := p.(Post.updated_at) |}.

(** The paginated listing responses ([PageListResponse],
    [PostListResponse], and the dict of [get_page_posts]). *)
Record Listing (A : Type) : Type := mkListing {
  items : list A;
  total : Z;
  page : Z;
  page_size : Z;
  total_pages : Z;
  has_next : bool;
  has_prev : bool
}.
Arguments mkListing {A}.
Arguments items {A}.
Arguments total {A}.
Arguments page {A}.
Arguments page_size {A}.
Arguments total_pages {A}.
Arguments has_next {A}.
Arguments has_prev {A}.

(** [.offset(offset).limit(page_size)] on the ordered rows. *)
Definition window {A} (offset page_size : Z) (rows : list A) : list A :=
  take (Z.to_nat page_size) (drop (Z.to_nat offset) rows).

(** SQL comparison with a nullable column: NULL satisfies nothing. *)
Definition sql_ge (column : option Z) (bound : Z) : bool :=
  match column with Some v => bound <=? v | None => false end.

Definition sql_le (column : option Z) (bound : Z) : bool :=
  match column with Some v => v <=? bound | None => false end.

(** [get_pages(page, page_size, name, industry, min_followers,
    max_followers)]. *)
Definition get_pages (env : Env) (page page_size : Z) (name industry : option string)
  (min_followers max_followers : option Z) : M (Listing PageDict.t) :=
  d <- get_db ;;
  let filters : list (Page.t -> bool) :=
    ((if str_truthy name
     then [fun p => env.(sql_ilike) ("%" +:+ py_str name +:+ "%") p.(Page.name)]
     else [])
    ++ (if str_truthy industry
        then [fun p => env.(sql_ilike) ("%" +:+ py_str industry +:+ "%") p.(Page.industry)]
        else [])
    ++ match min_followers with
       | Some m => [fun p => sql_ge p.(Page.follower_count) m]
       | None => []
       end
    ++ match max_followers with
       | Some m => [fun p => sql_le p.(Page.follower_count) m]
       | None => []
       end)%list in
  let matching := List.filter (fun p => forallb (fun f => f p) filters) d.(pages) in
  let total := Z.of_nat (length matching) in
  let offset := (page - 1) * page_size in
  let total_pages := (total + page_size - 1) / page_size in
  let pages := window offset page_size (env.(order_by_follower_count_desc) matching) in
  ret {| items := PageResponse_model_validate <$> pages;
         total := total;
         page := page;
         page_size := page_size;
         total_pages := total_pages;
         has_next := page <? total_pages;
         has_prev := 1 <? page |}.

(** Truthiness of an integer primary key ([if db_page_id:]). *)
Definition int_truthy (n : option Z) : bool :=
  match n with Some v => negb (v =? 0) | None => false end.

(** [get_posts(page, page_size, page_id, content_type, min_likes)]. *)
Definition get_posts (env : Env) (page page_size : Z) (page_id content_type : option string)
  (min_likes : option Z) : M (Listing PostDict.t) :=
  d <- get_db ;;
  let by_page : list (Post.t -> bool) :=
    if str_truthy page_id then
      let db_page_id :=
        match Store.page_by_page_id (py_str page_id) d with
        | Some p => p.(Page.id)
        | None => None
        end in
      if int_truthy db_page_id
      then [fun p => bool_decide (p.(Post.page_id) = db_page_id)]
      else []
    else [] in
  let filters :=
    (by_page
    ++ (if str_truthy content_type
        then [fun p => bool_decide (p.(Post.content_type) = content_type)]
        else [])
    ++ match min_likes with
       | Some m => [fun p => sql_ge p.(Post.like_count) m]
       | None => []
       end)%list in
  let matching := List.filter (fun p => forallb (fun f => f p) filters) d.(posts) in
  let total := Z.of_nat (length matching) in
  let offset := (page - 1) * page_size in
  let total_pages := (total + page_size - 1) / page_size in
  let posts := window offset page_size (env.(order_by_posted_at_desc) matching) in
  ret {| items := PostResponse_model_validate <$> posts;
         total := total;
         page := page;
         page_size := page_size;
         total_pages := total_pages;
         has_next := page <? total_pages;
         has_prev := 1 <? page |}.

Definition posts_of (d : DB) (page : Page.t) : list Post.t :=
  List.filter (fun p => bool_decide (p.(Post.page_id) = page.(Page.id))) d.(posts).

Definition page_not_found (page_id : string) : exn :=
  HTTPException 404 ("Page '" +:+ page_id +:+ "' not found").

(** [get_page_posts(page_id, page, page_size)]. *)
Definition get_page_posts (env : Env) (page_id : string) (page page_size : Z)
  : M (Listing PostDict.t) :=
  d <- get_db ;;
  match Store.page_by_page_id page_id d with
  | None => raise (page_not_found page_id)
  | Some db_page =>
      let offset := (page - 1) * page_size in
      let posts := window offset page_size
                     (env.(order_by_posted_at_desc) (posts_of d db_page)) in
      let total := Z.of_nat (length (posts_of d db_page)) in
      let total_pages := (total + page_size - 1) / page_size in
      ret {| items := Post.to_dict <$> posts;
             total := total;
             page := page;
             page_size := page_size;
             total_pages := total_pages;
             has_next := page <? total_pages;
             has_prev := 1 <? page |}
  end.

(** [get_page(page_id, fetch_if_missing)]: cache check, store check, fetch
    decision, composition, cache write. *)
Definition get_page (env : Env) (page_id : string) (fetch_if_missing : bool)
  : M PageDetail.t :=
  let cache_key := RedisClient.cache_key "page_detail" [page_id] in
  let compute : M PageDetail.t :=
    d <- get_db ;;
    let page := Store.page_by_page_id page_id d in
    page <- (if negb (Store.not_null page) && fetch_if_missing
             then _fetch_and_store_page env page_id false
             else ret page) ;;
    match page with
    | None => raise (page_not_found page_id)
    | Some page =>
        d <- get_db ;;
        let posts_count := Z.of_nat (length (posts_of d page)) in
        let recent_posts :=
          Post.to_dict <$> take 10 (env.(order_by_posted_at_desc) (posts_of d page)) in
        let response_data :=
          {| PageDetail.page := Page.to_dict page;
             PageDetail.posts_count := posts_count;
             PageDetail.recent_posts := recent_posts |} in
        RedisClient.set env.(CACHE_TTL) cache_key (CachedPageDetail response_data) None ;;;
        ret response_data
    end in
  cached <- RedisClient.get cache_key ;;
  match cached with
  | Some c =>
      if truthy c then
        match c with
        | CachedPageDetail d => ret d
        | _ => raise ValidationError
        end
      else compute
  | None => compute
  end.

(** [refresh_page(page_id)]: invalidate, then fetch with
    [force_update=True]. *)
Definition refresh_page (env : Env) (page_id : string) : M PageDict.t :=
  RedisClient.clear_pattern ("*" +:+ page_id +:+ "*") ;;;
  page <- _fetch_and_store_page env page_id true ;;
  match page with
  | None =>
      raise (HTTPException 404
               ("Could not fetch page '" +:+ page_id +:+ "' from LinkedIn"))
  | Some page => ret (PageResponse_model_validate page)
  end.

(* ===================================================================== *)
(** ** [app/services/ai_service.py] *)
(* ===================================================================== *)

Definition rbind {A B} (r : result A) (k : A -> result B) : result B :=
  match r with
  | Ok a => k a
  | Raise e => Raise e
  end.

Notation "x <~ r ;; k" := (rbind r (fun x => k))
  (at level 100, r at next level, right associativity) : io_scope.

Definition json_of_str (s : option string) : json :=
  match s with Some s => JStr s | None => JNull end.

(** [sum(... for p in posts_data)] over values that may be [None]. *)
Fixpoint py_sum (l : list (option Z)) : result Z :=
  match l with
  | [] => Ok 0
  | Some n :: l' => s <~ py_sum l' ;; Ok (n + s)
  | None :: _ => Raise TypeError
  end.

(** [counts[k] = counts.get(k, 0) + 1] on a dict in insertion order. *)
Fixpoint count_up {K} (eqb : K -> K -> bool) (k : K) (counts : list (K * Z))
  : list (K * Z) :=
  match counts with
  | [] => [(k, 1)]
  | (k', n) :: rest =>
      if eqb k k' then (k', n + 1) :: rest
      else (k', n) :: count_up eqb k rest
  end.

(** [sorted(..., key=..., reverse=True)]: stable, descending. *)
Fixpoint insert_desc {A} (key : A -> Z) (x : A) (sorted : list A) : list A :=
  match sorted with
  | [] => [x]
  | y :: rest =>
      if key y <? key x then x :: y :: rest
      else y :: insert_desc key x rest
  end.

Definition sorted_desc {A} (key : A -> Z) (l : list A) : list A :=
  foldl (fun acc x => insert_desc key x acc) [] l.

Definition opt_str_eqb (a b : option string) : bool := bool_decide (a = b).

Module AIService.

Definition _analyze_content_types (posts : list PostDict.t)
    : list (option string * Z) :=
    foldl (fun types post => count_up opt_str_eqb post.(PostDict.content_type) types)
      [] posts.

  (** [for tag in post.get("hashtags", [])]: iterating [None] raises. *)
Definition _get_top_hashtags (posts : list PostDict.t) : result (list string) :=
    counts <~ foldl (fun acc post =>
                       counts <~ acc ;;
                       match post.(PostDict.hashtags) with
                       | Some tags =>
                           Ok (foldl (fun c tag => count_up String.eqb tag c) counts tags)
                       | None => Raise TypeError
                       end) (Ok []) posts ;;
    Ok ((take 10 (sorted_desc snd counts)).*1).

Definition _get_top_values (values : list (option string)) : list string :=
    let counts :=
      foldl (fun c v => if str_truthy v then count_up String.eqb (py_str v) c else c)
        [] values in
    (take 5 (sorted_desc snd counts)).*1.

  (** [p.get("text", "")[:200]]: slicing [None] raises. *)
Definition text_prefix (text : option string) : result string :=
    match text with
    | Some t => Ok (String.substring 0 200 t)
    | None => Raise TypeError
    end.

Definition _prepare_context (page_data : PageDict.t)
    (posts_data : option (list PostDict.t))
    (employees_data : option (list EmployeeDict.t)) : result SummaryContext :=
    let page_ctx :=
      {| ctx_name := page_data.(PageDict.name);
         ctx_industry := page_data.(PageDict.industry);
         ctx_description := page_data.(PageDict.description);
         ctx_follower_count := page_data.(PageDict.follower_count);
         ctx_employee_count := page_data.(PageDict.employee_count);
         ctx_company_size := page_data.(PageDict.company_size);
         ctx_specialties := page_data.(PageDict.specialties);
         ctx_headquarters := page_data.(PageDict.headquarters);
         ctx_founded_year := page_data.(PageDict.founded_year);
         ctx_company_type := page_data.(PageDict.company_type) |} in
    content <~
      match posts_data with
      | Some (p :: l) =>
          let posts := p :: l in
          let n := Z.of_nat (length posts) in
          total_likes <~ py_sum (PostDict.like_count <$> posts) ;;
          total_comments <~ py_sum (PostDict.comment_count <$> posts) ;;
          total_shares <~ py_sum (PostDict.share_count <$> posts) ;;
          hashtags <~ _get_top_hashtags posts ;;
          let best :=
            take 5 (sorted_desc (fun p => default 0 p.(PostDict.like_count)) posts) in
          samples <~ foldr (fun p acc =>
                              text <~ text_prefix p.(PostDict.text) ;;
                              rest <~ acc ;;
                              Ok ((text, default 0 p.(PostDict.like_count)) :: rest))
                       (Ok []) best ;;
          Ok (Some {| total_posts_analyzed := n;
                      total_engagement := total_likes + total_comments + total_shares;
                      ctx_avg_likes := mkRatio total_likes n;
                      ctx_avg_comments := mkRatio total_comments n;
                      ctx_avg_shares := mkRatio total_shares n;
                      content_types := _analyze_content_types posts;
                      top_hashtags := hashtags;
                      sample_posts := samples |})
      | _ => Ok None
      end ;;
    let employees :=
      match employees_data with
      | Some (e :: l) =>
          let emps := e :: l in
          Some {| total_analyzed := Z.of_nat (length emps);
                  top_titles := _get_top_values (EmployeeDict.current_title <$> emps);
                  ctx_locations := _get_top_values (EmployeeDict.location <$> emps);
                  ctx_industries := _get_top_values (EmployeeDict.industry <$> emps) |}
      | _ => None
      end in
    Ok {| ctx_page := page_ctx; ctx_content := content; ctx_employees := employees |}.

Record FollowerAnalysis : Type := mkFollowerAnalysis {
    total_count : option Z;
    growth_trend : json;
    engagement_rate : json;
    top_industries : json;
    top_locations : json
  }.

Record ContentAnalysis : Type := mkContentAnalysis {
    total_posts : Z;
    avg_likes : Z;
    avg_comments : Z;
    avg_shares : Z;
    top_performing_topics : json;
    posting_frequency : json;
    best_posting_times : json
  }.

Record Summary : Type := mkSummary {
    page_id : option string;
    page_name : option string;
    summary : json;
    page_type : json;
    industry_classification : json;
    key_insights : json;
    follower_analysis : FollowerAnalysis;
    content_analysis : ContentAnalysis;
    recommendations : json;
    generated_at : Z
  }.

  (** [_format_summary_response(page_data, analysis)]; [page_data] is a
      [Page.to_dict()], which has no ["posts"] key. *)
Definition _format_summary_response (now : Z) (page_data : PageDict.t)
    (analysis : json) : result Summary :=
    summary <~ dict_get analysis "summary" (JStr "") ;;
    page_type <~ dict_get analysis "page_type" (JStr "unknown") ;;
    industry_classification <~
      dict_get analysis "industry_classification"
        (json_of_str page_data.(PageDict.industry)) ;;
    key_insights <~ dict_get analysis "key_insights" (JArr []) ;;
    fa1 <~ dict_get analysis "follower_analysis" (JObj []) ;;
    growth_trend <~ dict_get fa1 "growth_trend" JNull ;;
    fa2 <~ dict_get analysis "follower_analysis" (JObj []) ;;
    engagement_rate <~ dict_get fa2 "engagement_rate" JNull ;;
    fa3 <~ dict_get analysis "follower_analysis" (JObj []) ;;
    top_industries <~ dict_get fa3 "top_industries" (JArr []) ;;
    fa4 <~ dict_get analysis "follower_analysis" (JObj []) ;;
    top_locations <~ dict_get fa4 "top_locations" (JArr []) ;;
    ca1 <~ dict_get analysis "content_analysis" (JObj []) ;;
    topics <~ dict_get ca1 "best_performing_topics" (JArr []) ;;
    ca2 <~ dict_get analysis "content_analysis" (JObj []) ;;
    posting_frequency <~ dict_get ca2 "posting_frequency" JNull ;;
    ca3 <~ dict_get analysis "content_analysis" (JObj []) ;;
    best_posting_times <~ dict_get ca3 "best_posting_times" (JArr []) ;;
    recommendations <~ dict_get analysis "recommendations" (JArr []) ;;
    Ok {| page_id := page_data.(PageDict.page_id);
          page_name := page_data.(PageDict.name);
          summary := summary;
          page_type := page_type;
          industry_classification := industry_classification;
          key_insights := key_insights;
          follower_analysis :=
            {| total_count := page_data.(PageDict.follower_count);
               growth_trend := growth_trend;
               engagement_rate := engagement_rate;
               top_industries := top_industries;
               top_locations := top_locations |};
          content_analysis :=
            {| total_posts := 0;
               avg_likes := 0;
               avg_comments := 0;
               avg_shares := 0;
               top_performing_topics := topics;
               posting_frequency := posting_frequency;
               best_posting_times := best_posting_times |};
          recommendations := recommendations;
          generated_at := now |}.

  (** The digits of [format(n, ",")]. *)
Fixpoint commas_rev (n : nat) (digits : list ascii) : list ascii :=
    match digits with
    | [] => []
    | c :: rest =>
        match n with
        | O => "," :: c :: commas_rev 2 rest
        | S n' => c :: commas_rev n' rest
        end
    end%char.

Definition format_thousands (n : Z) : string :=
    let digits := list_ascii_of_string (pretty (Z.abs n)) in
    let grouped := string_of_list_ascii (rev (commas_rev 3 (rev digits))) in
    if n <? 0 then "-" +:+ grouped else grouped.

  (** [_generate_fallback_summary(page_data)]; the format spec [:,] raises
      on [None]. *)
Definition _generate_fallback_summary (now : Z) (page_data : PageDict.t)
    : result Summary :=
    followers <~ match page_data.(PageDict.follower_count) with
                 | Some n => Ok (format_thousands n)
                 | None => Raise TypeError
                 end ;;
    Ok {| page_id := page_data.(PageDict.page_id);
          page_name := page_data.(PageDict.name);
          summary :=
            JStr (py_str page_data.(PageDict.name) +:+ " is a "
                  +:+ py_str page_data.(PageDict.industry) +:+ " with "
                  +:+ followers +:+ " followers on LinkedIn.");
          page_type := JStr "company";
          industry_classification := json_of_str page_data.(PageDict.industry);
          key_insights := JArr [];
          follower_analysis :=
            {| total_count := page_data.(PageDict.follower_count);
               growth_trend := JNull;
               engagement_rate := JNull;
               top_industries := JArr [];
               top_locations := JArr [] |};
          content_analysis :=
            {| total_posts := 0;
               avg_likes := 0;
               avg_comments := 0;
               avg_shares := 0;
               top_performing_topics := JArr [];
               posting_frequency := JNull;
               best_posting_times := JArr [] |};
          recommendations :=
            JArr [JStr "Consider posting more regularly to increase engagement";
                  JStr "Engage with your audience by responding to comments";
                  JStr "Share industry insights to establish thought leadership"];
          generated_at := now |}.

  (** [generate_page_summary]: the context is prepared outside the [try];
      any exception inside it (the engine call, the parsing of its answer,
      the formatting) leads to the fallback summary. *)
Definition generate_page_summary (env : Env) (page_data : PageDict.t)
    (posts_data : option (list PostDict.t))
    (employees_data : option (list EmployeeDict.t)) : result Summary :=
    context <~ _prepare_context page_data posts_data employees_data ;;
    match env.(chat_summary) context with
    | Some analysis =>
        match _format_summary_response env.(now) page_data analysis with
        | Ok s => Ok s
        | Raise _ => _generate_fallback_summary env.(now) page_data
        end
    | None => _generate_fallback_summary env.(now) page_data
    end.

End AIService.

(* ===================================================================== *)
(** ** [app/api/v1/ai_summary.py]: compare_pages *)
(* ===================================================================== *)

Inductive comparison_analysis : Type :=
  | AIAnalysis (analysis : json)
  | BasicComparison (by_followers : option string).

Record Comparison : Type := mkComparison {
  pages_compared : list (option string);
  comparison : comparison_analysis;
  compared_at : Z
}.

(** [sorted(pages, key=lambda x: x.get("follower_count", 0),
    reverse=True)[0].get("name")]: comparing a [None] key raises as soon as
    there are two pages. *)
Definition winner_by_followers (pages : list PageDict.t) : result (option string) :=
  if existsb (fun p => negb (Store.not_null p.(PageDict.follower_count))) pages
     && (2 <=? Z.of_nat (length pages))
  then Raise TypeError
  else
    match sorted_desc (fun p => default 0 p.(PageDict.follower_count)) pages with
    | best :: _ => Ok best.(PageDict.name)
    | [] => Raise IndexError
    end.

(** [_generate_comparison(pages)]: the prompt is built before the [try];
    the [except] branch falls back to the comparison by followers. *)
Definition _generate_comparison (env : Env) (pages : list PageDict.t)
  : result Comparison :=
  prompt <~ foldr (fun p acc =>
                     description <~ AIService.text_prefix p.(PageDict.description) ;;
                     rest <~ acc ;;
                     Ok ({| facts_name := p.(PageDict.name);
                            facts_industry := p.(PageDict.industry);
                            facts_followers := p.(PageDict.follower_count);
                            facts_employees := p.(PageDict.employee_count);
                            facts_description := description |} :: rest))
              (Ok []) pages ;;
  match env.(chat_compare) prompt with
  | Some analysis =>
      Ok {| pages_compared := PageDict.name <$> pages;
            comparison := AIAnalysis analysis;
            compared_at := env.(now) |}
  | None =>
      by_followers <~ winner_by_followers pages ;;
      Ok {| pages_compared := PageDict.name <$> pages;
            comparison := BasicComparison by_followers;
            compared_at := env.(now) |}
  end.

(** The identifiers of [page_ids] that resolve to a stored page, as their
    [to_dict], in request order. *)
Definition resolved_pages (d : DB) (page_ids : list string) : list PageDict.t :=
  omap (fun page_id => Page.to_dict <$> Store.page_by_page_id page_id d) page_ids.

(** [compare_pages(page_ids)]. *)
Definition compare_pages (env : Env) (page_ids : list string) : M Comparison :=
  if Z.of_nat (length page_ids) <? 2 then
    raise (HTTPException 400 "At least 2 page IDs required for comparison")
  else if 5 <? Z.of_nat (length page_ids) then
    raise (HTTPException 400 "Maximum 5 pages can be compared at once")
  else
    d <- get_db ;;
    let pages_data := resolved_pages d page_ids in
    if Z.of_nat (length pages_data) <? 2 then
      raise (HTTPException 404 "Not enough pages found for comparison")
    else lift (_generate_comparison env pages_data).

(* ===================================================================== *)
(** ** Notions used by the statements *)
(* ===================================================================== *)

(** [n] is the ceiling of [total / p]. *)
Definition is_ceiling (total p n : Z) : Prop :=
  (n - 1) * p < total <= n * p.

(** [sub] occurs in [s]. *)
Definition contains (sub s : string) : Prop :=
  exists pre post, s = pre +:+ sub +:+ post.

(** The characters with a meaning of their own in a glob pattern. *)
Definition glob_special (c : ascii) : bool :=
  (Ascii.eqb c "*" || Ascii.eqb c "?" || Ascii.eqb c "[" || Ascii.eqb c "\")%bool.

Fixpoint glob_free (s : string) : bool :=
  match s with
  | EmptyString => true
  | String c s' => negb (glob_special c) && glob_free s'
  end.

(** [incoming if incoming is not None else existing]. *)
Definition overwrite {A} (incoming existing : option A) : option A :=
  match incoming with
  | Some _ => incoming
  | None => existing
  end.

(* ===================================================================== *)
(** ** Sample data *)
(* ===================================================================== *)

Definition sample_env : Env :=
  {| CACHE_TTL := 300;
     AWS_S3_BUCKET := "linkedin-insights-storage";
     AWS_REGION := "us-east-1";
     now := 1700000000;
     api_organization := fun _ => OrgUnavailable;
     api_posts := fun _ => None;
     api_employees := fun _ => None;
     s3_transfer := fun _ => false;
     generated_filename := fun _ => "20240101_000000_0123456789ab.jpg";
     chat_summary := fun _ => None;
     chat_compare := fun _ => None;
     sql_ilike := fun _ _ => true;
     order_by_follower_count_desc := fun l => l;
     order_by_posted_at_desc := fun l => l |}.

Definition blank_page : Page.t :=
  {| Page.id := None; Page.page_id := None; Page.linkedin_id := None;
     Page.name := None; Page.url := None; Page.profile_picture_url := None;
     Page.profile_picture_s3_url := None; Page.description := None;
     Page.tagline := None; Page.website := None; Page.industry := None;
     Page.company_size := None; Page.headquarters := None;
     Page.founded_year := None; Page.company_type := None;
     Page.follower_count := None; Page.employee_count := None;
     Page.specialties := None; Page.locations := None; Page.extra_data := None;
     Page.created_at := None; Page.updated_at := None;
     Page.last_scraped_at := None |}.

(** A stored page [acme] with the given row id. *)
Definition stored_page (id : Z) (page_id name : string) : Page.t :=
  Page.set_id (Some id)
    (Page.set_page_id (Some page_id)
       (Page.set_name (Some name)
          (Page.set_follower_count (Some 100)
             (Page.set_employee_count (Some 0) blank_page)))).

Definition empty_db : DB :=
  {| pages := []; posts := []; employees := [];
     next_page_id := 1; next_post_id := 1; next_employee_id := 1 |}.

Definition empty_world : World :=
  {| db := empty_db; redis := ∅; redis_up := true; client := true |}.


Definition sample_page_dict : PageDict.t := Page.to_dict (stored_page 1 "acme" "Acme").

Definition sample_post_dict (likes : Z) : PostDict.t :=
  {| PostDict.id := Some 1; PostDict.post_id := Some "urn:li:share:1";
     PostDict.page_id := Some 1; PostDict.text := Some "Hello #world";
     PostDict.content_type := Some "text"; PostDict.media_url := None;
     PostDict.media_type := None; PostDict.like_count := Some likes;
     PostDict.comment_count := Some 7; PostDict.share_count := Some 3;
     PostDict.view_count := Some 0; PostDict.posted_at := None;
     PostDict.author_name := None; PostDict.author_title := None;
     PostDict.hashtags := Some ["world"]; PostDict.mentions := Some [];
     PostDict.created_at := None; PostDict.updated_at := None |}.

(** An environment whose narrative engine answers with a summary. *)
Definition narrating_env : Env :=
  {| CACHE_TTL := 300;
     AWS_S3_BUCKET := "linkedin-insights-storage";
     AWS_REGION := "us-east-1";
     now := 1700000000;
     api_organization := fun _ => OrgUnavailable;
     api_posts := fun _ => None;
     api_employees := fun _ => None;
     s3_transfer := fun _ => false;
     generated_filename := fun _ => "20240101_000000_0123456789ab.jpg";
     chat_summary := fun _ => Some (JObj [("summary", JStr "A growing company.")]);
     chat_compare := fun _ => Some (JObj [("winner_by_followers", JStr "Acme")]);
     sql_ilike := fun _ _ => true;
     order_by_follower_count_desc := fun l => l;
     order_by_posted_at_desc := fun l => l |}.





(* ===================================================================== *)
(** ** Reasoning about computations in [M] *)
(* ===================================================================== *)

(** Every run of [m] relates the initial world to the final one by [R],
    whether it returns or raises. *)
Definition stable {A} (R : World -> World -> Prop) (m : M A) : Prop :=
  forall w, R w (m w).2.

(** The exception of an unanswered Redis command. *)
Definition no_cache_error {A} (r : result A) : Prop :=
  match r with
  | Raise ConnectionError => False
  | _ => True
  end.

(** From a world satisfying [I], [m] ends in a world satisfying [I] and
    does not fail on the cache. *)
Definition keeps {A} (I : World -> Prop) (m : M A) : Prop :=
  forall w, I w -> I (m w).2 /\ no_cache_error (m w).1.

(** The keys under which the upstream fetcher caches raw provider
    answers. *)
Fixpoint starts_with (prefix s : string) : bool :=
  match prefix with
  | EmptyString => true
  | String a prefix' =>
      match s with
      | EmptyString => false
      | String b s' => Ascii.eqb a b && starts_with prefix' s'
      end
  end.

Definition provider_key (k : string) : bool :=
  starts_with "org:" k || starts_with "posts:" k || starts_with "employees:" k.

(** The cache is the same outside the provider keys, and the connection
    state is the same. *)
Definition cache_frame (w w' : World) : Prop :=
  (forall k, provider_key k = false -> w'.(redis) !! k = w.(redis) !! k)
  /\ w'.(redis_up) = w.(redis_up) /\ w'.(client) = w.(client).

(** The cache and the connection state are the same. *)
Definition same_cache (w w' : World) : Prop :=
  w'.(redis) = w.(redis) /\ w'.(redis_up) = w.(redis_up)
  /\ w'.(client) = w.(client).

(** The store is the same. *)
Definition same_db (w w' : World) : Prop := w'.(db) = w.(db).

(** The child collections of the store are the same. *)
Definition same_children (w w' : World) : Prop :=
  w'.(db).(posts) = w.(db).(posts)
  /\ w'.(db).(employees) = w.(db).(employees).

(** The [pages] table is the same. *)
Definition same_pages (w w' : World) : Prop :=
  w'.(db).(pages) = w.(db).(pages).

(** The cache works: a client is held and the server answers. *)
Definition cache_healthy (w : World) : Prop :=
  w.(client) = true /\ w.(redis_up) = true.

(** [r'] is [r] without the keys matching [pattern]. *)
Definition cleared (pattern : string) (r r' : gmap string (Z * cached)) : Prop :=
  forall k, r' !! k = if glob_match pattern k then None else r !! k.

(** A composed response cached before the refresh. *)
Definition stale_detail (page_id : string) : PageDetail.t :=
  {| PageDetail.page := Page.to_dict (stored_page 1 page_id "Acme");
     PageDetail.posts_count := 0;
     PageDetail.recent_posts := [] |}.

(** A world where the page [page_id] is stored and its composed response
    is cached; the cache works. *)
Definition world_with_cached_detail (page_id : string) : World :=
  {| db := {| pages := [stored_page 1 page_id "Acme"]; posts := [];
              employees := []; next_page_id := 2; next_post_id := 1;
              next_employee_id := 1 |};
     redis := {[ RedisClient.cache_key "page_detail" [page_id]
                 := (300, CachedPageDetail (stale_detail page_id)) ]};
     redis_up := true;
     client := true |}.

(** The upstream fetch of [page_id] fails: the provider is unavailable or
    answers without details, so [_fetch_and_store_page] gets no record. *)
Definition upstream_fails (env : Env) (page_id : string) : Prop :=
  forall d, env.(api_organization) page_id <> OrgDetails (Some d).

(** The server starts or stops answering. *)
Definition server_state (up : bool) (w : World) : World :=
  {| db := w.(db); redis := w.(redis); redis_up := up; client := w.(client) |}.

(** The service connected to Redis at start-up and the server stopped
    answering afterwards. *)
Definition world_after_outage : World :=
  server_state false (RedisClient.initialize empty_world).2.

(** The client holds no connection, and the cache is in the given state. *)
Definition no_client (r0 : gmap string (Z * cached)) (up0 : bool) (w : World)
  : Prop :=
  w.(client) = false /\ w.(redis) = r0 /\ w.(redis_up) = up0.

(** The value has the type of the column. *)
Definition well_typed (key : string) (v : value) : bool :=
  match v, Page.getattr blank_page key with
  | VStr _, Some (VStr _) => true
  | VInt _, Some (VInt _) => true
  | VJson _, Some (VJson _) => true
  | _, _ => false
  end.

(** A normalized record as the provider returns it for [acme]; it carries
    a logo URL. *)
Definition acme_data : OrgData.t :=
  {| OrgData.linkedin_id := Some "1441";
     OrgData.name := Some "Acme";
     OrgData.page_id := Some "acme";
     OrgData.description := None;
     OrgData.website := Some "https://acme.example";
     OrgData.industry := Some "Manufacturing";
     OrgData.company_size := Some "51-200";
     OrgData.headquarters := None;
     OrgData.founded_year := Some 1949;
     OrgData.company_type := None;
     OrgData.specialties := Some (JArr [JStr "anvils"]);
     OrgData.locations := Some (JArr []);
     OrgData.profile_picture_url := Some "https://media.licdn.com/logo.png";
     OrgData.follower_count := Some 150;
     OrgData.url := Some "https://www.linkedin.com/company/acme" |}.

(** An environment where the provider knows [acme], one post and one
    employee of it, and the cloning succeeds. *)
Definition acme_post : PostData.t :=
  {| PostData.post_id := Some "urn:li:share:7001";
     PostData.text := Some "We are hiring #jobs";
     PostData.content_type := Some "text";
     PostData.media_url := None;
     PostData.media_type := None;
     PostData.posted_at := Some 1690000000;
     PostData.like_count := Some 12;
     PostData.comment_count := Some 3;
     PostData.share_count := Some 1;
     PostData.hashtags := Some ["jobs"];
     PostData.mentions := Some [] |}.

Definition acme_employee : EmployeeData.t :=
  {| EmployeeData.linkedin_id := Some "emp-1";
     EmployeeData.first_name := Some "Wile";
     EmployeeData.last_name := Some "Coyote";
     EmployeeData.headline := Some "Test engineer";
     EmployeeData.profile_url := Some "https://www.linkedin.com/in/wile";
     EmployeeData.profile_picture_url := None;
     EmployeeData.location := Some "Arizona";
     EmployeeData.industry := Some "Manufacturing" |}.

Definition acme_env : Env :=
  {| CACHE_TTL := 300;
     AWS_S3_BUCKET := "linkedin-insights-storage";
     AWS_REGION := "us-east-1";
     now := 1700000000;
     api_organization := fun _ => OrgDetails (Some acme_data);
     api_posts := fun _ => Some [acme_post];
     api_employees := fun _ => Some [acme_employee];
     s3_transfer := fun _ => true;
     generated_filename := fun _ => "20240101_000000_0123456789ab.jpg";
     chat_summary := fun _ => None;
     chat_compare := fun _ => None;
     sql_ilike := fun _ _ => true;
     order_by_follower_count_desc := fun l => l;
     order_by_posted_at_desc := fun l => l |}.

(** The world after the first fetch of [acme] into an empty store. *)
Definition world_with_acme : World :=
  (_fetch_and_store_page acme_env "acme" false empty_world).2.

(** The row of [acme] as the create branch stores it. *)
Definition acme_row : Page.t :=
  Store.page_row 1700000000 1
    (new_page 1700000000 "acme" acme_data
       (StorageService.clone_page_images acme_env
          acme_data.(OrgData.profile_picture_url) "acme")).

(** The store holds the page [acme] and nothing else. *)
Definition world_with_acme_page_only : World :=
  with_db {| pages := [acme_row]; posts := []; employees := [];
             next_page_id := 2; next_post_id := 1; next_employee_id := 1 |}
    empty_world.

(** Two pages are stored; as happens when the provider sends no
    description, their [description] is null. *)
Definition world_with_two_pages : World :=
  with_db {| pages := [stored_page 1 "acme" "Acme"; stored_page 2 "globex" "Globex"];
             posts := []; employees := [];
             next_page_id := 3; next_post_id := 1; next_employee_id := 1 |}
    empty_world.

(** The same two pages with a description. *)
Definition world_with_two_described_pages : World :=
  with_db {| pages := [Page.set_description (Some "Anvils and rockets")
                         (stored_page 1 "acme" "Acme");
                       Page.set_description (Some "World domination")
                         (stored_page 2 "globex" "Globex")];
             posts := []; employees := [];
             next_page_id := 3; next_post_id := 1; next_employee_id := 1 |}
    empty_world.

(** What a comparison needs of each resolved page to be computed. *)
Definition comparable (p : PageDict.t) : Prop :=
  is_Some p.(PageDict.description) /\ is_Some p.(PageDict.follower_count).

(* ===================================================================== *)
(** ** Further notions used by the statements *)
(* ===================================================================== *)


(** The string holds no colon. *)
Fixpoint colon_free (s : string) : bool :=
  match s with
  | EmptyString => true
  | String c s' => negb (Ascii.eqb c ":") && colon_free s'
  end.

(** From a world satisfying [I], [m] ends in a world satisfying [I],
    whether it returns or raises. *)
Definition preserves {A} (I : World -> Prop) (m : M A) : Prop :=
  forall w, I w -> I (m w).2.

(** Every post and every employee references a stored page. *)
Definition references_hold (d : DB) : Prop :=
  (forall p, p ∈ d.(posts) ->
     Store.not_null p.(Post.page_id) = true
     /\ p.(Post.page_id) ∈ Page.id <$> d.(pages))
  /\ (forall e, e ∈ d.(employees) ->
        Store.not_null e.(Employee.page_id) = true
        /\ e.(Employee.page_id) ∈ Page.id <$> d.(pages)).

Definition children_reference_pages (w : World) : Prop :=
  references_hold w.(db).

(** No stored employee is flagged as a follower or as followed. *)
Definition no_follower_flags (w : World) : Prop :=
  forall e, e ∈ w.(db).(employees) ->
    e.(Employee.is_follower) <> Some true
    /\ e.(Employee.is_following) <> Some true.

(** The row order of the SQL engine lists the rows it is given. *)
Definition orders_rows (env : Env) : Prop :=
  (forall l, env.(order_by_follower_count_desc) l ≡ₚ l)
  /\ (forall l, env.(order_by_posted_at_desc) l ≡ₚ l).

(* ===================================================================== *)
(** ** [app/api/v1/pages.py]: get_page_followers *)
(* ===================================================================== *)

Record FollowersResponse : Type := mkFollowersResponse {
  followers : list EmployeeDict.t;
  following : list EmployeeDict.t;
  total_followers : Z;
  total_following : Z;
  followers_page : Z;
  followers_page_size : Z
}.

(** [Employee.page_id == db_page.id, Employee.is_follower == True]. *)
Definition followers_of (d : DB) (page : Page.t) : list Employee.t :=
  List.filter
    (fun e => bool_decide (e.(Employee.page_id) = page.(Page.id))
              && bool_decide (e.(Employee.is_follower) = Some true))
    d.(employees).

Definition following_of (d : DB) (page : Page.t) : list Employee.t :=
  List.filter
    (fun e => bool_decide (e.(Employee.page_id) = page.(Page.id))
              && bool_decide (e.(Employee.is_following) = Some true))
    d.(employees).

(** [get_page_followers(page_id, page, page_size)]; the two queries have no
    ORDER BY, the rows come in table order. *)
Definition get_page_followers (page_id : string) (page page_size : Z)
  : M FollowersResponse :=
  d <- get_db ;;
  match Store.page_by_page_id page_id d with
  | None => raise (page_not_found page_id)
  | Some db_page =>
      let offset := (page - 1) * page_size in
      ret {| followers := Employee.to_dict <$> window offset page_size (followers_of d db_page);
             following := Employee.to_dict <$> window offset page_size (following_of d db_page);
             total_followers := Z.of_nat (length (followers_of d db_page));
             total_following := Z.of_nat (length (following_of d db_page));
             followers_page := page;
             followers_page_size := page_size |}
  end.

(** An environment whose provider names the page [acme-inc] when asked for
    [acme]. *)
Definition renaming_env : Env :=
  {| CACHE_TTL := 300;
     AWS_S3_BUCKET := "linkedin-insights-storage";
     AWS_REGION := "us-east-1";
     now := 1700000000;
     api_organization := fun _ =>
       OrgDetails (Some {| OrgData.linkedin_id := Some "1441";
                           OrgData.name := Some "Acme";
                           OrgData.page_id := Some "acme-inc";
                           OrgData.description := None;
                           OrgData.website := None;
                           OrgData.industry := None;
                           OrgData.company_size := None;
                           OrgData.headquarters := None;
                           OrgData.founded_year := None;
                           OrgData.company_type := None;
                           OrgData.specialties := None;
                           OrgData.locations := None;
                           OrgData.profile_picture_url := None;
                           OrgData.follower_count := Some 150;
                           OrgData.url := None |});
     api_posts := fun _ => None;
     api_employees := fun _ => None;
     s3_transfer := fun _ => false;
     generated_filename := fun _ => "20240101_000000_0123456789ab.jpg";
     chat_summary := fun _ => None;
     chat_compare := fun _ => None;
     sql_ilike := fun _ _ => true;
     order_by_follower_count_desc := fun l => l;
     order_by_posted_at_desc := fun l => l |}.

(** The store holds [acme] (row 1); the cache is empty and works. *)
Definition world_with_stored_acme : World :=
  with_db {| pages := [stored_page 1 "acme" "Acme"]; posts := [];
             employees := []; next_page_id := 2; next_post_id := 1;
             next_employee_id := 1 |} empty_world.

(** The primary keys of the [pages] table are the same, row by row. *)
Definition same_page_ids (w w' : World) : Prop :=
  Page.id <$> w'.(db).(pages) = Page.id <$> w.(db).(pages).

(** The listing holds the rows of its page: as many as the page size
    allows and the total leaves from the offset on. *)
Definition fills_window {A} (r : Listing A) : Prop :=
  Z.of_nat (length r.(items))
  = Z.min r.(page_size) (Z.max 0 (r.(total) - (r.(page) - 1) * r.(page_size)))
  /\ (r.(has_next) = true -> Z.of_nat (length r.(items)) = r.(page_size))
  /\ (r.(total_pages) < r.(page) -> r.(items) = []).

(** The store holds a page and twelve posts referencing it. *)
Definition post_numbered (n : Z) : Post.t :=
  {| Post.id := Some n; Post.post_id := Some (pretty n);
     Post.page_id := Some 1; Post.text := None; Post.content_type := None;
     Post.media_url := None; Post.media_s3_url := None;
     Post.media_type := None; Post.like_count := Some n;
     Post.comment_count := Some 0; Post.share_count := Some 0;
     Post.view_count := Some 0; Post.posted_at := None;
     Post.author_name := None; Post.author_title := None;
     Post.hashtags := None; Post.mentions := None; Post.extra_data := None;
     Post.created_at := None; Post.updated_at := None |}.

Definition world_with_twelve_posts : World :=
  with_db {| pages := [stored_page 1 "acme" "Acme"];
             posts := post_numbered <$> [1; 2; 3; 4; 5; 6; 7; 8; 9; 10; 11; 12];
             employees := []; next_page_id := 2; next_post_id := 13;
             next_employee_id := 1 |} empty_world.

(** How many times [k] occurs in [l]. *)
Definition occurrences {K} `{EqDecision K} (k : K) (l : list K) : Z :=
  Z.of_nat (length (filter (fun x => x = k) l)).

(** The count recorded for [k] in a dict of counts (0 when absent). *)
Definition count_of {K} (eqb : K -> K -> bool) (k : K) (counts : list (K * Z)) : Z :=
  match List.find (fun kv => eqb k kv.1) counts with
  | Some kv => kv.2
  | None => 0
  end.

(** [l] is in descending order of [key]. *)
Fixpoint descending {A} (key : A -> Z) (l : list A) : Prop :=
  match l with
  | [] => True
  | a :: l' => Forall (fun b => key b <= key a) l' /\ descending key l'
  end.

(** An environment where the provider lists the same post of [acme]
    twice. *)
Definition reposting_env : Env :=
  {| CACHE_TTL := 300;
     AWS_S3_BUCKET := "linkedin-insights-storage";
     AWS_REGION := "us-east-1";
     now := 1700000000;
     api_organization := fun _ => OrgDetails (Some acme_data);
     api_posts := fun _ => Some [acme_post; acme_post];
     api_employees := fun _ => Some [acme_employee];
     s3_transfer := fun _ => true;
     generated_filename := fun _ => "20240101_000000_0123456789ab.jpg";
     chat_summary := fun _ => None;
     chat_compare := fun _ => None;
     sql_ilike := fun _ _ => true;
     order_by_follower_count_desc := fun l => l;
     order_by_posted_at_desc := fun l => l |}.

(** The hashtags of all the posts, in order. *)
Definition all_hashtags (posts : list PostDict.t) : list string :=
  concat ((fun p => default [] p.(PostDict.hashtags)) <$> posts).

(** The sum of the counts of a dict of counts. *)
Definition sum_counts {K} (counts : list (K * Z)) : Z :=
  foldr (fun kv s => kv.2 + s) 0 counts.

(** The sum of a counter over the posts, [None] counting for 0. *)
Definition total_of (counter : PostDict.t -> option Z) (posts : list PostDict.t) : Z :=
  foldr (fun p s => default 0 (counter p) + s) 0 posts.

(* ===================================================================== *)
(** * Properties *)
(* ===================================================================== *)

(** ** Pagination *)

Lemma ceiling_division (total p : Z) :
  0 <= total -> 1 <= p -> is_ceiling total p ((total + p - 1) / p).
Proof.
  intros Ht Hp. unfold is_ceiling.
  pose proof (Z.div_mod (total + p - 1) p ltac:(lia)) as Hdm.
  pose proof (Z.mod_pos_bound (total + p - 1) p ltac:(lia)) as Hb.
  split; nia.
Qed.




(** ** Narrative summaries *)

Lemma format_summary_averages (now : Z) (page_data : PageDict.t) (analysis : json)
  (s : AIService.Summary) :
  AIService._format_summary_response now page_data analysis = Ok s ->
  s.(AIService.content_analysis).(AIService.avg_likes) = 0
  /\ s.(AIService.content_analysis).(AIService.avg_comments) = 0
  /\ s.(AIService.content_analysis).(AIService.avg_shares) = 0.
Proof.
  unfold AIService._format_summary_response, rbind.
  repeat match goal with
         | |- context [match dict_get ?d ?k ?v with _ => _ end] =>
             destruct (dict_get d k v); [|discriminate]
         end.
  intros H; inversion H; subst; simpl. auto.
Qed.

(** C10. Whenever the narrative engine answers and its answer is formatted
    without an exception (the non-fallback path), [generate_page_summary]
    returns that formatted summary, and its [content_analysis] fields
    [avg_likes], [avg_comments] and [avg_shares] are the constant 0, whatever
    posts (and employees) were supplied. *)
Theorem narrative_summary_averages_are_zero (env : Env) (page_data : PageDict.t)
  (posts_data : option (list PostDict.t))
  (employees_data : option (list EmployeeDict.t))
  (context : SummaryContext) (analysis : json) (s : AIService.Summary) :
  AIService._prepare_context page_data posts_data employees_data = Ok context ->
  env.(chat_summary) context = Some analysis ->
  AIService._format_summary_response env.(now) page_data analysis = Ok s ->
  AIService.generate_page_summary env page_data posts_data employees_data = Ok s
  /\ s.(AIService.content_analysis).(AIService.avg_likes) = 0
  /\ s.(AIService.content_analysis).(AIService.avg_comments) = 0
  /\ s.(AIService.content_analysis).(AIService.avg_shares) = 0.
Proof.
  intros Hctx Hchat Hfmt. split.
  - unfold AIService.generate_page_summary. rewrite Hctx. simpl.
    rewrite Hchat, Hfmt. reflexivity.
  - eapply format_summary_averages; eassumption.
Qed.

Lemma narrative_summary_averages_are_zero_witness :
  exists s,
    AIService.generate_page_summary narrating_env sample_page_dict
      (Some [sample_post_dict 40; sample_post_dict 2]) None = Ok s
    /\ s.(AIService.content_analysis).(AIService.avg_likes) = 0
    /\ s.(AIService.content_analysis).(AIService.avg_comments) = 0
    /\ s.(AIService.content_analysis).(AIService.avg_shares) = 0.
Proof.
  eexists.
  eapply (narrative_summary_averages_are_zero narrating_env sample_page_dict
            (Some [sample_post_dict 40; sample_post_dict 2]) None).
  - vm_compute. reflexivity.
  - reflexivity.
  - vm_compute. reflexivity.
Defined.

(** The averages handed to the engine in the prompt do follow the posts:
    here 42 likes over 2 posts. *)
Example context_averages_follow_posts :
  exists c content,
    AIService._prepare_context sample_page_dict
      (Some [sample_post_dict 40; sample_post_dict 2]) None = Ok c
    /\ c.(ctx_content) = Some content
    /\ content.(ctx_avg_likes) = mkRatio 42 2.
Proof. eexists. eexists. vm_compute. repeat split; reflexivity. Qed.

(** ** Media precedence *)





(** The URLs the cloner returns are never empty, so every cloned URL that
    the pipeline stores takes precedence. *)
Lemma upload_from_url_not_empty (env : Env) (url : option string) (folder : string)
  (custom : option string) (u : string) :
  StorageService.upload_from_url env url folder custom = Some u -> u <> "".
Proof.
  unfold StorageService.upload_from_url.
  destruct url as [x|]; [|discriminate].
  destruct (String.eqb x ""); [discriminate|].
  destruct (s3_transfer env x); [|discriminate].
  intros H; inversion H. discriminate.
Qed.

(** The composed page-detail response carries [Page.to_dict] of the page
    and [Post.to_dict] of its posts, so the precedence reaches the cached
    composed response as well; the listing and refresh responses read the
    [profile_picture_url] column itself. *)
Lemma page_response_reads_original_column (p : Page.t) :
  (PageResponse_model_validate p).(PageDict.profile_picture_url)
  = p.(Page.profile_picture_url).
Proof. reflexivity. Qed.

(** ** Glob patterns without special characters *)

Lemma glob_star_unfold (p s : string) :
  glob_match (String "*" p) s
  = glob_match p s
    || match s with
       | EmptyString => false
       | String _ s' => glob_match (String "*" p) s'
       end.
Proof. destruct s; reflexivity. Qed.

Lemma glob_literal_unfold (c : ascii) (p s : string) :
  glob_special c = false ->
  glob_match (String c p) s
  = match s with
    | EmptyString => false
    | String x s' => Ascii.eqb c x && glob_match p s'
    end.
Proof.
  unfold glob_special. intros H.
  apply orb_false_elim in H as [H Hb].
  apply orb_false_elim in H as [H Hq].
  apply orb_false_elim in H as [Hs Hm].
  simpl. rewrite Hs, Hm, Hq, Hb. reflexivity.
Qed.

Lemma glob_star_all (s : string) : glob_match "*" s = true.
Proof.
  induction s as [|c s IH]; [reflexivity|].
  rewrite glob_star_unfold, IH. apply orb_true_r.
Qed.

(** A pattern [pid*] with [pid] free of special characters matches the
    strings that start with [pid]. *)
Lemma glob_prefix (pid s : string) :
  glob_free pid = true ->
  glob_match (pid +:+ "*") s = true <-> exists post, s = pid +:+ post.
Proof.
  revert s. induction pid as [|c pid IH]; intros s Hfree.
  - simpl. rewrite glob_star_all. split; [eauto|reflexivity].
  - simpl in Hfree. apply andb_prop in Hfree as [Hc Hfree].
    apply negb_true_iff in Hc.
    change (String c pid +:+ "*") with (String c (pid +:+ "*")).
    rewrite glob_literal_unfold by assumption.
    destruct s as [|x s].
    + split; [discriminate|]. intros [post H]. discriminate H.
    + rewrite andb_true_iff, IH by assumption. split.
      * intros [Hx [post ->]]. apply Ascii.eqb_eq in Hx as ->.
        exists post. reflexivity.
      * intros [post H]. simpl in H. inversion H; subst.
        split; [apply Ascii.eqb_refl|eauto].
Qed.

(** The pattern [*pid*] of [refresh_page], for [pid] free of special
    characters, matches the keys in which [pid] occurs. *)
Lemma glob_contains (pid s : string) :
  glob_free pid = true ->
  glob_match ("*" +:+ pid +:+ "*") s = true <-> contains pid s.
Proof.
  intros Hfree. change ("*" +:+ pid +:+ "*") with (String "*" (pid +:+ "*")).
  induction s as [|x s IH].
  - rewrite glob_star_unfold, orb_false_r, glob_prefix by assumption.
    split.
    + intros [post H]. exists "", post. exact H.
    + intros [pre [post H]]. destruct pre; [eauto|discriminate H].
  - rewrite glob_star_unfold, orb_true_iff, IH, glob_prefix by assumption.
    split.
    + intros [[post H]|[pre [post H]]].
      * exists "", post. exact H.
      * exists (String x pre), post. simpl. rewrite H. reflexivity.
    + intros [pre [post H]]. destruct pre as [|y pre].
      * left. exists post. exact H.
      * right. simpl in H. inversion H; subst. exists pre, post. reflexivity.
Qed.

(** ** Rules for computations in [M] *)

Lemma stable_ret {A} (R : World -> World -> Prop) (a : A) :
  Reflexive R -> stable R (ret a).
Proof. intros HR w. apply HR. Qed.

Lemma stable_raise {A} (R : World -> World -> Prop) (e : exn) :
  Reflexive R -> stable R (@raise A e).
Proof. intros HR w. apply HR. Qed.

Lemma stable_lift {A} (R : World -> World -> Prop) (r : result A) :
  Reflexive R -> stable R (lift r).
Proof. intros HR w. apply HR. Qed.

Lemma stable_get_db (R : World -> World -> Prop) :
  Reflexive R -> stable R get_db.
Proof. intros HR w. apply HR. Qed.

Lemma stable_bind {A B} (R : World -> World -> Prop) (m : M A) (k : A -> M B) :
  Transitive R -> stable R m -> (forall a, stable R (k a)) -> stable R (bind m k).
Proof.
  intros HT Hm Hk w. unfold bind. specialize (Hm w).
  destruct (m w) as [[a|e] w1]; simpl in *; [|exact Hm].
  etransitivity; [exact Hm|apply Hk].
Qed.

Lemma keeps_ret {A} (I : World -> Prop) (a : A) : keeps I (ret a).
Proof. intros w Hw. split; [exact Hw|exact Logic.I]. Qed.

Lemma keeps_get_db (I : World -> Prop) : keeps I get_db.
Proof. intros w Hw. split; [exact Hw|exact Logic.I]. Qed.

Lemma keeps_raise {A} (I : World -> Prop) (e : exn) :
  e <> ConnectionError -> keeps I (@raise A e).
Proof.
  intros He w Hw. split; [exact Hw|]. simpl. destruct e; try exact Logic.I.
  contradiction.
Qed.

Lemma keeps_bind {A B} (I : World -> Prop) (m : M A) (k : A -> M B) :
  keeps I m -> (forall a, keeps I (k a)) -> keeps I (bind m k).
Proof.
  intros Hm Hk w Hw. unfold bind. specialize (Hm w Hw).
  destruct (m w) as [[a|e] w1]; simpl in *; [|exact Hm].
  apply Hk, Hm.
Qed.

#[local] Instance cache_frame_refl : Reflexive cache_frame.
Proof. intros w. repeat split. Qed.

#[local] Instance cache_frame_trans : Transitive cache_frame.
Proof.
  intros w1 w2 w3 (H1 & U1 & C1) (H2 & U2 & C2). repeat split.
  - intros k Hk. rewrite H2, H1 by assumption. reflexivity.
  - congruence.
  - congruence.
Qed.

#[local] Instance same_cache_refl : Reflexive same_cache.
Proof. intros w. repeat split. Qed.

#[local] Instance same_cache_trans : Transitive same_cache.
Proof. intros w1 w2 w3 (H1 & U1 & C1) (H2 & U2 & C2). repeat split; congruence. Qed.

#[local] Instance same_db_refl : Reflexive same_db.
Proof. intros w. reflexivity. Qed.

#[local] Instance same_db_trans : Transitive same_db.
Proof. intros w1 w2 w3 H1 H2. unfold same_db in *. congruence. Qed.

#[local] Instance same_children_refl : Reflexive same_children.
Proof. intros w. split; reflexivity. Qed.

#[local] Instance same_children_trans : Transitive same_children.
Proof. intros w1 w2 w3 [P1 E1] [P2 E2]. split; congruence. Qed.

#[local] Instance same_pages_refl : Reflexive same_pages.
Proof. intros w. reflexivity. Qed.

#[local] Instance same_pages_trans : Transitive same_pages.
Proof. intros w1 w2 w3 H1 H2. unfold same_pages in *. congruence. Qed.

(** ** The cache client *)

Lemma with_redis_same (w : World) : with_redis w.(redis) w = w.
Proof. destruct w; reflexivity. Qed.

Lemma get_without_client (key : string) (w : World) :
  w.(client) = false -> RedisClient.get key w = (Ok None, w).
Proof. intros H. unfold RedisClient.get. rewrite H. reflexivity. Qed.

Lemma set_without_client (ttl0 : Z) (key : string) (v : cached) (ttl : option Z)
  (w : World) :
  w.(client) = false -> RedisClient.set ttl0 key v ttl w = (Ok false, w).
Proof. intros H. unfold RedisClient.set. rewrite H. reflexivity. Qed.

Lemma delete_without_client (key : string) (w : World) :
  w.(client) = false -> RedisClient.delete key w = (Ok false, w).
Proof. intros H. unfold RedisClient.delete. rewrite H. reflexivity. Qed.

Lemma clear_pattern_without_client (pattern : string) (w : World) :
  w.(client) = false -> RedisClient.clear_pattern pattern w = (Ok 0, w).
Proof. intros H. unfold RedisClient.clear_pattern. rewrite H. reflexivity. Qed.

Lemma get_healthy (key : string) (w : World) :
  cache_healthy w ->
  RedisClient.get key w = (Ok (snd <$> w.(redis) !! key), w).
Proof.
  intros [Hc Hu]. unfold RedisClient.get, RedisClient.command.
  rewrite Hc, Hu. simpl. rewrite with_redis_same. reflexivity.
Qed.

Lemma get_same_world (key : string) (w : World) :
  (RedisClient.get key w).2 = w.
Proof.
  unfold RedisClient.get, RedisClient.command.
  destruct (client w), (redis_up w); simpl; try reflexivity.
  apply with_redis_same.
Qed.

Lemma elem_of_keys (pattern : string) (r : gmap string (Z * cached)) (k : string) :
  k ∈ RedisClient.keys pattern r <-> is_Some (r !! k) /\ glob_match pattern k = true.
Proof.
  unfold RedisClient.keys. rewrite list_elem_of_fmap. split.
  - intros [[k' v] [-> H]]. apply elem_of_map_to_list in H.
    apply map_lookup_filter_Some in H as [H1 H2]. simpl in *. eauto.
  - intros [[v Hv] Hm]. exists (k, v). split; [reflexivity|].
    apply elem_of_map_to_list, map_lookup_filter_Some. auto.
Qed.

Lemma delete_keys_cleared (pattern : string) (r : gmap string (Z * cached)) :
  cleared pattern r (foldr base.delete r (RedisClient.keys pattern r)).
Proof.
  intros k. destruct (glob_match pattern k) eqn:Hm.
  - destruct (r !! k) as [v|] eqn:Hk.
    + apply lookup_foldr_delete, elem_of_keys. eauto.
    + rewrite lookup_foldr_delete_not_elem_of; [exact Hk|].
      rewrite elem_of_keys, Hk. intros [[? ?] _]. discriminate.
  - apply lookup_foldr_delete_not_elem_of. rewrite elem_of_keys, Hm.
    intros [_ ?]. discriminate.
Qed.

(** On a working cache [clear_pattern] returns and leaves exactly the keys
    that do not match the pattern. *)
Lemma clear_pattern_healthy (pattern : string) (w : World) :
  cache_healthy w ->
  exists n r',
    RedisClient.clear_pattern pattern w = (Ok n, with_redis r' w)
    /\ cleared pattern w.(redis) r'.
Proof.
  intros [Hc Hu].
  unfold RedisClient.clear_pattern, RedisClient.command, bind.
  rewrite Hc, Hu. simpl.
  destruct (RedisClient.keys pattern (redis w)) as [|k ks] eqn:Hks.
  - exists 0, w.(redis). split; [reflexivity|].
    pose proof (delete_keys_cleared pattern w.(redis)) as H.
    rewrite Hks in H. exact H.
  - rewrite with_redis_same. rewrite Hu. simpl.
    eexists. eexists. split; [reflexivity|].
    pose proof (delete_keys_cleared pattern w.(redis)) as H.
    rewrite Hks in H. exact H.
Qed.

(** ** What each step leaves unchanged *)

Lemma stable_same_world {A} (R : World -> World -> Prop) (m : M A) :
  Reflexive R -> (forall w, (m w).2 = w) -> stable R m.
Proof. intros HR H w. rewrite H. apply HR. Qed.

Lemma same_cache_frame {A} (m : M A) : stable same_cache m -> stable cache_frame m.
Proof.
  intros H w. destruct (H w) as (Hr & Hu & Hc). repeat split; try assumption.
  intros k _. rewrite Hr. reflexivity.
Qed.

Lemma command_same_db {A}
  (op : gmap string (Z * cached) -> A * gmap string (Z * cached)) :
  stable same_db (RedisClient.command op).
Proof.
  intros w. unfold RedisClient.command.
  destruct (redis_up w); [|reflexivity]. destruct (op (redis w)). reflexivity.
Qed.

Lemma get_same_db (key : string) : stable same_db (RedisClient.get key).
Proof. apply stable_same_world; [typeclasses eauto|apply get_same_world]. Qed.

Lemma get_same_cache (key : string) : stable same_cache (RedisClient.get key).
Proof. apply stable_same_world; [typeclasses eauto|apply get_same_world]. Qed.

Lemma set_same_db (ttl0 : Z) (key : string) (v : cached) (ttl : option Z) :
  stable same_db (RedisClient.set ttl0 key v ttl).
Proof.
  intros w. unfold RedisClient.set.
  destruct (client w); simpl; [apply command_same_db|reflexivity].
Qed.

Lemma set_cache_frame (ttl0 : Z) (key : string) (v : cached) (ttl : option Z) :
  provider_key key = true -> stable cache_frame (RedisClient.set ttl0 key v ttl).
Proof.
  intros Hkey w. unfold RedisClient.set, RedisClient.command.
  destruct (client w) eqn:Hc; simpl; [|reflexivity].
  destruct (redis_up w) eqn:Hu; simpl; [|reflexivity].
  repeat split; simpl; try assumption.
  intros k Hk. apply lookup_insert_ne. intros ->. congruence.
Qed.

Lemma put_db_same_cache (d : DB) : stable same_cache (put_db d).
Proof. intros w. repeat split. Qed.

Ltac stable_tac :=
  repeat first
    [ apply stable_ret; typeclasses eauto
    | apply stable_raise; typeclasses eauto
    | apply stable_lift; typeclasses eauto
    | apply stable_get_db; typeclasses eauto
    | apply put_db_same_cache
    | apply get_same_db
    | apply get_same_cache
    | apply set_same_db
    | apply stable_bind; [typeclasses eauto| |intros ?]
    | match goal with
      | |- stable _ (if ?b then _ else _) => destruct b
      | |- stable _ (match ?x with _ => _ end) => destruct x
      end ].

Lemma add_page_same_cache (now : Z) (p : Page.t) :
  stable same_cache (Store.add_page now p).
Proof. unfold Store.add_page. stable_tac. Qed.

Lemma update_page_same_cache (now : Z) (p : Page.t) :
  stable same_cache (Store.update_page now p).
Proof. unfold Store.update_page. stable_tac. Qed.

Lemma add_posts_same_cache (now : Z) (new : list Post.t) :
  stable same_cache (Store.add_posts now new).
Proof. unfold Store.add_posts. stable_tac. Qed.

Lemma add_employees_same_cache (now : Z) (new : list Employee.t) :
  stable same_cache (Store.add_employees now new).
Proof. unfold Store.add_employees. stable_tac. Qed.

Lemma provider_key_org (v : string) :
  provider_key (RedisClient.cache_key "org" [v]) = true.
Proof. reflexivity. Qed.

Lemma provider_key_posts (a b c : string) :
  provider_key (RedisClient.cache_key "posts" [a; b; c]) = true.
Proof. reflexivity. Qed.

Lemma provider_key_employees (a b c : string) :
  provider_key (RedisClient.cache_key "employees" [a; b; c]) = true.
Proof. reflexivity. Qed.

Ltac frame_tac :=
  repeat first
    [ apply stable_ret; typeclasses eauto
    | apply stable_raise; typeclasses eauto
    | apply stable_get_db; typeclasses eauto
    | apply same_cache_frame, get_same_cache
    | apply same_cache_frame, add_page_same_cache
    | apply same_cache_frame, update_page_same_cache
    | apply same_cache_frame, add_posts_same_cache
    | apply same_cache_frame, add_employees_same_cache
    | apply set_cache_frame; reflexivity
    | apply stable_bind; [typeclasses eauto| |intros ?]
    | match goal with
      | |- stable _ (if ?b then _ else _) => destruct b
      | |- stable _ (match ?x with _ => _ end) => destruct x
      end ].

Lemma get_organization_cache_frame (env : Env) (v : string) :
  stable cache_frame (LinkedInService.get_organization_by_vanity_name env v).
Proof.
  unfold LinkedInService.get_organization_by_vanity_name. cbv zeta. frame_tac.
Qed.

Lemma get_organization_same_db (env : Env) (v : string) :
  stable same_db (LinkedInService.get_organization_by_vanity_name env v).
Proof.
  unfold LinkedInService.get_organization_by_vanity_name. cbv zeta. stable_tac.
Qed.

Lemma fetch_posts_cache_frame (env : Env) (page : Page.t) :
  stable cache_frame (_fetch_and_store_posts env page).
Proof.
  unfold _fetch_and_store_posts, LinkedInService.get_organization_posts.
  cbv zeta. frame_tac.
Qed.

Lemma fetch_employees_cache_frame (env : Env) (page : Page.t) :
  stable cache_frame (_fetch_and_store_employees env page).
Proof.
  unfold _fetch_and_store_employees, LinkedInService.get_organization_employees.
  cbv zeta. frame_tac.
Qed.

(** The pipeline writes to the cache only under provider keys. *)
Lemma fetch_page_cache_frame (env : Env) (page_id : string) (force : bool) :
  stable cache_frame (_fetch_and_store_page env page_id force).
Proof.
  unfold _fetch_and_store_page.
  apply stable_bind; [typeclasses eauto|frame_tac|intros d].
  destruct (Store.not_null (Store.page_by_page_id page_id d) && negb force);
    [frame_tac|].
  apply stable_bind;
    [typeclasses eauto|apply get_organization_cache_frame|intros [[data|]|]];
    [|frame_tac..].
  destruct (Store.page_by_page_id page_id d); cbv zeta.
  - frame_tac.
  - apply stable_bind; [typeclasses eauto|frame_tac|intros page].
    apply stable_bind;
      [typeclasses eauto|apply fetch_posts_cache_frame|intros ?].
    apply stable_bind;
      [typeclasses eauto|apply fetch_employees_cache_frame|intros ?].
    frame_tac.
Qed.

(** ** Forced refresh and the cache *)

Lemma append_empty (s : string) : s +:+ "" = s.
Proof.
  induction s as [|c s IH]; [reflexivity|].
  change (String c (s +:+ "") = String c s). rewrite IH. reflexivity.
Qed.

Lemma contains_key (prefix pid : string) : contains pid (prefix +:+ pid).
Proof. exists prefix, "". rewrite append_empty. reflexivity. Qed.

Lemma refresh_error_is_not_found (page_id : string) :
  is_not_found
    (@Raise PageDict.t
       (HTTPException 404
          ("Could not fetch page '" +:+ page_id +:+ "' from LinkedIn"))) = true.
Proof. reflexivity. Qed.

Lemma set_healthy (ttl0 : Z) (key : string) (v : cached) (w : World) :
  cache_healthy w ->
  RedisClient.set ttl0 key v None w
  = (Ok true, with_redis (<[key := (ttl0, v)]> w.(redis)) w).
Proof.
  intros [Hc Hu]. unfold RedisClient.set, RedisClient.command.
  rewrite Hc, Hu. reflexivity.
Qed.

(** The organization fetch on a working cache without an [org:] entry. *)
Lemma get_organization_miss (env : Env) (v : string) (w : World) :
  cache_healthy w ->
  w.(redis) !! RedisClient.cache_key "org" [v] = None ->
  LinkedInService.get_organization_by_vanity_name env v w
  = match env.(api_organization) v with
    | OrgUnavailable => (Ok None, w)
    | OrgDetails d =>
        (Ok (Some d),
         with_redis (<[RedisClient.cache_key "org" [v]
                       := (env.(CACHE_TTL), CachedOrg d)]> w.(redis)) w)
    end.
Proof.
  intros Hw Hmiss.
  unfold LinkedInService.get_organization_by_vanity_name, bind.
  rewrite (get_healthy _ _ Hw), Hmiss. simpl.
  destruct (api_organization env v); [reflexivity|].
  rewrite (set_healthy _ _ _ _ Hw). reflexivity.
Qed.

(** For an identifier free of glob characters, on a working cache: when the
    upstream fetch fails, the forced refresh reports not-found and no entry
    [page_detail:{pid}] is left. *)
Lemma refresh_failure_leaves_no_detail (env : Env) (page_id : string) (w : World) :
  glob_free page_id = true ->
  cache_healthy w ->
  upstream_fails env page_id ->
  exists w',
    refresh_page env page_id w
    = (Raise (HTTPException 404
                ("Could not fetch page '" +:+ page_id +:+ "' from LinkedIn")), w')
    /\ w'.(db) = w.(db)
    /\ w'.(redis) !! RedisClient.cache_key "page_detail" [page_id] = None
    /\ RedisClient.get (RedisClient.cache_key "page_detail" [page_id]) w'
       = (Ok None, w').
Proof.
  intros Hfree Hw Hup.
  destruct (clear_pattern_healthy ("*" +:+ page_id +:+ "*") w Hw)
    as (n & r' & Hclear & Hr').
  assert (Horg : r' !! RedisClient.cache_key "org" [page_id] = None).
  { rewrite Hr'.
    replace (glob_match ("*" +:+ page_id +:+ "*")
               (RedisClient.cache_key "org" [page_id])) with true; [reflexivity|].
    symmetry. apply glob_contains; [assumption|].
    apply (contains_key "org:"). }
  assert (Hdet : r' !! RedisClient.cache_key "page_detail" [page_id] = None).
  { rewrite Hr'.
    replace (glob_match ("*" +:+ page_id +:+ "*")
               (RedisClient.cache_key "page_detail" [page_id])) with true;
      [reflexivity|].
    symmetry. apply glob_contains; [assumption|].
    apply (contains_key "page_detail:"). }
  assert (Hw1 : cache_healthy (with_redis r' w)) by exact Hw.
  unfold refresh_page, bind. rewrite Hclear.
  unfold _fetch_and_store_page, bind, get_db.
  rewrite andb_false_r.
  rewrite (get_organization_miss env page_id _ Hw1 Horg).
  destruct (api_organization env page_id) as [|[d|]] eqn:Hapi.
  - eexists. split; [reflexivity|]. split; [reflexivity|].
    split; [exact Hdet|].
    rewrite (get_healthy _ _ Hw1).
    change (redis (with_redis r' w)) with r'. rewrite Hdet. reflexivity.
  - exfalso. exact (Hup d Hapi).
  - assert (Hne : RedisClient.cache_key "org" [page_id]
                  <> RedisClient.cache_key "page_detail" [page_id])
      by discriminate.
    eexists. split; [reflexivity|]. split; [reflexivity|].
    split.
    + simpl. rewrite lookup_insert_ne by exact Hne. exact Hdet.
    + rewrite get_healthy by exact Hw. simpl redis.
      rewrite lookup_insert_ne by exact Hne. rewrite Hdet. reflexivity.
Qed.

(** C2. With the identifier [a[b]c], whose brackets the pattern
    [*a[b]c*] reads as a character class, a forced refresh whose upstream
    fetch fails reports not-found while the stale [page_detail:a[b]c] entry
    is still served by the cache. *)
Theorem refresh_keeps_stale_detail_of_bracket_id :
  let w := world_with_cached_detail "a[b]c" in
  let w' := (refresh_page sample_env "a[b]c" w).2 in
  upstream_fails sample_env "a[b]c"
  /\ refresh_page sample_env "a[b]c" w
     = (Raise (HTTPException 404 "Could not fetch page 'a[b]c' from LinkedIn"), w')
  /\ RedisClient.get (RedisClient.cache_key "page_detail" ["a[b]c"]) w'
     = (Ok (Some (CachedPageDetail (stale_detail "a[b]c"))), w').
Proof.
  cbv zeta. split; [intros d; discriminate|].
  split; vm_compute; reflexivity.
Qed.

Lemma refresh_final_world (env : Env) (page_id : string) (w : World) (n : Z)
  (w1 : World) :
  RedisClient.clear_pattern ("*" +:+ page_id +:+ "*") w = (Ok n, w1) ->
  (refresh_page env page_id w).2 = (_fetch_and_store_page env page_id true w1).2.
Proof.
  intros Hclear. unfold refresh_page, bind. rewrite Hclear.
  destruct (_fetch_and_store_page env page_id true w1) as [[[p|]|e] w2];
    reflexivity.
Qed.

(** C9, as stated, fails in its general part: the key
    [page_detail:a[b]c] contains the identifier [a[b]c], and the
    invalidation of a refresh of [a[b]c] does not delete it. *)
Lemma invalidation_misses_bracket_id :
  ~ (forall (page_id : string) (w : World) (k : string),
       cache_healthy w ->
       contains page_id k ->
       (RedisClient.clear_pattern ("*" +:+ page_id +:+ "*") w).2.(redis) !! k = None).
Proof.
  intros H.
  specialize (H "a[b]c" (world_with_cached_detail "a[b]c")
                (RedisClient.cache_key "page_detail" ["a[b]c"])
                (conj eq_refl eq_refl) (contains_key "page_detail:" "a[b]c")).
  vm_compute in H. discriminate H.
Qed.

(** C9, amended. For an identifier free of the glob characters
    [*], [?], [[] and [\], the invalidation of a forced refresh (on a
    working cache) deletes exactly the cache keys in which the identifier
    occurs; in particular a refresh of [acme] deletes the cached composed
    response [page_detail:acme-corp] of the page [acme-corp]. *)
Theorem refresh_invalidates_by_substring :
  (forall (page_id : string) (w : World),
     glob_free page_id = true ->
     cache_healthy w ->
     exists n r',
       RedisClient.clear_pattern ("*" +:+ page_id +:+ "*") w
       = (Ok n, with_redis r' w)
       /\ forall k, (contains page_id k -> r' !! k = None)
                    /\ (~ contains page_id k -> r' !! k = w.(redis) !! k))
  /\ (forall (env : Env) (w : World),
        cache_healthy w ->
        (refresh_page env "acme" w).2.(redis)
        !! RedisClient.cache_key "page_detail" ["acme-corp"] = None).
Proof.
  split.
  - intros page_id w Hfree Hw.
    destruct (clear_pattern_healthy ("*" +:+ page_id +:+ "*") w Hw)
      as (n & r' & Hclear & Hr').
    exists n, r'. split; [exact Hclear|]. intros k. rewrite Hr'.
    pose proof (glob_contains page_id k Hfree) as Hg.
    destruct (glob_match ("*" +:+ page_id +:+ "*") k).
    + split; [reflexivity|]. intros Hn. exfalso. apply Hn, Hg. reflexivity.
    + split; [|reflexivity]. intros Hc. apply Hg in Hc. discriminate Hc.
  - intros env w Hw.
    destruct (clear_pattern_healthy ("*" +:+ "acme" +:+ "*") w Hw)
      as (n & r' & Hclear & Hr').
    rewrite (refresh_final_world env "acme" w n _ Hclear).
    destruct (fetch_page_cache_frame env "acme" true (with_redis r' w))
      as (Hframe & _).
    rewrite Hframe by reflexivity.
    change (redis (with_redis r' w)) with r'. rewrite Hr'. reflexivity.
Qed.

Lemma refresh_invalidates_by_substring_witness :
  (exists n r',
     RedisClient.clear_pattern ("*" +:+ "acme" +:+ "*")
       (world_with_cached_detail "acme-corp")
     = (Ok n, with_redis r' (world_with_cached_detail "acme-corp"))
     /\ forall k, (contains "acme" k -> r' !! k = None)
                  /\ (~ contains "acme" k ->
                      r' !! k = (world_with_cached_detail "acme-corp").(redis) !! k))
  /\ (refresh_page sample_env "acme" (world_with_cached_detail "acme-corp")).2.(redis)
     !! RedisClient.cache_key "page_detail" ["acme-corp"] = None.
Proof.
  split.
  - apply (proj1 refresh_invalidates_by_substring "acme"
             (world_with_cached_detail "acme-corp")).
    + reflexivity.
    + split; reflexivity.
  - apply (proj2 refresh_invalidates_by_substring sample_env
             (world_with_cached_detail "acme-corp")).
    split; reflexivity.
Defined.

(** Before the refresh of [acme], the composed response of [acme-corp] was
    in the cache. *)
Example acme_corp_was_cached :
  (world_with_cached_detail "acme-corp").(redis)
  !! RedisClient.cache_key "page_detail" ["acme-corp"]
  = Some (300, CachedPageDetail (stale_detail "acme-corp")).
Proof. vm_compute. reflexivity. Qed.

(** ** The cache when Redis is unreachable *)

Lemma initialize_unreachable (w : World) :
  w.(redis_up) = false -> (RedisClient.initialize w).2.(client) = false.
Proof. intros H. exact H. Qed.

Lemma keeps_no_client_get r0 up0 (key : string) :
  keeps (no_client r0 up0) (RedisClient.get key).
Proof.
  intros w Hw. rewrite get_without_client by apply Hw.
  split; [exact Hw|exact I].
Qed.

Lemma keeps_no_client_set r0 up0 (ttl0 : Z) (key : string) (v : cached)
  (ttl : option Z) :
  keeps (no_client r0 up0) (RedisClient.set ttl0 key v ttl).
Proof.
  intros w Hw. rewrite set_without_client by apply Hw.
  split; [exact Hw|exact I].
Qed.

Lemma keeps_no_client_clear r0 up0 (pattern : string) :
  keeps (no_client r0 up0) (RedisClient.clear_pattern pattern).
Proof.
  intros w Hw. rewrite clear_pattern_without_client by apply Hw.
  split; [exact Hw|exact I].
Qed.

Lemma keeps_no_client_put_db r0 up0 (d : DB) :
  keeps (no_client r0 up0) (put_db d).
Proof. intros w Hw. split; [exact Hw|exact I]. Qed.

Ltac keeps_tac :=
  repeat first
    [ apply keeps_ret
    | apply keeps_get_db
    | apply keeps_raise; discriminate
    | apply keeps_no_client_get
    | apply keeps_no_client_set
    | apply keeps_no_client_clear
    | apply keeps_no_client_put_db
    | apply keeps_bind; [|intros ?]
    | match goal with
      | |- keeps _ (if ?b then _ else _) => destruct b
      | |- keeps _ (match ?x with _ => _ end) => destruct x
      end ].

Lemma keeps_no_client_fetch_page r0 up0 (env : Env) (page_id : string)
  (force : bool) :
  keeps (no_client r0 up0) (_fetch_and_store_page env page_id force).
Proof.
  unfold _fetch_and_store_page, LinkedInService.get_organization_by_vanity_name,
    _fetch_and_store_posts, _fetch_and_store_employees,
    LinkedInService.get_organization_posts,
    LinkedInService.get_organization_employees,
    Store.add_page, Store.update_page, Store.add_posts, Store.add_employees.
  cbv zeta. keeps_tac.
Qed.

Lemma keeps_no_client_get_page r0 up0 (env : Env) (page_id : string)
  (fetch_if_missing : bool) :
  keeps (no_client r0 up0) (get_page env page_id fetch_if_missing).
Proof.
  unfold get_page, page_not_found. cbv zeta.
  apply keeps_bind; [keeps_tac|intros cached].
  assert (Hcompute :
    keeps (no_client r0 up0)
      (bind get_db (fun d =>
         bind (if negb (Store.not_null (Store.page_by_page_id page_id d))
                  && fetch_if_missing
               then _fetch_and_store_page env page_id false
               else ret (Store.page_by_page_id page_id d))
           (fun page =>
              match page with
              | Some page =>
                  bind get_db (fun d0 =>
                    bind (RedisClient.set (CACHE_TTL env)
                            (RedisClient.cache_key "page_detail" [page_id])
                            (CachedPageDetail
                               {| PageDetail.page := Page.to_dict page;
                                  PageDetail.posts_count :=
                                    Z.of_nat (length (posts_of d0 page));
                                  PageDetail.recent_posts :=
                                    Post.to_dict
                                    <$> take 10
                                          (order_by_posted_at_desc env
                                             (posts_of d0 page)) |}) None)
                      (fun _ =>
                         ret {| PageDetail.page := Page.to_dict page;
                                PageDetail.posts_count :=
                                  Z.of_nat (length (posts_of d0 page));
                                PageDetail.recent_posts :=
                                  Post.to_dict
                                  <$> take 10
                                        (order_by_posted_at_desc env
                                           (posts_of d0 page)) |}))
              | None =>
                  raise (HTTPException 404 ("Page '" +:+ page_id +:+ "' not found"))
              end)))).
  { apply keeps_bind; [keeps_tac|intros d].
    apply keeps_bind.
    - destruct (negb (Store.not_null (Store.page_by_page_id page_id d))
                && fetch_if_missing);
        [apply keeps_no_client_fetch_page|keeps_tac].
    - intros [page|]; keeps_tac. }
  destruct cached as [c|]; [|exact Hcompute].
  destruct (truthy c); [|exact Hcompute].
  destruct c; keeps_tac.
Qed.

Lemma keeps_no_client_refresh_page r0 up0 (env : Env) (page_id : string) :
  keeps (no_client r0 up0) (refresh_page env page_id).
Proof.
  unfold refresh_page.
  apply keeps_bind; [keeps_tac|intros _].
  apply keeps_bind; [apply keeps_no_client_fetch_page|intros [p|]]; keeps_tac.
Qed.

(** C8, as stated, fails: after a start-up with Redis reachable, an outage
    of the server makes [get] raise [ConnectionError] instead of returning
    absent; [_client] is only cleared when the connection fails at
    initialisation. *)
Lemma cache_get_raises_after_outage :
  ~ (forall (w : World) (key : string),
       w.(redis_up) = false -> (RedisClient.get key w).1 = Ok None).
Proof.
  intros H. specialize (H world_after_outage "page_detail:acme" eq_refl).
  vm_compute in H. discriminate H.
Qed.

(** [set] and [delete] raise in the same situation. *)
Example cache_set_delete_raise_after_outage :
  (RedisClient.set 300 "page_detail:acme" (CachedJson JNull) None
     world_after_outage).1 = Raise ConnectionError
  /\ (RedisClient.delete "page_detail:acme" world_after_outage).1
     = Raise ConnectionError.
Proof. split; reflexivity. Qed.

(** C8, amended. When the backing store was unreachable at initialisation,
    so that the client holds no connection: [get] returns absent, [set] and
    [delete] return [False], none of them raises or changes anything; and
    the callers [get_page] and [refresh_page] take the fetch-on-miss path
    without failing on the cache and without touching it. *)
Theorem cache_degrades_without_client (w0 : World) :
  w0.(redis_up) = false ->
  let w := (RedisClient.initialize w0).2 in
  (forall up key, RedisClient.get key (server_state up w)
                  = (Ok None, server_state up w))
  /\ (forall up ttl0 key v ttl,
        RedisClient.set ttl0 key v ttl (server_state up w)
        = (Ok false, server_state up w))
  /\ (forall up key, RedisClient.delete key (server_state up w)
                     = (Ok false, server_state up w))
  /\ (forall up env page_id fetch_if_missing,
        let out := get_page env page_id fetch_if_missing (server_state up w) in
        no_cache_error out.1 /\ same_cache (server_state up w) out.2)
  /\ (forall up env page_id,
        let out := refresh_page env page_id (server_state up w) in
        no_cache_error out.1 /\ same_cache (server_state up w) out.2).
Proof.
  intros Hdown w.
  assert (Hc : forall up, (server_state up w).(client) = false)
    by (intros up; exact Hdown).
  split; [|split; [|split; [|split]]].
  - intros up key. apply get_without_client, Hc.
  - intros up ttl0 key v ttl. apply set_without_client, Hc.
  - intros up key. apply delete_without_client, Hc.
  - intros up env page_id f out.
    destruct (keeps_no_client_get_page (server_state up w).(redis) up env page_id f
                (server_state up w)) as [(H1 & H2 & H3) Herr].
    { repeat split. apply Hc. }
    split; [exact Herr|]. repeat split; try assumption.
    subst out. rewrite H1. symmetry. apply Hc.
  - intros up env page_id out.
    destruct (keeps_no_client_refresh_page (server_state up w).(redis) up env page_id
                (server_state up w)) as [(H1 & H2 & H3) Herr].
    { repeat split. apply Hc. }
    split; [exact Herr|]. repeat split; try assumption.
    subst out. rewrite H1. symmetry. apply Hc.
Qed.

Lemma cache_degrades_without_client_witness :
  RedisClient.get "page_detail:acme"
    (server_state true (RedisClient.initialize (server_state false empty_world)).2)
  = (Ok None,
     server_state true (RedisClient.initialize (server_state false empty_world)).2).
Proof.
  exact (proj1 (cache_degrades_without_client (server_state false empty_world)
                  eq_refl) true "page_detail:acme").
Defined.

(** ** The merge-update of a page *)

Ltac split_key k :=
  repeat match goal with
         | |- context [String.eqb k ?s] =>
             destruct (String.eqb_spec k s); [subst k|]
         end.

Lemma getattr_setattr_other (p : Page.t) (k k' : string) (v : value) :
  k <> k' -> Page.getattr (Page.setattr p k v) k' = Page.getattr p k'.
Proof.
  intros Hne. destruct p. unfold Page.setattr.
  destruct v; split_key k;
    lazymatch goal with
    | H : ?s <> ?k2 |- _ =>
        tryif is_var s then reflexivity
        else (assert (E : String.eqb k2 s = false)
                by (apply String.eqb_neq; congruence);
              unfold Page.getattr; rewrite E; reflexivity)
    end.
Qed.

Lemma getattr_setattr_same (p : Page.t) (k : string) (v : value) :
  well_typed k v = true -> Page.getattr (Page.setattr p k v) k = Some v.
Proof.
  unfold well_typed, Page.setattr, Page.getattr.
  split_key k; destruct v; intros Hty; try discriminate Hty; reflexivity.
Qed.

Lemma well_typed_hasattr (k : string) (v : value) :
  well_typed k v = true -> Page.hasattr k = true.
Proof.
  unfold well_typed, Page.getattr.
  split_key k; try reflexivity. destruct v; intros Hty; discriminate Hty.
Qed.

Lemma getattr_merge_step_other (p : Page.t) (k k' : string) (v : value) :
  k <> k' -> Page.getattr (merge_step p (k, v)) k' = Page.getattr p k'.
Proof.
  intros Hne. unfold merge_step.
  destruct (Page.hasattr k && is_not_None v); [|reflexivity].
  apply getattr_setattr_other, Hne.
Qed.

Lemma getattr_merge_step_same (p : Page.t) (k : string) (v : value) :
  well_typed k v = true ->
  Page.getattr (merge_step p (k, v)) k
  = if is_not_None v then Some v else Page.getattr p k.
Proof.
  intros Hty. unfold merge_step. rewrite (well_typed_hasattr k v Hty). simpl.
  destruct (is_not_None v); [|reflexivity].
  apply getattr_setattr_same, Hty.
Qed.

Lemma getattr_merge_loop_other (items : list (string * value)) (p : Page.t)
  (k : string) :
  k ∉ items.*1 ->
  Page.getattr (foldl merge_step p items) k = Page.getattr p k.
Proof.
  revert p. induction items as [|[k' v'] items IH]; intros p Hk; [reflexivity|].
  rewrite fmap_cons in Hk. apply not_elem_of_cons in Hk as [Hne Hk].
  change (foldl merge_step p ((k', v') :: items))
    with (foldl merge_step (merge_step p (k', v')) items).
  rewrite IH by assumption. apply getattr_merge_step_other.
  intros ->. apply Hne. reflexivity.
Qed.

(** The merge loop over a dict: every key is visited once. *)
Lemma getattr_merge_loop (items : list (string * value)) (p : Page.t)
  (k : string) (v : value) :
  NoDup items.*1 ->
  Forall (fun kv => well_typed kv.1 kv.2 = true) items ->
  (k, v) ∈ items ->
  Page.getattr (foldl merge_step p items) k
  = if is_not_None v then Some v else Page.getattr p k.
Proof.
  revert p. induction items as [|[k' v'] items IH]; intros p Hnd Hty Hin.
  - apply elem_of_nil in Hin. contradiction.
  - rewrite fmap_cons in Hnd. apply NoDup_cons in Hnd as [Hnotin Hnd].
    apply Forall_cons in Hty as [Hty1 Hty].
    change (foldl merge_step p ((k', v') :: items))
      with (foldl merge_step (merge_step p (k', v')) items).
    apply elem_of_cons in Hin as [Heq|Hin].
    + inversion Heq; subst k' v'.
      rewrite getattr_merge_loop_other by assumption.
      apply getattr_merge_step_same. exact Hty1.
    + rewrite IH by assumption.
      assert (k' <> k).
      { intros ->. apply Hnotin. apply list_elem_of_fmap. exists (k, v). auto. }
      rewrite getattr_merge_step_other by assumption. reflexivity.
Qed.

Lemma items_keys_NoDup (d : OrgData.t) : NoDup (OrgData.items d).*1.
Proof. simpl. apply (bool_decide_unpack _). vm_compute. exact I. Qed.

Lemma items_well_typed (d : OrgData.t) :
  Forall (fun kv => well_typed kv.1 kv.2 = true) (OrgData.items d).
Proof. unfold OrgData.items. repeat constructor. Qed.

Lemma getattr_after_assignments (now : Z) (s3 : option string) (p : Page.t)
  (key : string) :
  key <> "profile_picture_s3_url" -> key <> "last_scraped_at" ->
  Page.getattr
    (Page.set_last_scraped_at (Some now) (Page.set_profile_picture_s3_url s3 p)) key
  = Page.getattr p key.
Proof.
  intros H1 H2.
  change (Page.set_last_scraped_at (Some now) (Page.set_profile_picture_s3_url s3 p))
    with (Page.setattr (Page.setattr p "profile_picture_s3_url" (VStr s3))
            "last_scraped_at" (VInt (Some now))).
  rewrite !getattr_setattr_other by congruence. reflexivity.
Qed.

Lemma items_key_not_assigned (d : OrgData.t) (key : string) :
  key ∈ (OrgData.items d).*1 ->
  key <> "profile_picture_s3_url" /\ key <> "last_scraped_at".
Proof.
  simpl. intros Hin.
  repeat (apply elem_of_cons in Hin as [->|Hin]; [split; discriminate|]).
  apply elem_of_nil in Hin. contradiction.
Qed.

(** What the merge-update leaves in each column of the page. *)
Lemma merge_page_getattr (now : Z) (existing : Page.t) (data : OrgData.t)
  (s3_picture_url : option string) :
  let merged := merge_page now existing data s3_picture_url in
  (forall key v,
     (key, v) ∈ OrgData.items data ->
     Page.hasattr key = true
     /\ Page.getattr merged key
        = if is_not_None v then Some v else Page.getattr existing key)
  /\ Page.getattr merged "profile_picture_s3_url" = Some (VStr s3_picture_url)
  /\ Page.getattr merged "last_scraped_at" = Some (VInt (Some now))
  /\ (forall key,
        key ∉ (OrgData.items data).*1 ->
        key <> "profile_picture_s3_url" -> key <> "last_scraped_at" ->
        Page.getattr merged key = Page.getattr existing key).
Proof.
  intros merged. subst merged. unfold merge_page.
  split; [|split; [|split]].
  - intros key v Hin.
    assert (Hkey : key ∈ (OrgData.items data).*1).
    { apply list_elem_of_fmap. exists (key, v). auto. }
    destruct (items_key_not_assigned data key Hkey) as [H1 H2].
    split.
    + pose proof (items_well_typed data) as Hty.
      rewrite Forall_forall in Hty.
      apply (well_typed_hasattr key v), (Hty (key, v) Hin).
    + rewrite getattr_after_assignments by assumption.
      apply getattr_merge_loop;
        [apply items_keys_NoDup|apply items_well_typed|exact Hin].
  - reflexivity.
  - reflexivity.
  - intros key Hnotin H1 H2.
    rewrite getattr_after_assignments by assumption.
    apply getattr_merge_loop_other, Hnotin.
Qed.




(** ** The cascade into posts and employees *)


Lemma update_page_same_children (now : Z) (p : Page.t) :
  stable same_children (Store.update_page now p).
Proof.
  intros w. unfold Store.update_page, bind, get_db.
  destruct (Store.page_constraints _ p); split; reflexivity.
Qed.

Lemma merge_page_id (now : Z) (existing : Page.t) (data : OrgData.t)
  (s3 : option string) :
  (merge_page now existing data s3).(Page.id) = existing.(Page.id).
Proof.
  pose proof (merge_page_getattr now existing data s3) as (_ & _ & _ & H).
  specialize (H "id").
  assert (Hid : forall p, Page.getattr p "id" = Some (VInt p.(Page.id)))
    by reflexivity.
  rewrite !Hid in H. 
  assert (Some (VInt (merge_page now existing data s3).(Page.id))
          = Some (VInt existing.(Page.id))) as Heq.
  { apply H; [|discriminate|discriminate].
    simpl. intros Hin.
    repeat (apply elem_of_cons in Hin as [Hin|Hin]; [discriminate Hin|]).
    apply elem_of_nil in Hin. contradiction. }
  apply (f_equal (fun o => match o with
                           | Some (VInt x) => x
                           | _ => None
                           end)) in Heq.
  exact Heq.
Qed.

Lemma find_some_elem {A} (f : A -> bool) (l : list A) (x : A) :
  List.find f l = Some x -> x ∈ l /\ f x = true.
Proof.
  induction l as [|y l IH]; simpl; [discriminate|].
  destruct (f y) eqn:Hy.
  - intros H; inversion H; subst. split; [constructor|exact Hy].
  - intros H. destruct (IH H) as [Hin Hf]. split; [constructor; exact Hin|exact Hf].
Qed.


Lemma clear_pattern_same_db (pattern : string) :
  stable same_db (RedisClient.clear_pattern pattern).
Proof.
  intros w. unfold RedisClient.clear_pattern.
  destruct (client w); simpl; [|reflexivity].
  apply (stable_bind same_db); [typeclasses eauto|apply command_same_db|].
  intros [|k ks]; [apply stable_ret; typeclasses eauto|apply command_same_db].
Qed.




(** The first creation of [acme] cascades: the store gains the page, its
    post and its employee. *)
Example first_creation_cascades :
  length world_with_acme.(db).(pages) = 1%nat
  /\ length world_with_acme.(db).(posts) = 1%nat
  /\ length world_with_acme.(db).(employees) = 1%nat.
Proof. vm_compute. repeat split; reflexivity. Qed.

(** A forced refresh of the stored [acme] with a changed follower count
    updates the page row. *)
Example refresh_updates_follower_count :
  Page.follower_count
  <$> Store.page_by_page_id "acme"
        (refresh_page acme_env "acme"
           (with_db {| pages := [stored_page 1 "acme" "Acme"]; posts := [];
                       employees := []; next_page_id := 2; next_post_id := 1;
                       next_employee_id := 1 |} empty_world)).2.(db)
  = Some (Some 150).
Proof. vm_compute. reflexivity. Qed.

(** ** Idempotence of the page upsert *)





Lemma insert_same_twice (r : gmap string (Z * cached)) (k : string)
  (v : Z * cached) : <[k := v]> (<[k := v]> r) = <[k := v]> r.
Proof. apply insert_insert_eq. Qed.

(** The organization fetch on a working cache. *)
Lemma get_organization_healthy (env : Env) (v : string) (w : World) :
  cache_healthy w ->
  LinkedInService.get_organization_by_vanity_name env v w
  = let fetched :=
      match env.(api_organization) v with
      | OrgUnavailable => (Ok None, w)
      | OrgDetails d =>
          (Ok (Some d),
           with_redis (<[RedisClient.cache_key "org" [v]
                         := (env.(CACHE_TTL), CachedOrg d)]> w.(redis)) w)
      end in
    match w.(redis) !! RedisClient.cache_key "org" [v] with
    | Some (_, c) =>
        if truthy c then
          match c with
          | CachedOrg d => (Ok (Some d), w)
          | _ => (Raise ValidationError, w)
          end
        else fetched
    | None => fetched
    end.
Proof.
  intros Hw.
  unfold LinkedInService.get_organization_by_vanity_name, bind.
  rewrite (get_healthy _ _ Hw).
  destruct (redis w !! RedisClient.cache_key "org" [v]) as [[ttl c]|]; simpl.
  - destruct (truthy c).
    + destruct c; reflexivity.
    + destruct (api_organization env v); [reflexivity|].
      rewrite (set_healthy _ _ _ _ Hw). reflexivity.
  - destruct (api_organization env v); [reflexivity|].
    rewrite (set_healthy _ _ _ _ Hw). reflexivity.
Qed.




Lemma with_db_with_db (d1 d2 : DB) (w : World) :
  with_db d2 (with_db d1 w) = with_db d2 w.
Proof. reflexivity. Qed.



Lemma find_app_last {A} (f : A -> bool) (l : list A) (x : A) :
  List.find f l = None -> f x = true -> List.find f (l ++ [x]) = Some x.
Proof.
  intros Hnone Hfx. induction l as [|q l IH]; simpl in *.
  - rewrite Hfx. reflexivity.
  - destruct (f q); [discriminate|]. apply IH, Hnone.
Qed.

Lemma same_row_set_updated_at (u : option Z) (p q : Page.t) :
  Store.same_row (Page.set_updated_at u p) q = Store.same_row p q.
Proof. reflexivity. Qed.

Lemma page_constraints_set_updated_at (u : option Z) (others : list Page.t)
  (p : Page.t) :
  Store.page_constraints others (Page.set_updated_at u p)
  = Store.page_constraints others p.
Proof. reflexivity. Qed.

Lemma set_updated_at_twice (u : option Z) (p : Page.t) :
  Page.set_updated_at u (Page.set_updated_at u p) = Page.set_updated_at u p.
Proof. reflexivity. Qed.





Lemma insert_posts_pages (now : Z) (new : list Post.t) (d d' : DB) :
  Store.insert_posts now new d = Some d' -> d'.(pages) = d.(pages).
Proof.
  revert d. induction new as [|p new IH]; intros d; simpl.
  - intros H; inversion H; reflexivity.
  - destruct (Store.post_constraints d p); [|discriminate].
    intros H. apply IH in H. exact H.
Qed.

Lemma insert_employees_pages (now : Z) (new : list Employee.t) (d d' : DB) :
  Store.insert_employees now new d = Some d' -> d'.(pages) = d.(pages).
Proof.
  revert d. induction new as [|e new IH]; intros d; simpl.
  - intros H; inversion H; reflexivity.
  - destruct (Store.employee_constraints d e); [|discriminate].
    intros H. apply IH in H. exact H.
Qed.

Lemma same_db_pages {A} (m : M A) : stable same_db m -> stable same_pages m.
Proof. intros H w. specialize (H w). unfold same_db in H. unfold same_pages. rewrite H. reflexivity. Qed.

Lemma get_posts_same_db (env : Env) (org_id : option string) :
  stable same_db (LinkedInService.get_organization_posts env org_id).
Proof.
  unfold LinkedInService.get_organization_posts. cbv zeta. stable_tac.
Qed.

Lemma get_employees_same_db (env : Env) (org_id : option string) :
  stable same_db (LinkedInService.get_organization_employees env org_id).
Proof.
  unfold LinkedInService.get_organization_employees. cbv zeta. stable_tac.
Qed.

Lemma fetch_posts_same_pages (env : Env) (page : Page.t) :
  stable same_pages (_fetch_and_store_posts env page).
Proof.
  unfold _fetch_and_store_posts.
  apply stable_bind;
    [typeclasses eauto|apply same_db_pages, get_posts_same_db|intros posts_data].
  intros w. unfold Store.add_posts, bind, get_db, put_db, raise.
  destruct (Store.insert_posts _ _ (db w)) as [d'|] eqn:Hins; [|reflexivity].
  apply insert_posts_pages in Hins. exact Hins.
Qed.

Lemma fetch_employees_same_pages (env : Env) (page : Page.t) :
  stable same_pages (_fetch_and_store_employees env page).
Proof.
  unfold _fetch_and_store_employees.
  apply stable_bind;
    [typeclasses eauto|apply same_db_pages, get_employees_same_db|intros data].
  intros w. unfold Store.add_employees, bind, get_db, put_db, raise.
  destruct (Store.insert_employees _ _ (db w)) as [d'|] eqn:Hins; [|reflexivity].
  apply insert_employees_pages in Hins. exact Hins.
Qed.




(** The Employee store behaves alike. *)
Example employee_store_is_not_idempotent :
  (_fetch_and_store_employees acme_env acme_row world_with_acme_page_only).1
  = Ok tt
  /\ (_fetch_and_store_employees acme_env acme_row
        (_fetch_and_store_employees acme_env acme_row
           world_with_acme_page_only).2).1
     = Raise IntegrityError.
Proof. split; vm_compute; reflexivity. Qed.



(** ** Comparison of pages *)

(** Outside the bounds the request fails with a validation error, before
    the store is read. *)
Lemma compare_pages_validation (env : Env) (page_ids : list string) (w : World) :
  (length page_ids < 2 \/ length page_ids > 5)%nat ->
  (compare_pages env page_ids w).2 = w
  /\ is_validation_failure (compare_pages env page_ids w).1 = true.
Proof.
  intros Hn. unfold compare_pages.
  destruct (Z.of_nat (length page_ids) <? 2) eqn:H2; [split; reflexivity|].
  destruct (5 <? Z.of_nat (length page_ids)) eqn:H5; [split; reflexivity|].
  apply Z.ltb_ge in H2, H5. lia.
Qed.

(** Within the bounds, fewer than two resolved pages is a not-found
    failure. *)
Lemma compare_pages_not_found (env : Env) (page_ids : list string) (w : World) :
  (2 <= length page_ids <= 5)%nat ->
  (length (resolved_pages w.(db) page_ids) < 2)%nat ->
  compare_pages env page_ids w
  = (Raise (HTTPException 404 "Not enough pages found for comparison"), w).
Proof.
  intros Hn Hr. unfold compare_pages.
  destruct (Z.of_nat (length page_ids) <? 2) eqn:H2;
    [apply Z.ltb_lt in H2; lia|].
  destruct (5 <? Z.of_nat (length page_ids)) eqn:H5;
    [apply Z.ltb_lt in H5; lia|].
  unfold bind, get_db.
  destruct (Z.of_nat (length (resolved_pages (db w) page_ids)) <? 2) eqn:H;
    [reflexivity|]. apply Z.ltb_ge in H. lia.
Qed.

Lemma length_insert_desc {A} (key : A -> Z) (x : A) (l : list A) :
  length (insert_desc key x l) = S (length l).
Proof.
  induction l as [|y l IH]; simpl; [reflexivity|].
  destruct (key y <? key x); simpl; [reflexivity|]. rewrite IH. reflexivity.
Qed.

Lemma length_sorted_desc {A} (key : A -> Z) (l : list A) :
  length (sorted_desc key l) = length l.
Proof.
  unfold sorted_desc.
  assert (H : forall acc, length (foldl (fun acc x => insert_desc key x acc) acc l)
                          = (length l + length acc)%nat).
  { induction l as [|x l IH]; intros acc; simpl; [reflexivity|].
    rewrite IH, length_insert_desc. lia. }
  rewrite H. simpl. lia.
Qed.

(** The comparison is computed when every page has a description and a
    follower count. *)
Lemma generate_comparison_ok (env : Env) (pages : list PageDict.t) :
  pages <> [] ->
  Forall comparable pages ->
  exists c, _generate_comparison env pages = Ok c.
Proof.
  intros Hne Hall. unfold _generate_comparison.
  assert (Hprompt : exists prompt,
    foldr (fun p acc =>
             rbind (AIService.text_prefix p.(PageDict.description))
               (fun description =>
                  rbind acc (fun rest =>
                    Ok ({| facts_name := p.(PageDict.name);
                           facts_industry := p.(PageDict.industry);
                           facts_followers := p.(PageDict.follower_count);
                           facts_employees := p.(PageDict.employee_count);
                           facts_description := description |} :: rest))))
      (Ok []) pages = Ok prompt).
  { clear Hne. induction Hall as [|p pages [[d Hd] _] _ [prompt IH]]; simpl.
    - eexists; reflexivity.
    - rewrite Hd, IH. simpl. eexists; reflexivity. }
  destruct Hprompt as [prompt ->]. simpl.
  destruct (chat_compare env prompt); [eexists; reflexivity|].
  unfold winner_by_followers.
  assert (Hex : existsb (fun p => negb (Store.not_null p.(PageDict.follower_count)))
                  pages = false).
  { clear Hne. induction Hall as [|p pages [_ [n Hn]] _ IH]; simpl; [reflexivity|].
    rewrite Hn, IH. reflexivity. }
  rewrite Hex. simpl.
  pose proof (length_sorted_desc
                (fun p => default 0 p.(PageDict.follower_count)) pages) as Hlen.
  destruct (sorted_desc _ pages) as [|best rest].
  - destruct pages; [contradiction|discriminate Hlen].
  - simpl. eexists; reflexivity.
Qed.

(** Within the bounds, with at least two resolved pages that all have a
    description and a follower count, the comparison succeeds. *)
Lemma compare_pages_ok (env : Env) (page_ids : list string) (w : World) :
  (2 <= length page_ids <= 5)%nat ->
  (2 <= length (resolved_pages w.(db) page_ids))%nat ->
  Forall comparable (resolved_pages w.(db) page_ids) ->
  exists c, compare_pages env page_ids w = (Ok c, w).
Proof.
  intros Hn Hr Hall. unfold compare_pages.
  destruct (Z.of_nat (length page_ids) <? 2) eqn:H2;
    [apply Z.ltb_lt in H2; lia|].
  destruct (5 <? Z.of_nat (length page_ids)) eqn:H5;
    [apply Z.ltb_lt in H5; lia|].
  unfold bind, get_db.
  destruct (Z.of_nat (length (resolved_pages (db w) page_ids)) <? 2) eqn:H;
    [apply Z.ltb_lt in H; lia|].
  destruct (generate_comparison_ok env (resolved_pages (db w) page_ids))
    as [c Hc]; [|exact Hall|].
  - intros Hnil. rewrite Hnil in Hr. simpl in Hr. lia.
  - exists c. unfold lift. rewrite Hc. reflexivity.
Qed.

(** C7. With two identifiers that both resolve to stored pages whose
    [description] is null, [compare_pages] neither succeeds nor reports a
    validation or not-found failure: slicing the null description raises
    [TypeError] while the prompt is built, outside the [try]. *)
Theorem compare_pages_raises_on_null_description :
  length (resolved_pages world_with_two_pages.(db) ["acme"; "globex"]) = 2%nat
  /\ compare_pages narrating_env ["acme"; "globex"] world_with_two_pages
     = (Raise TypeError, world_with_two_pages)
  /\ exists c,
       compare_pages narrating_env ["acme"; "globex"]
         world_with_two_described_pages
       = (Ok c, world_with_two_described_pages).
Proof.
  split; [reflexivity|]. split; [reflexivity|].
  eexists. vm_compute. reflexivity.
Qed.

(* ===================================================================== *)
(** * Further properties of the code *)
(* ===================================================================== *)

(** ** The cache client on a working cache *)








Lemma colon_free_prefix (p1 p2 r1 r2 : string) :
  colon_free p1 = true -> colon_free p2 = true ->
  p1 +:+ String ":" r1 = p2 +:+ String ":" r2 -> p1 = p2 /\ r1 = r2.
Proof.
  revert p2. induction p1 as [|c p1 IH]; intros [|d p2] H1 H2 Heq.
  - inversion Heq. auto.
  - simpl in H2. apply andb_prop in H2 as [Hd _].
    inversion Heq; subst d. discriminate Hd.
  - simpl in H1. apply andb_prop in H1 as [Hc _].
    inversion Heq; subst c. discriminate Hc.
  - simpl in H1, H2. apply andb_prop in H1 as [_ H1].
    apply andb_prop in H2 as [_ H2].
    inversion Heq; subst d.
    destruct (IH p2 H1 H2) as [-> ->]; [assumption|auto].
Qed.

(** X3. Keys built by [cache_key] from prefixes without a colon collide
    only when the prefixes are equal and the joined arguments are equal:
    the key spaces of [org], [posts], [page_detail], ... are disjoint. *)
Theorem cache_key_separates_prefixes (p1 p2 : string) (args1 args2 : list string) :
  colon_free p1 = true -> colon_free p2 = true ->
  RedisClient.cache_key p1 args1 = RedisClient.cache_key p2 args2 ->
  p1 = p2 /\ String.concat ":" args1 = String.concat ":" args2.
Proof.
  intros H1 H2 Heq. apply colon_free_prefix; assumption.
Qed.

Lemma cache_key_separates_prefixes_witness :
  RedisClient.cache_key "page_detail" ["acme"]
  <> RedisClient.cache_key "posts" ["acme"; "0"; "25"].
Proof.
  intros Heq.
  destruct (cache_key_separates_prefixes "page_detail" "posts" ["acme"]
              ["acme"; "0"; "25"] eq_refl eq_refl Heq) as [Hp _].
  discriminate Hp.
Defined.

(** ** What a run of the pipeline does to the store *)

Lemma preserves_bind {A B} (I : World -> Prop) (m : M A) (k : A -> M B) :
  preserves I m -> (forall a, preserves I (k a)) -> preserves I (bind m k).
Proof.
  intros Hm Hk w Hw. unfold bind. specialize (Hm w Hw).
  destruct (m w) as [[a|e] w1]; simpl in *; [|exact Hm].
  apply Hk, Hm.
Qed.

Lemma preserves_same_db {A} (I : World -> Prop) (m : M A) :
  (forall w w', w'.(db) = w.(db) -> I w -> I w') ->
  stable same_db m -> preserves I m.
Proof. intros HI Hm w Hw. apply (HI w); [apply Hm|exact Hw]. Qed.

(** The shape of a run that creates the page. *)
Lemma fetch_page_created (env : Env) (page_id : string) (force : bool)
  (w w1 : World) (page : Page.t) :
  Store.page_by_page_id page_id w.(db) = None ->
  _fetch_and_store_page env page_id force w = (Ok (Some page), w1) ->
  exists data,
    page = Store.page_row env.(now) w.(db).(next_page_id)
             (new_page env.(now) page_id data
                (StorageService.clone_page_images env
                   data.(OrgData.profile_picture_url) page_id))
    /\ w1.(db).(pages) = (w.(db).(pages) ++ [page])%list.
Proof.
  intros Hex. unfold _fetch_and_store_page. unfold bind at 1. unfold get_db.
  rewrite Hex. simpl. unfold bind at 1.
  destruct (LinkedInService.get_organization_by_vanity_name env page_id w)
    as [[[[data|]|]|e] w'] eqn:Horg; try discriminate.
  pose proof (get_organization_same_db env page_id w) as Hdb.
  rewrite Horg in Hdb. unfold same_db in Hdb. simpl in Hdb.
  unfold bind at 1. unfold Store.add_page at 1.
  unfold bind at 1. unfold get_db.
  destruct (Store.page_constraints (pages (db w')) _) eqn:Hcons;
    [|discriminate].
  unfold bind at 1. unfold put_db, ret.
  set (row := Store.page_row (now env) (next_page_id (db w')) _).
  set (w2 := with_db _ w').
  unfold bind at 1.
  pose proof (fetch_posts_same_pages env row w2) as Hp.
  destruct (_fetch_and_store_posts env row w2) as [[[]|e] w3]; [|discriminate].
  unfold bind at 1.
  pose proof (fetch_employees_same_pages env row w3) as He.
  destruct (_fetch_and_store_employees env row w3) as [[[]|e] w4];
    [|discriminate].
  intros H; inversion H; subst page w1; clear H.
  unfold same_pages in Hp, He. simpl in Hp, He.
  exists data. subst row. rewrite Hdb. split; [reflexivity|].
  rewrite He, Hp. subst w2. cbn [db with_db pages]. rewrite Hdb. reflexivity.
Qed.

(** The shape of a forced run on a stored page. *)
Lemma fetch_page_updated (env : Env) (page_id : string) (w w1 : World)
  (existing page : Page.t) :
  Store.page_by_page_id page_id w.(db) = Some existing ->
  _fetch_and_store_page env page_id true w = (Ok (Some page), w1) ->
  (exists data,
     page = Page.set_updated_at (Some env.(now))
              (merge_page env.(now) existing data
                 (StorageService.clone_page_images env
                    data.(OrgData.profile_picture_url) page_id)))
  /\ page.(Page.id) = existing.(Page.id)
  /\ w1.(db).(pages)
     = (fun q => if Store.same_row page q then page else q) <$> w.(db).(pages).
Proof.
  intros Hex. unfold _fetch_and_store_page, bind, get_db. rewrite Hex.
  rewrite andb_false_r.
  destruct (LinkedInService.get_organization_by_vanity_name env page_id w)
    as [[[[data|]|]|e] w'] eqn:Horg; try discriminate.
  pose proof (get_organization_same_db env page_id w) as Hdb.
  rewrite Horg in Hdb. unfold same_db in Hdb. simpl in Hdb.
  unfold Store.update_page, bind, get_db, put_db, ret, raise.
  destruct (Store.page_constraints _ _); [|discriminate].
  intros H; inversion H; subst page w1; clear H.
  split; [exists data; reflexivity|]. split; [apply merge_page_id|].
  simpl. rewrite Hdb. reflexivity.
Qed.

(** X4. A run of the pipeline that finds nothing writes nothing: when
    [_fetch_and_store_page] returns [None] (the provider gave no record),
    the store is as before, with or without [force_update]. *)
Theorem fetch_without_record_keeps_store (env : Env) (page_id : string)
  (force : bool) (w w1 : World) :
  _fetch_and_store_page env page_id force w = (Ok None, w1) ->
  w1.(db) = w.(db).
Proof.
  unfold _fetch_and_store_page. unfold bind at 1. unfold get_db.
  destruct (Store.not_null (Store.page_by_page_id page_id (db w)) && negb force)
    eqn:Hret.
  - destruct (Store.page_by_page_id page_id (db w)); [|discriminate Hret].
    unfold ret. discriminate.
  - unfold bind at 1.
    pose proof (get_organization_same_db env page_id w) as Hdb.
    destruct (LinkedInService.get_organization_by_vanity_name env page_id w)
      as [[[[data|]|]|e] w'] eqn:Horg; unfold same_db in Hdb; simpl in Hdb;
      try discriminate.
    + destruct (Store.page_by_page_id page_id (db w)).
      * unfold bind. destruct (Store.update_page _ _ w') as [[p|e] w2];
          unfold ret; discriminate.
      * unfold bind at 1.
        destruct (Store.add_page _ _ w') as [[p|e] w2]; [|discriminate].
        unfold bind at 1.
        destruct (_fetch_and_store_posts env p w2) as [[[]|e] w3];
          [|discriminate].
        unfold bind at 1.
        destruct (_fetch_and_store_employees env p w3) as [[[]|e] w4];
          unfold ret; discriminate.
    + unfold ret. intros H; inversion H; subst. exact Hdb.
    + unfold ret. intros H; inversion H; subst. exact Hdb.
Qed.

Lemma fetch_without_record_keeps_store_witness :
  (_fetch_and_store_page sample_env "acme" true world_with_stored_acme).2.(db)
  = world_with_stored_acme.(db).
Proof.
  apply (fetch_without_record_keeps_store sample_env "acme" true
           world_with_stored_acme).
  vm_compute. reflexivity.
Defined.

(** X5. Every successful forced sync stamps the page: the row returned by
    [_fetch_and_store_page] with [force_update] carries [last_scraped_at]
    equal to the current time and is the row stored for it, on creation
    and on update alike; a run without [force_update] on a stored page
    returns the stored row and leaves the world untouched. *)
Theorem sync_stamps_last_scraped_at (env : Env) (page_id : string) (w : World) :
  (forall page w1,
     _fetch_and_store_page env page_id true w = (Ok (Some page), w1) ->
     page.(Page.last_scraped_at) = Some env.(now)
     /\ page ∈ w1.(db).(pages))
  /\ (forall existing,
        Store.page_by_page_id page_id w.(db) = Some existing ->
        _fetch_and_store_page env page_id false w = (Ok (Some existing), w)).
Proof.
  split.
  - intros page w1 Hrun.
    destruct (Store.page_by_page_id page_id (db w)) as [existing|] eqn:Hex.
    + destruct (fetch_page_updated env page_id w w1 existing page Hex Hrun)
        as ([data ->] & Hid & Hpages).
      split; [reflexivity|].
      rewrite Hpages. apply find_some_elem in Hex as [Hin _].
      apply list_elem_of_fmap. exists existing. split; [|exact Hin].
      unfold Store.same_row. rewrite Hid.
      rewrite bool_decide_eq_true_2 by reflexivity. reflexivity.
    + destruct (fetch_page_created env page_id true w w1 page Hex Hrun)
        as (data & -> & Hpages).
      split; [reflexivity|].
      rewrite Hpages. apply elem_of_app. right. constructor.
  - intros existing Hex.
    unfold _fetch_and_store_page. unfold bind at 1. unfold get_db.
    rewrite Hex. reflexivity.
Qed.

Lemma sync_stamps_last_scraped_at_witness :
  _fetch_and_store_page sample_env "acme" false world_with_stored_acme
  = (Ok (Some (stored_page 1 "acme" "Acme")), world_with_stored_acme).
Proof.
  apply (proj2 (sync_stamps_last_scraped_at sample_env "acme"
                  world_with_stored_acme)).
  reflexivity.
Defined.

#[local] Instance same_page_ids_refl : Reflexive same_page_ids.
Proof. intros w. reflexivity. Qed.

#[local] Instance same_page_ids_trans : Transitive same_page_ids.
Proof. intros w1 w2 w3 H1 H2. unfold same_page_ids in *. congruence. Qed.

Lemma same_db_page_ids {A} (m : M A) : stable same_db m -> stable same_page_ids m.
Proof.
  intros H w. specialize (H w). unfold same_db in H. unfold same_page_ids.
  rewrite H. reflexivity.
Qed.

Lemma replace_keeps_ids (p row : Page.t) (l : list Page.t) :
  row.(Page.id) = p.(Page.id) ->
  Page.id <$> ((fun q => if Store.same_row p q then row else q) <$> l)
  = Page.id <$> l.
Proof.
  intros Hid. rewrite <- list_fmap_compose. apply list_fmap_ext.
  intros i q _. simpl. unfold Store.same_row.
  destruct (bool_decide (Page.id p = Page.id q)) eqn:Hq; [|reflexivity].
  apply bool_decide_eq_true_1 in Hq. congruence.
Qed.

Lemma update_page_same_ids (now : Z) (p : Page.t) :
  stable same_page_ids (Store.update_page now p).
Proof.
  intros w. unfold Store.update_page, bind, get_db.
  destruct (Store.page_constraints _ p); [|reflexivity].
  unfold same_page_ids. simpl. apply replace_keeps_ids. reflexivity.
Qed.

Lemma fetch_existing_same_ids (env : Env) (page_id : string) (force : bool)
  (w : World) (existing : Page.t) :
  Store.page_by_page_id page_id w.(db) = Some existing ->
  same_page_ids w (_fetch_and_store_page env page_id force w).2.
Proof.
  intros Hex. unfold _fetch_and_store_page. unfold bind at 1. unfold get_db.
  rewrite Hex.
  match goal with
  | |- same_page_ids w (?m w).2 =>
      assert (stable same_page_ids m) as Hs; [|exact (Hs w)]
  end.
  destruct (Store.not_null (Some existing) && negb force);
    [apply stable_ret; typeclasses eauto|].
  apply stable_bind;
    [typeclasses eauto
    |apply same_db_page_ids, get_organization_same_db
    |intros [[data|]|]]; try (apply stable_ret; typeclasses eauto).
  apply stable_bind;
    [typeclasses eauto|apply update_page_same_ids|intros page].
  apply stable_ret; typeclasses eauto.
Qed.

Lemma fetch_absent_pages (env : Env) (page_id : string) (force : bool)
  (w w1 : World) (r : result (option Page.t)) :
  Store.page_by_page_id page_id w.(db) = None ->
  _fetch_and_store_page env page_id force w = (r, w1) ->
  w1.(db).(pages) = w.(db).(pages)
  \/ exists page,
       w1.(db).(pages) = (w.(db).(pages) ++ [page])%list
       /\ page.(Page.page_id) = Some page_id
       /\ page.(Page.id) = Some w.(db).(next_page_id).
Proof.
  intros Hex.
  unfold _fetch_and_store_page. unfold bind at 1. unfold get_db.
  rewrite Hex. simpl. unfold bind at 1.
  pose proof (get_organization_same_db env page_id w) as Hdb.
  destruct (LinkedInService.get_organization_by_vanity_name env page_id w)
    as [[[[data|]|]|e] w'] eqn:Horg; unfold same_db in Hdb; simpl in Hdb;
    try (intros H; inversion H; subst; left; rewrite Hdb; reflexivity).
  unfold bind at 1. unfold Store.add_page at 1.
  unfold bind at 1. unfold get_db.
  destruct (Store.page_constraints (pages (db w')) _) eqn:Hcons;
    [|intros H; inversion H; subst; left; rewrite Hdb; reflexivity].
  unfold bind at 1. unfold put_db, ret.
  set (row := Store.page_row (now env) (next_page_id (db w')) _).
  set (w2 := with_db _ w').
  assert (Hfinal : forall w4, same_pages w2 w4 ->
            pages (db w4) = (pages (db w) ++ [row])%list).
  { intros w4 H4. unfold same_pages in H4. rewrite H4. subst w2.
    cbn [db with_db pages]. rewrite Hdb. reflexivity. }
  assert (Hrow : Page.page_id row = Some page_id
                 /\ Page.id row = Some (next_page_id (db w))).
  { subst row. rewrite Hdb. split; reflexivity. }
  unfold bind at 1.
  pose proof (fetch_posts_same_pages env row w2) as Hp.
  destruct (_fetch_and_store_posts env row w2) as [[[]|e] w3].
  - unfold bind at 1.
    pose proof (fetch_employees_same_pages env row w3) as He.
    destruct (_fetch_and_store_employees env row w3) as [[[]|e] w4];
      intros H; inversion H; subst; right; exists row;
      (split; [|exact Hrow]); apply Hfinal;
      unfold same_pages in *; simpl in *; congruence.
  - intros H; inversion H; subst. right. exists row.
    split; [|exact Hrow]. apply Hfinal. exact Hp.
Qed.

(** X6. A run of the pipeline never adds a second row for a stored page:
    when the page is stored, the primary keys of the [pages] table are the
    same after any run (returning or raising); when it is not, the table is
    unchanged or extended by exactly one row, which carries the requested
    identifier and the next primary key. *)
Theorem pipeline_adds_at_most_one_page (env : Env) (page_id : string)
  (force : bool) (w : World) :
  let w1 := (_fetch_and_store_page env page_id force w).2 in
  (forall existing,
     Store.page_by_page_id page_id w.(db) = Some existing ->
     Page.id <$> w1.(db).(pages) = Page.id <$> w.(db).(pages))
  /\ (Store.page_by_page_id page_id w.(db) = None ->
      w1.(db).(pages) = w.(db).(pages)
      \/ exists page,
           w1.(db).(pages) = (w.(db).(pages) ++ [page])%list
           /\ page.(Page.page_id) = Some page_id
           /\ page.(Page.id) = Some w.(db).(next_page_id)).
Proof.
  cbv zeta. split.
  - intros existing Hex. apply (fetch_existing_same_ids env page_id force w existing Hex).
  - intros Hex.
    apply (fetch_absent_pages env page_id force w _
             (_fetch_and_store_page env page_id force w).1 Hex).
    destruct (_fetch_and_store_page env page_id force w); reflexivity.
Qed.

Lemma pipeline_adds_at_most_one_page_witness :
  Page.id <$> (_fetch_and_store_page acme_env "acme" true world_with_stored_acme).2.(db).(pages)
  = Page.id <$> world_with_stored_acme.(db).(pages).
Proof.
  apply (proj1 (pipeline_adds_at_most_one_page acme_env "acme" true
                  world_with_stored_acme) (stored_page 1 "acme" "Acme")).
  reflexivity.
Defined.

(** ** Referential integrity *)

Lemma insert_posts_references (now : Z) (new : list Post.t) (d d' : DB) :
  Store.insert_posts now new d = Some d' ->
  references_hold d -> references_hold d'.
Proof.
  revert d. induction new as [|p new IH]; intros d; simpl.
  - intros H; inversion H; subst; auto.
  - destruct (Store.post_constraints d p) eqn:Hc; [|discriminate].
    intros H Hd. apply IH in H; [exact H|]. clear IH H.
    unfold Store.post_constraints in Hc.
    apply andb_prop in Hc as [Hc Hfk]. apply andb_prop in Hc as [_ Hnn].
    apply bool_decide_eq_true_1 in Hfk.
    destruct Hd as [Hposts Hemps]. split; simpl.
    + intros q Hq. apply elem_of_app in Hq as [Hq|Hq]; [apply Hposts, Hq|].
      apply list_elem_of_singleton in Hq. subst q. simpl. auto.
    + exact Hemps.
Qed.

Lemma insert_employees_references (now : Z) (new : list Employee.t) (d d' : DB) :
  Store.insert_employees now new d = Some d' ->
  references_hold d -> references_hold d'.
Proof.
  revert d. induction new as [|e new IH]; intros d; simpl.
  - intros H; inversion H; subst; auto.
  - destruct (Store.employee_constraints d e) eqn:Hc; [|discriminate].
    intros H Hd. apply IH in H; [exact H|]. clear IH H.
    unfold Store.employee_constraints in Hc.
    apply andb_prop in Hc as [Hc Hfk]. apply andb_prop in Hc as [_ Hnn].
    apply bool_decide_eq_true_1 in Hfk.
    destruct Hd as [Hposts Hemps]. split; simpl.
    + exact Hposts.
    + intros q Hq. apply elem_of_app in Hq as [Hq|Hq]; [apply Hemps, Hq|].
      apply list_elem_of_singleton in Hq. subst q. simpl. auto.
Qed.

Lemma references_same_db (w w' : World) :
  w'.(db) = w.(db) -> children_reference_pages w -> children_reference_pages w'.
Proof. unfold children_reference_pages. intros ->. auto. Qed.

Lemma add_page_references (now : Z) (p : Page.t) :
  preserves children_reference_pages (Store.add_page now p).
Proof.
  intros w [Hposts Hemps]. unfold Store.add_page, bind, get_db.
  destruct (Store.page_constraints _ p); [|split; assumption].
  split; simpl; intros q Hq.
  - destruct (Hposts q Hq) as [Hnn Hin]. split; [exact Hnn|].
    rewrite fmap_app. apply elem_of_app. left. exact Hin.
  - destruct (Hemps q Hq) as [Hnn Hin]. split; [exact Hnn|].
    rewrite fmap_app. apply elem_of_app. left. exact Hin.
Qed.

Lemma update_page_references (now : Z) (p : Page.t) :
  preserves children_reference_pages (Store.update_page now p).
Proof.
  intros w Hw. pose proof (update_page_same_ids now p w) as Hids.
  pose proof (update_page_same_children now p w) as [Hp He].
  unfold same_page_ids in Hids. destruct Hw as [Hposts Hemps].
  split; intros q Hq.
  - rewrite Hp in Hq. rewrite Hids. apply Hposts, Hq.
  - rewrite He in Hq. rewrite Hids. apply Hemps, Hq.
Qed.

Lemma add_posts_references (now : Z) (new : list Post.t) :
  preserves children_reference_pages (Store.add_posts now new).
Proof.
  intros w Hw. unfold Store.add_posts, bind, get_db, put_db, raise.
  destruct (Store.insert_posts now new (db w)) as [d'|] eqn:Hins; [|exact Hw].
  exact (insert_posts_references now new _ _ Hins Hw).
Qed.

Lemma add_employees_references (now : Z) (new : list Employee.t) :
  preserves children_reference_pages (Store.add_employees now new).
Proof.
  intros w Hw. unfold Store.add_employees, bind, get_db, put_db, raise.
  destruct (Store.insert_employees now new (db w)) as [d'|] eqn:Hins;
    [|exact Hw].
  exact (insert_employees_references now new _ _ Hins Hw).
Qed.

Lemma preserves_ret {A} (I : World -> Prop) (a : A) : preserves I (ret a).
Proof. intros w Hw. exact Hw. Qed.

Lemma preserves_raise {A} (I : World -> Prop) (e : exn) : preserves I (@raise A e).
Proof. intros w Hw. exact Hw. Qed.

Lemma preserves_get_db (I : World -> Prop) : preserves I get_db.
Proof. intros w Hw. exact Hw. Qed.

Lemma fetch_page_references (env : Env) (page_id : string) (force : bool) :
  preserves children_reference_pages (_fetch_and_store_page env page_id force).
Proof.
  unfold _fetch_and_store_page.
  apply preserves_bind; [apply preserves_get_db|intros d].
  destruct (Store.not_null (Store.page_by_page_id page_id d) && negb force);
    [apply preserves_ret|].
  apply preserves_bind.
  { apply preserves_same_db;
      [apply references_same_db|apply get_organization_same_db]. }
  intros [[data|]|]; try apply preserves_ret.
  destruct (Store.page_by_page_id page_id d).
  - apply preserves_bind; [apply update_page_references|intros page].
    apply preserves_ret.
  - apply preserves_bind; [apply add_page_references|intros page].
    apply preserves_bind.
    { unfold _fetch_and_store_posts. apply preserves_bind.
      - apply preserves_same_db;
          [apply references_same_db|apply get_posts_same_db].
      - intros posts_data. apply add_posts_references. }
    intros _. apply preserves_bind.
    { unfold _fetch_and_store_employees. apply preserves_bind.
      - apply preserves_same_db;
          [apply references_same_db|apply get_employees_same_db].
      - intros data'. apply add_employees_references. }
    intros _. apply preserves_ret.
Qed.

(** X7. Referential integrity is kept: if every stored post and employee
    references a stored page, this still holds after any run of the
    fetch-and-store pipeline and after a forced refresh, returning or
    raising; the children created by the cascade reference the new page. *)
Theorem pipeline_keeps_references (env : Env) (page_id : string) (w : World) :
  children_reference_pages w ->
  (forall force,
     children_reference_pages (_fetch_and_store_page env page_id force w).2)
  /\ children_reference_pages (refresh_page env page_id w).2.
Proof.
  intros Hw. split.
  - intros force. apply fetch_page_references, Hw.
  - assert (Hp : preserves children_reference_pages (refresh_page env page_id)).
    { unfold refresh_page. apply preserves_bind.
      - apply preserves_same_db;
          [apply references_same_db|apply clear_pattern_same_db].
      - intros _. apply preserves_bind; [apply fetch_page_references|].
        intros [p|]; [apply preserves_ret|apply preserves_raise]. }
    apply Hp, Hw.
Qed.

Lemma pipeline_keeps_references_witness :
  children_reference_pages world_with_acme.
Proof.
  refine (proj1 (pipeline_keeps_references acme_env "acme" empty_world _) false).
  split; intros x Hx; apply elem_of_nil in Hx; contradiction.
Defined.

(** The cascade of the first creation of [acme] did store a post and an
    employee, both referencing the new page. *)
Example cascade_children_reference_acme :
  Post.page_id <$> world_with_acme.(db).(posts) = [Some 1]
  /\ Employee.page_id <$> world_with_acme.(db).(employees) = [Some 1]
  /\ Page.id <$> world_with_acme.(db).(pages) = [Some 1].
Proof. vm_compute. repeat split; reflexivity. Qed.

(** ** The followers endpoint *)

Lemma insert_posts_employees (now : Z) (new : list Post.t) (d d' : DB) :
  Store.insert_posts now new d = Some d' -> d'.(employees) = d.(employees).
Proof.
  revert d. induction new as [|p new IH]; intros d; simpl.
  - intros H; inversion H; reflexivity.
  - destruct (Store.post_constraints d p); [|discriminate].
    intros H. apply IH in H. exact H.
Qed.

Lemma insert_employees_flags (now : Z) (new : list Employee.t) (d d' : DB) :
  Store.insert_employees now new d = Some d' ->
  (forall e, e ∈ new ->
     e.(Employee.is_follower) <> Some true
     /\ e.(Employee.is_following) <> Some true) ->
  (forall e, e ∈ d.(employees) ->
     e.(Employee.is_follower) <> Some true
     /\ e.(Employee.is_following) <> Some true) ->
  forall e, e ∈ d'.(employees) ->
    e.(Employee.is_follower) <> Some true
    /\ e.(Employee.is_following) <> Some true.
Proof.
  revert d. induction new as [|x new IH]; intros d; simpl.
  - intros H; inversion H; subst; auto.
  - destruct (Store.employee_constraints d x); [|discriminate].
    intros H Hnew Hd. refine (IH _ H _ _); clear IH H.
    + intros e He. apply Hnew. right. exact He.
    + simpl. intros e He. apply elem_of_app in He as [He|He]; [apply Hd, He|].
      apply list_elem_of_singleton in He. subst e. simpl.
      destruct (Hnew x) as [H1 H2]; [left|].
      destruct (Employee.is_follower x) as [[|]|],
               (Employee.is_following x) as [[|]|]; simpl;
        split; congruence.
Qed.

Lemma flags_same_employees (w w' : World) :
  w'.(db).(employees) = w.(db).(employees) ->
  no_follower_flags w -> no_follower_flags w'.
Proof. unfold no_follower_flags. intros ->. auto. Qed.

Lemma fetch_page_flags (env : Env) (page_id : string) (force : bool) :
  preserves no_follower_flags (_fetch_and_store_page env page_id force).
Proof.
  assert (Hdb : forall w w', w'.(db) = w.(db) ->
                             no_follower_flags w -> no_follower_flags w').
  { intros w w' E. apply flags_same_employees. rewrite E. reflexivity. }
  unfold _fetch_and_store_page.
  apply preserves_bind; [apply preserves_get_db|intros d].
  destruct (Store.not_null (Store.page_by_page_id page_id d) && negb force);
    [apply preserves_ret|].
  apply preserves_bind.
  { apply preserves_same_db; [exact Hdb|apply get_organization_same_db]. }
  intros [[data|]|]; try apply preserves_ret.
  destruct (Store.page_by_page_id page_id d).
  - apply preserves_bind; [|intros page; apply preserves_ret].
    intros w. apply (flags_same_employees w).
    apply (update_page_same_children (now env) _ w).
  - apply preserves_bind.
    { intros w. apply (flags_same_employees w). unfold Store.add_page, bind, get_db.
      destruct (Store.page_constraints _ _); reflexivity. }
    intros page. apply preserves_bind.
    { unfold _fetch_and_store_posts. apply preserves_bind.
      - apply preserves_same_db; [exact Hdb|apply get_posts_same_db].
      - intros posts_data w. apply (flags_same_employees w).
        unfold Store.add_posts, bind, get_db, put_db, raise.
        destruct (Store.insert_posts _ _ (db w)) as [d'|] eqn:Hins;
          [|reflexivity].
        exact (insert_posts_employees _ _ _ _ Hins). }
    intros _. apply preserves_bind; [|intros _; apply preserves_ret].
    unfold _fetch_and_store_employees. apply preserves_bind.
    + apply preserves_same_db; [exact Hdb|apply get_employees_same_db].
    + intros data' w Hw.
      unfold Store.add_employees, bind, get_db, put_db, raise.
      destruct (Store.insert_employees _ _ (db w)) as [d'|] eqn:Hins;
        [|exact Hw].
      unfold no_follower_flags. simpl.
      apply (insert_employees_flags _ _ _ _ Hins); [|exact Hw].
      intros e He. apply list_elem_of_fmap in He as [x [-> _]]. simpl.
      split; discriminate.
Qed.

Lemma filter_none {A} (f : A -> bool) (l : list A) :
  (forall x, x ∈ l -> f x = false) -> List.filter f l = [].
Proof.
  induction l as [|a l IH]; intros H; simpl; [reflexivity|].
  rewrite (H a) by left. apply IH. intros x Hx. apply H. right. exact Hx.
Qed.

(** X8. The fetch-and-store pipeline never flags an employee as a follower
    or as followed: if no stored employee carries such a flag, none does
    after a run, and the followers endpoint then answers, for a stored
    page, two empty lists and two zero totals (whatever page and page size
    are asked), and 404 for a page that is not stored. *)
Theorem followers_endpoint_stays_empty (env : Env) (page_id : string)
  (force : bool) (w : World) :
  no_follower_flags w ->
  let w' := (_fetch_and_store_page env page_id force w).2 in
  no_follower_flags w'
  /\ forall requested page page_size,
       match (get_page_followers requested page page_size w').1 with
       | Ok r => is_Some (Store.page_by_page_id requested w'.(db))
                 /\ r.(followers) = [] /\ r.(following) = []
                 /\ r.(total_followers) = 0 /\ r.(total_following) = 0
       | Raise e => Store.page_by_page_id requested w'.(db) = None
                    /\ e = page_not_found requested
       end.
Proof.
  intros Hw w'. assert (Hw' : no_follower_flags w').
  { apply fetch_page_flags, Hw. }
  split; [exact Hw'|]. intros requested page page_size.
  unfold get_page_followers, bind, get_db. simpl.
  destruct (Store.page_by_page_id requested (db w')) as [db_page|] eqn:Hp;
    simpl; [|split; reflexivity].
  assert (E1 : followers_of (db w') db_page = []).
  { apply filter_none. intros e He. destruct (Hw' e He) as [H1 _].
    apply andb_false_iff. right. apply bool_decide_eq_false_2. exact H1. }
  assert (E2 : following_of (db w') db_page = []).
  { apply filter_none. intros e He. destruct (Hw' e He) as [_ H2].
    apply andb_false_iff. right. apply bool_decide_eq_false_2. exact H2. }
  rewrite E1, E2. unfold window. rewrite drop_nil, take_nil.
  split; [eauto|]. repeat split; reflexivity.
Qed.

Lemma followers_endpoint_stays_empty_witness :
  no_follower_flags world_with_acme
  /\ match (get_page_followers "acme" 1 10 world_with_acme).1 with
     | Ok r => r.(followers) = [] /\ r.(total_followers) = 0
     | Raise _ => False
     end.
Proof.
  assert (H0 : no_follower_flags empty_world).
  { intros e He. apply elem_of_nil in He. contradiction. }
  pose proof (followers_endpoint_stays_empty acme_env "acme" false empty_world H0)
    as [H1 H2].
  split; [exact H1|].
  specialize (H2 "acme" 1 10).
  change ((_fetch_and_store_page acme_env "acme" false empty_world).2)
    with world_with_acme in H2.
  destruct ((get_page_followers "acme" 1 10 world_with_acme).1) as [r|e] eqn:E.
  - destruct H2 as (_ & Ha & _ & Hb & _). split; assumption.
  - destruct H2 as [Hnone _]. vm_compute in Hnone. discriminate.
Defined.

(** ** The identifier a forced refresh leaves on the row *)

Lemma find_none_all {A} (f : A -> bool) (l : list A) :
  (forall x, x ∈ l -> f x = false) -> List.find f l = None.
Proof.
  induction l as [|a l IH]; intros H; simpl; [reflexivity|].
  rewrite (H a) by left. apply IH. intros x Hx. apply H. right. exact Hx.
Qed.

Lemma NoDup_fmap_eq {A B} (f : A -> B) (l : list A) (x y : A) :
  NoDup (f <$> l) -> x ∈ l -> y ∈ l -> f x = f y -> x = y.
Proof.
  induction l as [|a l IH]; intros Hnd Hx Hy Hf.
  - apply elem_of_nil in Hx. contradiction.
  - rewrite fmap_cons in Hnd. apply NoDup_cons in Hnd as [Hna Hnd].
    apply elem_of_cons in Hx as [->|Hx]; apply elem_of_cons in Hy as [->|Hy].
    + reflexivity.
    + exfalso. apply Hna. rewrite Hf. apply list_elem_of_fmap. eauto.
    + exfalso. apply Hna. rewrite <- Hf. apply list_elem_of_fmap. eauto.
    + apply IH; assumption.
Qed.

Lemma merge_page_page_id (now : Z) (existing : Page.t) (data : OrgData.t)
  (s3 : option string) (slug : string) :
  data.(OrgData.page_id) = Some slug ->
  (merge_page now existing data s3).(Page.page_id) = Some slug.
Proof.
  intros Hslug.
  pose proof (merge_page_getattr now existing data s3) as (H & _).
  specialize (H "page_id" (VStr data.(OrgData.page_id))).
  destruct H as [_ H]; [unfold OrgData.items; simpl; repeat constructor|].
  rewrite Hslug in H. simpl in H.
  assert (Hid : forall p, Page.getattr p "page_id" = Some (VStr p.(Page.page_id)))
    by reflexivity.
  rewrite Hid in H.
  apply (f_equal (fun o => match o with
                           | Some (VStr x) => x
                           | _ => None
                           end)) in H.
  exact H.
Qed.

(** X9. A forced refresh of a stored page writes the provider's own
    identifier into the row: when the provider's record names the page
    [slug], the refreshed row carries [slug]; if [slug] differs from the
    requested identifier, the page is no longer found under the requested
    identifier, and its posts listing answers 404. *)
Theorem forced_refresh_adopts_provider_slug (env : Env) (page_id slug : string)
  (w w1 : World) (existing page : Page.t) (data : OrgData.t) :
  NoDup (Page.page_id <$> w.(db).(pages)) ->
  Store.page_by_page_id page_id w.(db) = Some existing ->
  (LinkedInService.get_organization_by_vanity_name env page_id w).1
  = Ok (Some (Some data)) ->
  data.(OrgData.page_id) = Some slug ->
  _fetch_and_store_page env page_id true w = (Ok (Some page), w1) ->
  page.(Page.page_id) = Some slug
  /\ page ∈ w1.(db).(pages)
  /\ (slug <> page_id ->
      Store.page_by_page_id page_id w1.(db) = None
      /\ forall n size,
           (get_page_posts env page_id n size w1).1
           = Raise (page_not_found page_id)).
Proof.
  intros Hnd Hex Hprov Hslug Hrun.
  pose proof (fetch_page_updated env page_id w w1 existing page Hex Hrun)
    as (_ & Hid & Hpages).
  assert (Hpage : page.(Page.page_id) = Some slug).
  { revert Hrun. unfold _fetch_and_store_page, bind, get_db. rewrite Hex.
    rewrite andb_false_r.
    destruct (LinkedInService.get_organization_by_vanity_name env page_id w)
      as [[[[data'|]|]|e] w'] eqn:Horg; simpl in Hprov; try discriminate.
    assert (data' = data) by congruence. subst data'.
    unfold Store.update_page, bind, get_db, put_db, ret, raise.
    destruct (Store.page_constraints _ _); [|discriminate].
    intros H. injection H as H _. rewrite <- H.
    change (Page.page_id (Page.set_updated_at ?u ?p)) with (Page.page_id p).
    apply merge_page_page_id, Hslug. }
  apply find_some_elem in Hex as [Hin Hf]. apply bool_decide_eq_true_1 in Hf.
  split; [exact Hpage|]. split.
  { rewrite Hpages. apply list_elem_of_fmap. exists existing.
    split; [|exact Hin]. unfold Store.same_row. rewrite Hid.
    rewrite bool_decide_eq_true_2 by reflexivity. reflexivity. }
  intros Hne.
  assert (Hnone : Store.page_by_page_id page_id w1.(db) = None).
  { unfold Store.page_by_page_id. rewrite Hpages. apply find_none_all.
    intros x Hx. apply list_elem_of_fmap in Hx as [q [-> Hq]].
    apply bool_decide_eq_false_2.
    unfold Store.same_row. destruct (bool_decide (Page.id page = Page.id q)) eqn:Hsame.
    - rewrite Hpage. congruence.
    - apply bool_decide_eq_false_1 in Hsame. intros Hqid. apply Hsame.
      rewrite Hid. f_equal.
      apply (NoDup_fmap_eq Page.page_id (pages (db w))); auto. congruence. }
  split; [exact Hnone|]. intros n size.
  unfold get_page_posts, bind, get_db. rewrite Hnone. reflexivity.
Qed.

Lemma forced_refresh_adopts_provider_slug_witness :
  Store.page_by_page_id "acme"
    (_fetch_and_store_page renaming_env "acme" true world_with_stored_acme).2.(db)
  = None.
Proof.
  destruct (_fetch_and_store_page renaming_env "acme" true world_with_stored_acme)
    as [r w1] eqn:Hrun.
  assert (Hr : exists page, r = Ok (Some page)).
  { apply (f_equal fst) in Hrun. vm_compute in Hrun. subst r. eauto. }
  destruct Hr as [page ->].
  refine (proj1 (proj2 (proj2
    (forced_refresh_adopts_provider_slug renaming_env "acme" "acme-inc"
       world_with_stored_acme w1 (stored_page 1 "acme" "Acme") page
       (match renaming_env.(api_organization) "acme" with
        | OrgDetails (Some d) => d
        | _ => acme_data
        end) _ _ _ _ Hrun)) _)).
  - simpl. apply (bool_decide_unpack _). vm_compute. exact I.
  - reflexivity.
  - vm_compute. reflexivity.
  - reflexivity.
  - discriminate.
Defined.

(** ** The cached page detail *)




(** ** What a listing holds *)

Lemma window_length {A} (offset page_size : Z) (rows : list A) :
  0 <= offset -> 0 <= page_size ->
  Z.of_nat (length (window offset page_size rows))
  = Z.min page_size (Z.max 0 (Z.of_nat (length rows) - offset)).
Proof.
  intros Ho Hp. unfold window. rewrite length_take, length_drop. lia.
Qed.

Lemma window_fills {A B} (f : A -> B) (rows ordered : list A) (pg ps : Z) :
  ordered ≡ₚ rows -> 1 <= pg -> 1 <= ps ->
  fills_window
    {| items := f <$> window ((pg - 1) * ps) ps ordered;
       total := Z.of_nat (length rows); page := pg; page_size := ps;
       total_pages := (Z.of_nat (length rows) + ps - 1) / ps;
       has_next := pg <? (Z.of_nat (length rows) + ps - 1) / ps;
       has_prev := 1 <? pg |}.
Proof.
  intros Hperm Hpg Hps. unfold fills_window. cbn [items total page page_size
    total_pages has_next].
  assert (Hlen : Z.of_nat (length (f <$> window ((pg - 1) * ps) ps ordered))
                 = Z.min ps (Z.max 0 (Z.of_nat (length rows) - (pg - 1) * ps))).
  { rewrite length_fmap, window_length by nia.
    rewrite (Permutation_length Hperm). reflexivity. }
  pose proof (ceiling_division (Z.of_nat (length rows)) ps ltac:(lia) Hps) as Hc.
  unfold is_ceiling in Hc.
  split; [exact Hlen|]. split.
  - intros Hnext. apply Z.ltb_lt in Hnext. rewrite Hlen. nia.
  - intros Hbeyond.
    assert (H0 : Z.of_nat (length (f <$> window ((pg - 1) * ps) ps ordered)) = 0).
    { rewrite Hlen. nia. }
    destruct (f <$> window ((pg - 1) * ps) ps ordered); [reflexivity|].
    simpl in H0. lia.
Qed.

(** X11. When the SQL engine's ORDER BY lists the rows it is given, every
    listing requested with page and page size at least 1 holds
    [min(page_size, max(0, total - offset))] items: a listing with
    [has_next] is full, and a page beyond the last one is empty.  This
    holds for [get_pages], [get_posts] and [get_page_posts]. *)
Theorem listing_fills_window (env : Env) (w : World) (pg ps : Z)
  (name industry page_id content_type : option string)
  (min_followers max_followers min_likes : option Z) (pid : string) :
  orders_rows env -> 1 <= pg -> 1 <= ps ->
  (forall r,
     (get_pages env pg ps name industry min_followers max_followers w).1 = Ok r ->
     fills_window r)
  /\ (forall r,
        (get_posts env pg ps page_id content_type min_likes w).1 = Ok r ->
        fills_window r)
  /\ (forall r,
        (get_page_posts env pid pg ps w).1 = Ok r -> fills_window r).
Proof.
  intros [Hpages Hposts] Hpg Hps. split; [|split]; intros r.
  - unfold get_pages, bind, get_db, ret. cbn [fst]. intros H.
    injection H as <-. apply window_fills; auto.
  - unfold get_posts, bind, get_db, ret. cbn [fst]. intros H.
    injection H as <-. apply window_fills; auto.
  - unfold get_page_posts, bind, get_db, ret, raise.
    destruct (Store.page_by_page_id pid (db w)); cbn [fst]; [|discriminate].
    intros H. injection H as <-. apply window_fills; auto.
Qed.

Lemma listing_fills_window_witness :
  exists r,
    (get_page_posts sample_env "acme" 2 10 world_with_twelve_posts).1 = Ok r
    /\ r.(has_next) = false /\ length r.(items) = 2%nat /\ fills_window r.
Proof.
  eexists. split; [reflexivity|]. split; [reflexivity|].
  split; [reflexivity|].
  apply (proj2 (proj2 (listing_fills_window sample_env world_with_twelve_posts
                         2 10 None None None None None None None "acme"
                         ltac:(split; intros l; reflexivity)
                         ltac:(lia) ltac:(lia)))).
  reflexivity.
Defined.

Lemma elem_of_window {A} (offset page_size : Z) (rows : list A) (x : A) :
  x ∈ window offset page_size rows -> x ∈ rows.
Proof.
  unfold window. intros H. apply elem_of_take in H as (i & H & _).
  rewrite lookup_drop in H. apply (list_elem_of_lookup_2 _ _ _ H).
Qed.

Lemma elem_of_filter_forallb {A} (filters : list (A -> bool)) (l : list A) (x : A) :
  x ∈ List.filter (fun p => forallb (fun f => f p) filters) l ->
  x ∈ l /\ forall f, f ∈ filters -> f x = true.
Proof.
  intros H. apply list_elem_of_In, filter_In in H as [Hin Hall].
  split; [apply list_elem_of_In, Hin|].
  intros f Hf. rewrite forallb_forall in Hall.
  apply Hall, list_elem_of_In, Hf.
Qed.

(** X12. [get_pages] lists stored rows only, and every listed row meets
    the follower bounds asked for: with [min_followers = m] its follower
    count is a number at least [m], with [max_followers = m] a number at
    most [m]; a row whose follower count is NULL is never listed under a
    bound.  The total never exceeds the number of stored pages and equals
    it when no filter is given. *)
Theorem get_pages_respects_bounds (env : Env) (w : World) (pg ps : Z)
  (name industry : option string) (min_followers max_followers : option Z)
  (r : Listing PageDict.t) :
  orders_rows env ->
  (get_pages env pg ps name industry min_followers max_followers w).1 = Ok r ->
  (forall item, item ∈ r.(items) ->
     exists p, p ∈ w.(db).(pages) /\ item = PageResponse_model_validate p
       /\ (forall m, min_followers = Some m ->
             exists v, item.(PageDict.follower_count) = Some v /\ m <= v)
       /\ (forall m, max_followers = Some m ->
             exists v, item.(PageDict.follower_count) = Some v /\ v <= m))
  /\ r.(total) <= Z.of_nat (length w.(db).(pages))
  /\ (str_truthy name = false -> str_truthy industry = false ->
      min_followers = None -> max_followers = None ->
      r.(total) = Z.of_nat (length w.(db).(pages))).
Proof.
  intros [Hord _]. unfold get_pages, bind, get_db, ret. cbn [fst].
  intros H. injection H as <-. cbn [items total]. split; [|split].
  - intros item Hitem. apply list_elem_of_fmap in Hitem as [p [-> Hp]].
    apply elem_of_window in Hp. rewrite Hord in Hp.
    apply elem_of_filter_forallb in Hp as [Hin Hall].
    exists p. split; [exact Hin|]. split; [reflexivity|].
    cbn [PageDict.follower_count PageResponse_model_validate]. split.
    + intros m ->.
      specialize (Hall (fun p => sql_ge (Page.follower_count p) m)).
      cbv beta in Hall. unfold sql_ge in Hall.
      destruct (Page.follower_count p) as [v|].
      * exists v. split; [reflexivity|]. apply Z.leb_le, Hall.
        rewrite !elem_of_app. right. right. left. constructor.
      * discriminate Hall.
        rewrite !elem_of_app. right. right. left. constructor.
    + intros m ->.
      specialize (Hall (fun p => sql_le (Page.follower_count p) m)).
      cbv beta in Hall. unfold sql_le in Hall.
      destruct (Page.follower_count p) as [v|].
      * exists v. split; [reflexivity|]. apply Z.leb_le, Hall.
        rewrite !elem_of_app. right. right. right. constructor.
      * discriminate Hall.
        rewrite !elem_of_app. right. right. right. constructor.
  - apply Nat2Z.inj_le, filter_length_le.
  - intros -> -> -> ->. simpl. f_equal. f_equal.
    induction (pages (db w)) as [|p l IH]; simpl; [reflexivity|].
    f_equal. exact IH.
Qed.

Lemma get_pages_respects_bounds_witness :
  exists r,
    (get_pages sample_env 1 10 None None (Some 150) None world_with_stored_acme).1
    = Ok r
    /\ r.(total) <= 1.
Proof.
  eexists. split; [reflexivity|].
  apply (get_pages_respects_bounds sample_env world_with_stored_acme 1 10
           None None (Some 150) None _
           ltac:(split; intros l; reflexivity) eq_refl).
Defined.

(** X13. The page filter of [get_posts]: when the named page is stored
    under a non-zero key, every listed post references it; when no page is
    stored under the name, or the name is empty, the filter is dropped and
    the answer is that of the request without [page_id]. *)
Theorem get_posts_page_filter (env : Env) (w : World) (pg ps : Z)
  (page_id : string) (content_type : option string) (min_likes : option Z) :
  orders_rows env ->
  (forall p r,
     Store.page_by_page_id page_id w.(db) = Some p ->
     page_id <> "" -> int_truthy p.(Page.id) = true ->
     (get_posts env pg ps (Some page_id) content_type min_likes w).1 = Ok r ->
     forall item, item ∈ r.(items) -> item.(PostDict.page_id) = p.(Page.id))
  /\ (Store.page_by_page_id page_id w.(db) = None \/ page_id = "" ->
      get_posts env pg ps (Some page_id) content_type min_likes w
      = get_posts env pg ps None content_type min_likes w).
Proof.
  intros [_ Hord]. split.
  - intros p r Hp Hne Hid. unfold get_posts, bind, get_db, ret. cbn [fst].
    assert (Ht : str_truthy (Some page_id) = true).
    { simpl. apply negb_true_iff, String.eqb_neq, Hne. }
    rewrite Ht. cbn [py_str]. rewrite Hp, Hid.
    intros H. injection H as <-. cbn [items].
    intros item Hitem. apply list_elem_of_fmap in Hitem as [q [-> Hq]].
    apply elem_of_window in Hq. rewrite Hord in Hq.
    apply list_elem_of_In, filter_In in Hq as [_ Hall].
    cbn [forallb app] in Hall. apply andb_prop in Hall as [Hall _].
    cbn [PostDict.page_id PostResponse_model_validate].
    apply (bool_decide_eq_true_1 _ Hall).
  - intros [Hnone| ->]; unfold get_posts, bind, get_db; cbn [py_str].
    + rewrite Hnone. simpl int_truthy. cbv iota.
      destruct (str_truthy (Some page_id)); reflexivity.
    + reflexivity.
Qed.

Lemma get_posts_page_filter_witness :
  get_posts sample_env 1 10 (Some "globex") None None world_with_twelve_posts
  = get_posts sample_env 1 10 None None None world_with_twelve_posts.
Proof.
  apply (proj2 (get_posts_page_filter sample_env world_with_twelve_posts 1 10
                  "globex" None None ltac:(split; intros l; reflexivity))).
  left. reflexivity.
Defined.

(** ** Counting and ranking in the AI service *)

Section Counting.
Context {K : Type} `{EqDecision K} (eqb : K -> K -> bool).
Hypothesis eqb_spec : forall a b, eqb a b = true <-> a = b.

Lemma count_of_count_up (k k' : K) (counts : list (K * Z)) :
  count_of eqb k' (count_up eqb k counts)
  = count_of eqb k' counts + (if decide (k' = k) then 1 else 0).
Proof.
  unfold count_of.
  induction counts as [|[k0 n] counts IH]; simpl.
  - destruct (decide (k' = k)) as [->|Hne].
    + rewrite (proj2 (eqb_spec k k) eq_refl). reflexivity.
    + destruct (eqb k' k) eqn:E; [apply eqb_spec in E; contradiction|].
      reflexivity.
  - destruct (eqb k k0) eqn:E0; simpl.
    + apply eqb_spec in E0. subst k0.
      destruct (eqb k' k) eqn:E.
      * apply eqb_spec in E. subst k'. rewrite decide_True by reflexivity.
        reflexivity.
      * rewrite decide_False; [lia|]. intros ->.
        rewrite (proj2 (eqb_spec k k) eq_refl) in E. discriminate.
    + destruct (eqb k' k0) eqn:E.
      * apply eqb_spec in E. subst k'. rewrite decide_False; [simpl; lia|].
        intros ->. rewrite (proj2 (eqb_spec k k) eq_refl) in E0. discriminate.
      * exact IH.
Qed.

Lemma keys_count_up (k k' : K) (counts : list (K * Z)) :
  k' ∈ (count_up eqb k counts).*1 <-> k' = k \/ k' ∈ counts.*1.
Proof.
  induction counts as [|[k0 n] counts IH]; simpl.
  - rewrite list_elem_of_singleton. split; [auto|].
    intros [?|Hin]; [assumption|]. apply elem_of_nil in Hin. contradiction.
  - destruct (eqb k k0) eqn:E0; simpl.
    + apply eqb_spec in E0. subst k0. rewrite elem_of_cons. tauto.
    + rewrite !elem_of_cons, IH. tauto.
Qed.

Lemma NoDup_count_up (k : K) (counts : list (K * Z)) :
  NoDup counts.*1 -> NoDup (count_up eqb k counts).*1.
Proof.
  induction counts as [|[k0 n] counts IH]; simpl; intros Hnd.
  - apply NoDup_singleton.
  - apply NoDup_cons in Hnd as [Hnin Hnd].
    destruct (eqb k k0) eqn:E0; simpl.
    + apply NoDup_cons. split; assumption.
    + apply NoDup_cons. split; [|apply IH, Hnd].
      rewrite keys_count_up. intros [->|Hin]; [|contradiction].
      rewrite (proj2 (eqb_spec k k) eq_refl) in E0. discriminate.
Qed.

Lemma positive_count_up (k : K) (counts : list (K * Z)) :
  Forall (fun kv => 0 < kv.2) counts ->
  Forall (fun kv => 0 < kv.2) (count_up eqb k counts).
Proof.
  induction counts as [|[k0 n] counts IH]; simpl; intros Hall.
  - repeat constructor.
  - apply Forall_cons in Hall as [Hn Hall]. simpl in Hn.
    destruct (eqb k k0); constructor; simpl; auto; lia.
Qed.

Lemma count_of_elem (k : K) (n : Z) (counts : list (K * Z)) :
  NoDup counts.*1 -> (k, n) ∈ counts -> count_of eqb k counts = n.
Proof.
  unfold count_of.
  induction counts as [|[k0 m] counts IH]; simpl; intros Hnd Hin.
  - apply elem_of_nil in Hin. contradiction.
  - apply NoDup_cons in Hnd as [Hnin Hnd].
    apply elem_of_cons in Hin as [Heq|Hin].
    + injection Heq as -> ->. rewrite (proj2 (eqb_spec k0 k0) eq_refl).
      reflexivity.
    + destruct (eqb k k0) eqn:E; [|apply IH; assumption].
      apply eqb_spec in E. subst k0. exfalso. apply Hnin.
      apply list_elem_of_fmap. exists (k, n). auto.
Qed.

Lemma count_of_absent (k : K) (counts : list (K * Z)) :
  k ∉ counts.*1 -> count_of eqb k counts = 0.
Proof.
  unfold count_of.
  induction counts as [|[k0 m] counts IH]; simpl; intros Hnin; [reflexivity|].
  destruct (eqb k k0) eqn:E.
  - apply eqb_spec in E. subst k0. exfalso. apply Hnin. left.
  - apply IH. intros Hin. apply Hnin. right. exact Hin.
Qed.
End Counting.

Lemma occurrences_snoc {K} `{EqDecision K} (k x : K) (l : list K) :
  occurrences k (l ++ [x])
  = occurrences k l + (if decide (x = k) then 1 else 0).
Proof.
  unfold occurrences. rewrite filter_app, length_app.
  rewrite filter_cons, filter_nil. destruct (decide (x = k)); simpl; lia.
Qed.

Lemma occurrences_pos {K} `{EqDecision K} (k : K) (l : list K) :
  k ∈ l <-> 0 < occurrences k l.
Proof.
  unfold occurrences. split.
  - intros Hin. assert (Hf : k ∈ filter (fun x => x = k) l).
    { apply list_elem_of_filter. auto. }
    destruct (filter _ l); [apply elem_of_nil in Hf; contradiction|simpl; lia].
  - intros Hpos. destruct (filter (fun x => x = k) l) as [|y f] eqn:E;
      [simpl in Hpos; lia|].
    assert (Hy : y ∈ filter (fun x => x = k) l) by (rewrite E; left).
    apply list_elem_of_filter in Hy as [-> Hy]. exact Hy.
Qed.

Lemma insert_desc_perm {A} (key : A -> Z) (x : A) (l : list A) :
  insert_desc key x l ≡ₚ x :: l.
Proof.
  induction l as [|y l IH]; simpl; [reflexivity|].
  destruct (key y <? key x); [reflexivity|].
  rewrite IH. apply Permutation_swap.
Qed.

Lemma sorted_desc_snoc {A} (key : A -> Z) (l : list A) (x : A) :
  sorted_desc key (l ++ [x]) = insert_desc key x (sorted_desc key l).
Proof. unfold sorted_desc. rewrite foldl_app. reflexivity. Qed.

Lemma sorted_desc_perm {A} (key : A -> Z) (l : list A) :
  sorted_desc key l ≡ₚ l.
Proof.
  induction l as [|x l IH] using rev_ind; [reflexivity|].
  rewrite sorted_desc_snoc, insert_desc_perm, IH.
  apply Permutation_cons_append.
Qed.

Lemma insert_desc_descending {A} (key : A -> Z) (x : A) (l : list A) :
  descending key l -> descending key (insert_desc key x l).
Proof.
  induction l as [|y l IH]; simpl; intros Hs.
  - split; constructor.
  - destruct Hs as [Hall Hs].
    destruct (key y <? key x) eqn:E.
    + apply Z.ltb_lt in E. split; [|split; assumption].
      constructor; [lia|]. eapply Forall_impl; [exact Hall|].
      intros z Hz. simpl in Hz. lia.
    + apply Z.ltb_ge in E. split; [|apply IH, Hs].
      rewrite insert_desc_perm. constructor; assumption.
Qed.

Lemma sorted_desc_descending {A} (key : A -> Z) (l : list A) :
  descending key (sorted_desc key l).
Proof.
  induction l as [|x l IH] using rev_ind; [exact I|].
  rewrite sorted_desc_snoc. apply insert_desc_descending, IH.
Qed.

Lemma descending_take_drop {A} (key : A -> Z) (n : nat) (l : list A) (x y : A) :
  descending key l -> x ∈ take n l -> y ∈ drop n l -> key y <= key x.
Proof.
  revert n. induction l as [|a l IH]; intros n Hs Hx Hy.
  - rewrite take_nil in Hx. apply elem_of_nil in Hx. contradiction.
  - destruct Hs as [Hall Hs]. destruct n as [|n].
    + simpl in Hx. apply elem_of_nil in Hx. contradiction.
    + simpl in Hx, Hy. apply elem_of_cons in Hx as [->|Hx].
      * rewrite Forall_forall in Hall. apply Hall.
        apply list_elem_of_lookup_1 in Hy as [i Hy]. rewrite lookup_drop in Hy.
        apply (list_elem_of_lookup_2 _ _ _ Hy).
      * apply (IH n); assumption.
Qed.

(** The dict of counts built by [_get_top_values]. *)
Lemma top_values_counts (values done : list (option string))
  (acc : list (string * Z)) :
  NoDup acc.*1 ->
  Forall (fun kv => 0 < kv.2) acc ->
  (forall k, k ∈ acc.*1 -> k <> "") ->
  (forall k, k <> "" -> count_of String.eqb k acc = occurrences (Some k) done) ->
  let counts :=
    foldl (fun c v => if str_truthy v then count_up String.eqb (py_str v) c else c)
      acc values in
  NoDup counts.*1
  /\ Forall (fun kv => 0 < kv.2) counts
  /\ (forall k, k ∈ counts.*1 -> k <> "")
  /\ (forall k, k <> "" ->
        count_of String.eqb k counts = occurrences (Some k) (done ++ values)).
Proof.
  revert done acc. induction values as [|v values IH]; intros done acc Hnd Hpos Hkeys Hcount.
  - simpl. rewrite app_nil_r. auto.
  - simpl. rewrite (cons_middle v done values), app_assoc.
    apply IH; clear IH.
    + destruct (str_truthy v); [apply NoDup_count_up; [apply String.eqb_eq|]|];
        exact Hnd.
    + destruct (str_truthy v); [apply positive_count_up|]; exact Hpos.
    + intros k. destruct v as [s|]; simpl; [|apply Hkeys].
      destruct (String.eqb_spec s "") as [->|Hs]; simpl; [apply Hkeys|].
      rewrite keys_count_up by apply String.eqb_eq.
      intros [->|Hin]; [exact Hs|apply Hkeys, Hin].
    + intros k Hk. rewrite occurrences_snoc.
      destruct v as [s|]; cbn [str_truthy py_str].
      * destruct (String.eqb_spec s "") as [->|Hs]; cbn [negb].
        -- destruct (decide (Some "" = Some k)) as [E|_]; [congruence|].
           rewrite Hcount by exact Hk. lia.
        -- rewrite count_of_count_up by apply String.eqb_eq.
           rewrite Hcount by exact Hk.
           destruct (decide (Some s = Some k)) as [E|E],
                    (decide (k = s)) as [Hks|Hks];
             try reflexivity; congruence.
      * destruct (decide (None = Some k)) as [E|_]; [discriminate E|].
        rewrite Hcount by exact Hk. lia.
Qed.

(** X14. [_get_top_values] answers the most frequent values: at most five
    strings, without repetition, each a non-empty value of the input; a
    listed value occurs at least as often as any non-empty value left out,
    and when fewer than five are listed every non-empty value of the input
    is listed.  [None] and the empty string are never counted. *)
Theorem top_values_are_most_frequent (values : list (option string)) :
  let top := AIService._get_top_values values in
  (length top <= 5)%nat
  /\ NoDup top
  /\ (forall v, v ∈ top -> v <> "" /\ Some v ∈ values)
  /\ (forall v u, v ∈ top -> u ∉ top -> u <> "" ->
        occurrences (Some u) values <= occurrences (Some v) values)
  /\ ((length top < 5)%nat ->
      forall u, u <> "" -> Some u ∈ values -> u ∈ top).
Proof.
  unfold AIService._get_top_values. cbv zeta.
  destruct (top_values_counts values [] [] (NoDup_nil_2) (Forall_nil_2 _)
              ltac:(intros k Hk; apply elem_of_nil in Hk; contradiction)
              ltac:(intros k _; reflexivity))
    as (Hnd & Hpos & Hkeys & Hcount).
  rewrite app_nil_l in Hcount.
  set (counts := foldl _ [] values) in *.
  pose proof (sorted_desc_perm snd counts) as Hperm.
  pose proof (sorted_desc_descending snd counts) as Hdesc.
  set (sorted := sorted_desc snd counts) in *.
  assert (Helem : forall k n, (k, n) ∈ sorted ->
                              k <> "" /\ 0 < n /\ n = occurrences (Some k) values).
  { intros k n Hin. rewrite Hperm in Hin.
    assert (Hk : k <> "").
    { apply Hkeys, list_elem_of_fmap. exists (k, n). auto. }
    split; [exact Hk|]. split.
    - rewrite Forall_forall in Hpos. apply (Hpos (k, n)), Hin.
    - rewrite <- (Hcount k Hk). symmetry.
      apply count_of_elem; [apply String.eqb_eq|exact Hnd|exact Hin]. }
  assert (Hlisted : forall u, u <> "" -> Some u ∈ values -> u ∈ sorted.*1).
  { intros u Hu Hin. rewrite Hperm.
    destruct (decide (u ∈ counts.*1)) as [?|Hnin]; [assumption|].
    apply (count_of_absent String.eqb String.eqb_eq) in Hnin.
    rewrite (Hcount u Hu) in Hnin. apply occurrences_pos in Hin. lia. }
  split; [rewrite length_fmap, length_take; lia|].
  split.
  { rewrite fmap_take. eapply sublist_NoDup; cycle 1; [apply sublist_take|].
    rewrite Hperm. exact Hnd. }
  split.
  { intros v Hv. apply list_elem_of_fmap in Hv as [[k n] [-> Hin]]. simpl.
    apply elem_of_take in Hin as (i & Hin & _).
    apply list_elem_of_lookup_2 in Hin.
    destruct (Helem k n Hin) as (Hk & Hn & Hocc).
    split; [exact Hk|]. apply occurrences_pos. lia. }
  split.
  { intros v u Hv Hu Hne.
    apply list_elem_of_fmap in Hv as [[k n] [-> Hin]]. simpl.
    assert (Hin' : (k, n) ∈ sorted).
    { apply elem_of_take in Hin as (i & Hin' & _).
      apply (list_elem_of_lookup_2 _ _ _ Hin'). }
    destruct (Helem k n Hin') as (Hk & Hn & <-).
    destruct (decide (Some u ∈ values)) as [Huin|Hunin].
    - apply (Hlisted u Hne) in Huin.
      apply list_elem_of_fmap in Huin as [[u' m] [Heq Hum]]. simpl in Heq.
      subst u'. destruct (Helem u m Hum) as (_ & _ & <-).
      rewrite <- (take_drop 5 sorted) in Hum.
      apply elem_of_app in Hum as [Hum|Hum].
      + exfalso. apply Hu. apply list_elem_of_fmap. exists (u, m). auto.
      + apply (descending_take_drop snd 5 sorted (k, n) (u, m) Hdesc Hin Hum).
    - assert (H0 : occurrences (Some u) values = 0).
      { destruct (decide (0 < occurrences (Some u) values)) as [Hp|Hp].
        - apply occurrences_pos in Hp. contradiction.
        - unfold occurrences in *. lia. }
      rewrite H0. lia. }
  intros Hlen u Hu Hin.
  rewrite length_fmap, length_take in Hlen.
  rewrite take_ge by lia. apply Hlisted; assumption.
Qed.

Lemma top_values_are_most_frequent_witness :
  NoDup (AIService._get_top_values [Some "a"; None; Some "b"; Some "b"; Some ""])
  /\ AIService._get_top_values [Some "a"; None; Some "b"; Some "b"; Some ""]
     = ["b"; "a"].
Proof.
  split; [|reflexivity].
  exact (proj1 (proj2 (top_values_are_most_frequent
                         [Some "a"; None; Some "b"; Some "b"; Some ""]))).
Defined.

(** The head of a descending stable sort is the first element of the
    greatest key. *)
Lemma head_sorted_desc {A} (key : A -> Z) (l : list A) (best : A) (rest : list A) :
  sorted_desc key l = best :: rest ->
  exists l1 l2,
    l = (l1 ++ best :: l2)%list
    /\ (forall p, p ∈ l1 -> key p < key best)
    /\ (forall p, p ∈ l2 -> key p <= key best).
Proof.
  revert best rest. induction l as [|x l IH] using rev_ind; intros best rest.
  - discriminate.
  - rewrite sorted_desc_snoc.
    destruct (sorted_desc key l) as [|b r] eqn:Hs.
    + pose proof (length_sorted_desc key l) as Hlen. rewrite Hs in Hlen.
      destruct l; [|discriminate Hlen]. simpl.
      intros H. injection H as <- <-. exists [], []. split; [reflexivity|].
      split; intros p Hp; apply elem_of_nil in Hp; contradiction.
    + destruct (IH b r eq_refl) as (l1 & l2 & -> & H1 & H2). simpl.
      destruct (key b <? key x) eqn:E.
      * apply Z.ltb_lt in E. intros H. injection H as <- <-.
        exists (l1 ++ b :: l2)%list, []. split; [reflexivity|].
        split; [|intros p Hp; apply elem_of_nil in Hp; contradiction].
        intros p Hp. apply elem_of_app in Hp as [Hp|Hp].
        -- specialize (H1 p Hp). lia.
        -- apply elem_of_cons in Hp as [->|Hp]; [exact E|].
           specialize (H2 p Hp). lia.
      * apply Z.ltb_ge in E. intros H. injection H as <- _.
        exists l1, (l2 ++ [x])%list. split; [rewrite <- app_assoc; reflexivity|].
        split; [exact H1|].
        intros p Hp. apply elem_of_app in Hp as [Hp|Hp]; [apply H2, Hp|].
        apply list_elem_of_singleton in Hp. subst p. exact E.
Qed.

(** X15. A comparison that was computed lists the names of the compared
    pages in request order and carries the current time; when it is the
    basic comparison (the engine gave no analysis), the page it names has
    the greatest follower count of all, and is the first such page of the
    request. *)
Theorem basic_comparison_names_most_followed (env : Env)
  (pages : list PageDict.t) (c : Comparison) :
  _generate_comparison env pages = Ok c ->
  c.(pages_compared) = PageDict.name <$> pages
  /\ c.(compared_at) = env.(now)
  /\ forall winner,
       c.(comparison) = BasicComparison winner ->
       exists before best after,
         pages = (before ++ best :: after)%list
         /\ winner = best.(PageDict.name)
         /\ (forall p, p ∈ before ->
               default 0 p.(PageDict.follower_count)
               < default 0 best.(PageDict.follower_count))
         /\ (forall p, p ∈ after ->
               default 0 p.(PageDict.follower_count)
               <= default 0 best.(PageDict.follower_count)).
Proof.
  unfold _generate_comparison.
  destruct (foldr _ (Ok []) pages) as [prompt|e]; simpl; [|discriminate].
  destruct (chat_compare env prompt) as [analysis|].
  - intros H. injection H as <-. simpl. split; [reflexivity|].
    split; [reflexivity|]. intros winner Hw. discriminate Hw.
  - unfold winner_by_followers.
    destruct (existsb _ pages && _); simpl; [discriminate|].
    destruct (sorted_desc _ pages) as [|best rest] eqn:Hs; simpl; [discriminate|].
    intros H. injection H as <-. simpl. split; [reflexivity|].
    split; [reflexivity|]. intros winner Hw. injection Hw as <-.
    destruct (head_sorted_desc _ pages best rest Hs) as (l1 & l2 & Hp & H1 & H2).
    exists l1, best, l2. auto.
Qed.

Lemma basic_comparison_names_most_followed_witness :
  exists c,
    _generate_comparison sample_env
      [Page.to_dict (Page.set_description (Some "Anvils")
                       (stored_page 1 "acme" "Acme"));
       Page.to_dict (Page.set_description (Some "Dynamite")
                       (Page.set_follower_count (Some 250)
                          (stored_page 2 "globex" "Globex")))] = Ok c
    /\ c.(comparison) = BasicComparison (Some "Globex")
    /\ c.(pages_compared) = [Some "Acme"; Some "Globex"].
Proof.
  set (pages := [_; _]).
  destruct (_generate_comparison sample_env pages) as [c|e] eqn:H;
    [|vm_compute in H; discriminate H].
  exists c. split; [reflexivity|].
  pose proof (basic_comparison_names_most_followed sample_env pages c H)
    as (Hnames & _ & _).
  split; [|rewrite Hnames; reflexivity].
  vm_compute in H. injection H as <-. reflexivity.
Defined.

(** ** When the narrative summary is returned *)

Lemma format_summary_identity (now : Z) (page_data : PageDict.t) (analysis : json)
  (s : AIService.Summary) :
  AIService._format_summary_response now page_data analysis = Ok s ->
  s.(AIService.page_id) = page_data.(PageDict.page_id)
  /\ s.(AIService.page_name) = page_data.(PageDict.name)
  /\ s.(AIService.follower_analysis).(AIService.total_count)
     = page_data.(PageDict.follower_count)
  /\ s.(AIService.generated_at) = now.
Proof.
  unfold AIService._format_summary_response, rbind.
  repeat match goal with
         | |- context [match dict_get ?d ?k ?v with _ => _ end] =>
             destruct (dict_get d k v); [|discriminate]
         end.
  intros H; inversion H; subst; simpl. auto.
Qed.

(** X16. [generate_page_summary] prepares the context outside its [try]:
    an exception of the preparation is the caller's.  Once the context is
    prepared, a summary is returned whenever the page has a follower
    count, whatever the engine does, and it carries the page's identifier,
    name and follower count and the current time; when the follower count
    is [None] and the engine fails, the fallback itself raises
    [TypeError].  Without posts the preparation never raises. *)
Theorem summary_survives_engine_failure (env : Env) (page_data : PageDict.t)
  (posts_data : option (list PostDict.t))
  (employees_data : option (list EmployeeDict.t)) :
  (forall e,
     AIService._prepare_context page_data posts_data employees_data = Raise e ->
     AIService.generate_page_summary env page_data posts_data employees_data
     = Raise e)
  /\ (forall context,
        AIService._prepare_context page_data posts_data employees_data
        = Ok context ->
        (forall n,
           page_data.(PageDict.follower_count) = Some n ->
           exists s,
             AIService.generate_page_summary env page_data posts_data
               employees_data = Ok s
             /\ s.(AIService.page_id) = page_data.(PageDict.page_id)
             /\ s.(AIService.page_name) = page_data.(PageDict.name)
             /\ s.(AIService.follower_analysis).(AIService.total_count) = Some n
             /\ s.(AIService.generated_at) = env.(now))
        /\ (page_data.(PageDict.follower_count) = None ->
            env.(chat_summary) context = None ->
            AIService.generate_page_summary env page_data posts_data
              employees_data = Raise TypeError))
  /\ (posts_data = None \/ posts_data = Some [] ->
      exists context,
        AIService._prepare_context page_data posts_data employees_data
        = Ok context
        /\ context.(ctx_content) = None).
Proof.
  split; [|split].
  - intros e He. unfold AIService.generate_page_summary. rewrite He. reflexivity.
  - intros context Hctx. unfold AIService.generate_page_summary.
    rewrite Hctx. simpl. split.
    + intros n Hn.
      assert (Hfb : exists s,
        AIService._generate_fallback_summary (now env) page_data = Ok s
        /\ s.(AIService.page_id) = page_data.(PageDict.page_id)
        /\ s.(AIService.page_name) = page_data.(PageDict.name)
        /\ s.(AIService.follower_analysis).(AIService.total_count) = Some n
        /\ s.(AIService.generated_at) = env.(now)).
      { unfold AIService._generate_fallback_summary. rewrite Hn. simpl.
        eexists. split; [reflexivity|]. simpl. auto. }
      destruct (chat_summary env context) as [analysis|]; [|exact Hfb].
      destruct (AIService._format_summary_response (now env) page_data analysis)
        as [s|e] eqn:Hfmt; [|exact Hfb].
      exists s. split; [reflexivity|].
      destruct (format_summary_identity _ _ _ _ Hfmt) as (H1 & H2 & H3 & H4).
      rewrite H3. auto.
    + intros Hnone ->. unfold AIService._generate_fallback_summary.
      rewrite Hnone. reflexivity.
  - intros [->| ->]; eexists; split; reflexivity.
Qed.

Lemma summary_survives_engine_failure_witness :
  exists s,
    AIService.generate_page_summary sample_env sample_page_dict
      (Some [sample_post_dict 40; sample_post_dict 2]) None = Ok s
    /\ s.(AIService.page_name) = Some "Acme".
Proof.
  destruct (proj1 (proj1 (proj2
    (summary_survives_engine_failure sample_env sample_page_dict
       (Some [sample_post_dict 40; sample_post_dict 2]) None))
    _ ltac:(vm_compute; reflexivity)) 100 eq_refl) as (s & Hs & _ & Hname & _).
  exists s. split; [exact Hs|exact Hname].
Defined.

(** ** Where the clones are stored *)

Lemma length_append (s t : string) :
  String.length (s +:+ t) = (String.length s + String.length t)%nat.
Proof.
  induction s as [|c s IH]; [reflexivity|].
  change (String c s +:+ t) with (String c (s +:+ t)). simpl. rewrite IH.
  reflexivity.
Qed.

Lemma append_inj_r (a b t : string) : a +:+ t = b +:+ t -> a = b.
Proof.
  revert b. induction a as [|c a IH]; intros [|d b] H.
  - reflexivity.
  - apply (f_equal String.length) in H. rewrite !length_append in H.
    simpl in H. lia.
  - apply (f_equal String.length) in H. rewrite !length_append in H.
    simpl in H. lia.
  - change (String c (a +:+ t) = String d (b +:+ t)) in H.
    injection H as -> H. f_equal. apply IH, H.
Qed.

(** X17. The clone of a profile picture has one location per page: when
    [clone_page_images] returns a URL, it is
    [https://{bucket}.s3.{region}.amazonaws.com/pages/{page_id}/profile_picture.jpg],
    whatever the source URL was, so a later clone for the same page lands on
    the same object, and clones for two different pages never share a
    location.  A clone is returned only for a non-empty source URL whose
    transfer succeeded. *)
Theorem profile_picture_has_one_location (env : Env)
  (url1 url2 : option string) (id1 id2 r1 r2 : string) :
  StorageService.clone_page_images env url1 id1 = Some r1 ->
  StorageService.clone_page_images env url2 id2 = Some r2 ->
  r1 = "https://" +:+ env.(AWS_S3_BUCKET) +:+ ".s3." +:+ env.(AWS_REGION)
       +:+ ".amazonaws.com/" +:+ ("pages/" +:+ id1) +:+ "/"
       +:+ "profile_picture.jpg"
  /\ (exists u, url1 = Some u /\ u <> "" /\ env.(s3_transfer) u = true)
  /\ (r1 = r2 <-> id1 = id2).
Proof.
  assert (Hshape : forall url id r,
    StorageService.clone_page_images env url id = Some r ->
    r = "https://" +:+ env.(AWS_S3_BUCKET) +:+ ".s3." +:+ env.(AWS_REGION)
        +:+ ".amazonaws.com/" +:+ ("pages/" +:+ id) +:+ "/"
        +:+ "profile_picture.jpg"
    /\ exists u, url = Some u /\ u <> "" /\ env.(s3_transfer) u = true).
  { intros url id r. unfold StorageService.clone_page_images,
      StorageService.upload_from_url.
    destruct url as [u|]; cbn [str_truthy negb]; [|discriminate].
    destruct (String.eqb_spec u "") as [->|Hu]; cbn [negb]; [discriminate|].
    destruct (s3_transfer env u) eqn:Ht; [|discriminate].
    intros H. injection H as <-. split; [reflexivity|]. eauto. }
  intros H1 H2.
  destruct (Hshape _ _ _ H1) as [-> Hu1]. destruct (Hshape _ _ _ H2) as [-> _].
  split; [reflexivity|]. split; [exact Hu1|]. split.
  - intros H. repeat apply String.app_inj in H.
    apply append_inj_r in H. apply String.app_inj in H. exact H.
  - intros ->. reflexivity.
Qed.

Lemma profile_picture_has_one_location_witness :
  exists r,
    StorageService.clone_page_images acme_env (Some "https://cdn.example/a.png")
      "acme" = Some r
    /\ StorageService.clone_page_images acme_env (Some "https://cdn.example/b.png")
         "acme" = Some r.
Proof.
  destruct (StorageService.clone_page_images acme_env
              (Some "https://cdn.example/a.png") "acme") as [r1|] eqn:H1;
    [|vm_compute in H1; discriminate H1].
  destruct (StorageService.clone_page_images acme_env
              (Some "https://cdn.example/b.png") "acme") as [r2|] eqn:H2;
    [|vm_compute in H2; discriminate H2].
  exists r1. split; [reflexivity|]. f_equal. symmetry.
  apply (profile_picture_has_one_location acme_env _ _ "acme" "acme" r1 r2 H1 H2).
  reflexivity.
Defined.

(** ** The cache of provider answers *)

Lemma organization_outcome (env : Env) (v : string) (w w1 : World)
  (r : option (option OrgData.t)) :
  cache_healthy w ->
  LinkedInService.get_organization_by_vanity_name env v w = (Ok r, w1) ->
  cache_healthy w1
  /\ match r with
     | None => w1 = w
     | Some d =>
         exists ttl,
           w1.(redis) !! RedisClient.cache_key "org" [v] = Some (ttl, CachedOrg d)
     end.
Proof.
  intros Hw. rewrite (get_organization_healthy env v w Hw). cbv zeta.
  assert (Hfetched :
    match env.(api_organization) v with
    | OrgUnavailable => (Ok None, w)
    | OrgDetails d =>
        (Ok (Some d),
         with_redis (<[RedisClient.cache_key "org" [v]
                       := (env.(CACHE_TTL), CachedOrg d)]> w.(redis)) w)
    end = (Ok r, w1) ->
    cache_healthy w1
    /\ match r with
       | None => w1 = w
       | Some d =>
           exists ttl,
             w1.(redis) !! RedisClient.cache_key "org" [v]
             = Some (ttl, CachedOrg d)
       end).
  { destruct (api_organization env v) as [|d]; intros H; inversion H; subst.
    - split; [exact Hw|reflexivity].
    - split; [exact Hw|]. exists (CACHE_TTL env). cbn [redis with_redis].
      apply lookup_insert_eq. }
  destruct (redis w !! RedisClient.cache_key "org" [v]) as [[ttl c]|] eqn:Hlook;
    [|exact Hfetched].
  destruct (truthy c) eqn:Ht; [|exact Hfetched].
  destruct c; try discriminate.
  intros H; inversion H; subst. split; [exact Hw|]. exists ttl. exact Hlook.
Qed.

(** X18. On a working cache, a record the provider gave for a vanity name
    is answered again from the cache, whatever the provider would say by
    then, and the second call leaves the world as it is; an empty answer
    is stored but never served, so the provider is asked again; a failed
    lookup stores nothing. *)
Theorem provider_record_is_served_from_cache (env : Env) (v : string)
  (w w1 : World) (r : option (option OrgData.t)) :
  cache_healthy w ->
  LinkedInService.get_organization_by_vanity_name env v w = (Ok r, w1) ->
  match r with
  | Some (Some d) =>
      forall env',
        LinkedInService.get_organization_by_vanity_name env' v w1
        = (Ok (Some (Some d)), w1)
  | Some None =>
      forall env',
        (LinkedInService.get_organization_by_vanity_name env' v w1).1
        = match env'.(api_organization) v with
          | OrgUnavailable => Ok None
          | OrgDetails d' => Ok (Some d')
          end
  | None => w1 = w
  end.
Proof.
  intros Hw Hrun.
  destruct (organization_outcome env v w w1 r Hw Hrun) as [Hw1 Hr].
  destruct r as [[d|]|]; [| |exact Hr]; destruct Hr as [ttl Hlook]; intros env';
    rewrite (get_organization_healthy env' v w1 Hw1); cbv zeta; rewrite Hlook;
    simpl; [reflexivity|].
  destruct (api_organization env' v); reflexivity.
Qed.

Lemma provider_record_is_served_from_cache_witness :
  LinkedInService.get_organization_by_vanity_name sample_env "acme"
    (LinkedInService.get_organization_by_vanity_name acme_env "acme" empty_world).2
  = (Ok (Some (Some acme_data)),
     (LinkedInService.get_organization_by_vanity_name acme_env "acme" empty_world).2).
Proof.
  apply (provider_record_is_served_from_cache acme_env "acme" empty_world _
           (Some (Some acme_data)) ltac:(split; reflexivity) eq_refl sample_env).
Defined.

(** ** A cascade that fails half-way *)

Lemma fetch_posts_same_employees (env : Env) (page : Page.t) (w : World) :
  (_fetch_and_store_posts env page w).2.(db).(employees) = w.(db).(employees).
Proof.
  unfold _fetch_and_store_posts, bind.
  pose proof (get_posts_same_db env (Page.linkedin_id page) w) as Hdb.
  destruct (LinkedInService.get_organization_posts env _ w) as [[data|e] w'];
    unfold same_db in Hdb; simpl in Hdb; [|simpl; rewrite Hdb; reflexivity].
  unfold Store.add_posts, bind, get_db, put_db, raise.
  destruct (Store.insert_posts _ _ (db w')) as [d'|] eqn:Hins; simpl.
  - rewrite (insert_posts_employees _ _ _ _ Hins), Hdb. reflexivity.
  - rewrite Hdb. reflexivity.
Qed.

Lemma fetch_posts_raise (env : Env) (page : Page.t) (w w' : World) (e : exn) :
  _fetch_and_store_posts env page w = (Raise e, w') -> w'.(db) = w.(db).
Proof.
  unfold _fetch_and_store_posts, bind.
  pose proof (get_posts_same_db env (Page.linkedin_id page) w) as Hdb.
  destruct (LinkedInService.get_organization_posts env _ w) as [[data|e0] w0];
    unfold same_db in Hdb; simpl in Hdb.
  - unfold Store.add_posts, bind, get_db, put_db, raise.
    destruct (Store.insert_posts _ _ (db w0)); [discriminate|].
    intros H; inversion H; subst. exact Hdb.
  - intros H; inversion H; subst. exact Hdb.
Qed.

Lemma fetch_employees_raise (env : Env) (page : Page.t) (w w' : World) (e : exn) :
  _fetch_and_store_employees env page w = (Raise e, w') -> w'.(db) = w.(db).
Proof.
  unfold _fetch_and_store_employees, bind.
  pose proof (get_employees_same_db env (Page.linkedin_id page) w) as Hdb.
  destruct (LinkedInService.get_organization_employees env _ w) as [[data|e0] w0];
    unfold same_db in Hdb; simpl in Hdb.
  - unfold Store.add_employees, bind, get_db, put_db, raise.
    destruct (Store.insert_employees _ _ (db w0)); [discriminate|].
    intros H; inversion H; subst. exact Hdb.
  - intros H; inversion H; subst. exact Hdb.
Qed.

(** X19. A cascade that fails is never completed.  When the creation of a
    page that was not stored raises, no employee has been stored; either
    nothing was stored at all, or the new page row is stored (the failure
    came after its commit, while fetching or storing its posts or
    employees), and then every later run without [force_update] answers
    that row and leaves the world as it is, so the missing children are
    not fetched again. *)
Theorem failed_cascade_is_not_resumed (env : Env) (page_id : string)
  (force : bool) (w w1 : World) (e : exn) :
  Store.page_by_page_id page_id w.(db) = None ->
  _fetch_and_store_page env page_id force w = (Raise e, w1) ->
  w1.(db).(employees) = w.(db).(employees)
  /\ (w1.(db) = w.(db)
      \/ exists page,
           w1.(db).(pages) = (w.(db).(pages) ++ [page])%list
           /\ page.(Page.page_id) = Some page_id
           /\ forall env',
                _fetch_and_store_page env' page_id false w1
                = (Ok (Some page), w1)).
Proof.
  intros Hex. unfold _fetch_and_store_page. unfold bind at 1. unfold get_db.
  rewrite Hex. simpl. unfold bind at 1.
  pose proof (get_organization_same_db env page_id w) as Hdb.
  destruct (LinkedInService.get_organization_by_vanity_name env page_id w)
    as [[[[data|]|]|e0] w'] eqn:Horg; unfold same_db in Hdb; simpl in Hdb;
    try discriminate.
  2: { intros H; inversion H; subst. rewrite Hdb. auto. }
  unfold bind at 1. unfold Store.add_page at 1.
  unfold bind at 1. unfold get_db.
  destruct (Store.page_constraints (pages (db w')) _) eqn:Hcons.
  2: { unfold raise. intros H; inversion H; subst. rewrite Hdb. auto. }
  unfold bind at 1. unfold put_db, ret.
  set (row := Store.page_row (now env) (next_page_id (db w')) _).
  set (w2 := with_db _ w').
  assert (Hrow : Page.page_id row = Some page_id) by reflexivity.
  assert (Hlater : forall w3,
    w3.(db).(pages) = w2.(db).(pages) ->
    forall env', _fetch_and_store_page env' page_id false w3 = (Ok (Some row), w3)).
  { intros w3 Hpages env'. unfold _fetch_and_store_page. unfold bind at 1.
    unfold get_db.
    assert (Hfind : Store.page_by_page_id page_id (db w3) = Some row).
    { unfold Store.page_by_page_id. rewrite Hpages. subst w2.
      cbn [db with_db pages]. apply find_app_last.
      - rewrite Hdb. exact Hex.
      - apply bool_decide_eq_true_2. exact Hrow. }
    rewrite Hfind. reflexivity. }
  clearbody row.
  unfold bind at 1.
  pose proof (fetch_posts_same_pages env row w2) as Hp.
  pose proof (fetch_posts_same_employees env row w2) as Hpe.
  destruct (_fetch_and_store_posts env row w2) as [[[]|e1] w3] eqn:Hposts.
  - unfold bind at 1.
    destruct (_fetch_and_store_employees env row w3) as [[[]|e2] w4] eqn:Hemps;
      [discriminate|].
    intros H; inversion H; subst e2 w4; clear H.
    apply fetch_employees_raise in Hemps.
    unfold same_pages in Hp. simpl in Hp, Hpe. rewrite Hemps.
    split; [rewrite Hpe; subst w2; cbn [db with_db employees]; rewrite Hdb;
            reflexivity|].
    right. exists row. split; [|split; [exact Hrow|]].
    + rewrite Hp. subst w2. cbn [db with_db pages]. rewrite Hdb. reflexivity.
    + apply Hlater. rewrite Hemps. exact Hp.
  - intros H; inversion H; subst e1 w3; clear H.
    apply fetch_posts_raise in Hposts.
    split; [rewrite Hposts; subst w2; cbn [db with_db employees]; rewrite Hdb;
            reflexivity|].
    right. exists row. split; [|split; [exact Hrow|]].
    + rewrite Hposts. subst w2. cbn [db with_db pages]. rewrite Hdb. reflexivity.
    + apply Hlater. rewrite Hposts. reflexivity.
Qed.

Lemma failed_cascade_is_not_resumed_witness :
  (_fetch_and_store_page reposting_env "acme" false empty_world).1
  = Raise IntegrityError
  /\ (_fetch_and_store_page reposting_env "acme" false empty_world).2.(db).(employees)
     = []
  /\ (_fetch_and_store_page reposting_env "acme" false empty_world).2.(db).(posts)
     = [].
Proof.
  split; [vm_compute; reflexivity|]. split; [|vm_compute; reflexivity].
  destruct (_fetch_and_store_page reposting_env "acme" false empty_world)
    as [r w1] eqn:Hrun.
  assert (Hr : r = Raise IntegrityError).
  { apply (f_equal fst) in Hrun. vm_compute in Hrun. congruence. }
  subst r.
  apply (proj1 (failed_cascade_is_not_resumed reposting_env "acme" false
                  empty_world w1 IntegrityError eq_refl Hrun)).
Defined.

(** ** Counting content types and hashtags *)

Section Ranking.
Context {K : Type} `{EqDecision K} (eqb : K -> K -> bool).
Hypothesis eqb_spec : forall a b, eqb a b = true <-> a = b.

Lemma count_fold (keys done : list K) (acc : list (K * Z)) :
  NoDup acc.*1 ->
  Forall (fun kv => 0 < kv.2) acc ->
  (forall k, count_of eqb k acc = occurrences k done) ->
  let counts := foldl (fun c k => count_up eqb k c) acc keys in
  NoDup counts.*1
  /\ Forall (fun kv => 0 < kv.2) counts
  /\ (forall k, count_of eqb k counts = occurrences k (done ++ keys)).
Proof.
  revert done acc. induction keys as [|x keys IH]; intros done acc Hnd Hpos Hcount.
  - simpl. rewrite app_nil_r. auto.
  - simpl. rewrite (cons_middle x done keys), app_assoc.
    apply IH; clear IH.
    + apply NoDup_count_up; assumption.
    + apply positive_count_up, Hpos.
    + intros k. rewrite (count_of_count_up eqb eqb_spec), occurrences_snoc, Hcount.
      destruct (decide (k = x)) as [E1|E1], (decide (x = k)) as [E2|E2];
        try reflexivity; congruence.
Qed.

Lemma sum_count_up (k : K) (counts : list (K * Z)) :
  sum_counts (count_up eqb k counts) = sum_counts counts + 1.
Proof.
  unfold sum_counts. induction counts as [|[k0 n] counts IH]; simpl; [lia|].
  destruct (eqb k k0); simpl; lia.
Qed.

Lemma sum_count_fold (keys : list K) (acc : list (K * Z)) :
  sum_counts (foldl (fun c k => count_up eqb k c) acc keys)
  = sum_counts acc + Z.of_nat (length keys).
Proof.
  revert acc. induction keys as [|x keys IH]; intros acc; simpl; [lia|].
  rewrite IH, sum_count_up. lia.
Qed.

(** The first [n] keys of a dict of counts in descending order of count. *)
Lemma ranked_counts (n : nat) (counts : list (K * Z)) (L : list K) :
  NoDup counts.*1 ->
  Forall (fun kv => 0 < kv.2) counts ->
  (forall k, count_of eqb k counts = occurrences k L) ->
  let top := (take n (sorted_desc snd counts)).*1 in
  (length top <= n)%nat
  /\ NoDup top
  /\ (forall v, v ∈ top -> v ∈ L)
  /\ (forall v u, v ∈ top -> u ∉ top -> occurrences u L <= occurrences v L)
  /\ ((length top < n)%nat -> forall u, u ∈ L -> u ∈ top).
Proof.
  intros Hnd Hpos Hcount. cbv zeta.
  pose proof (sorted_desc_perm snd counts) as Hperm.
  pose proof (sorted_desc_descending snd counts) as Hdesc.
  set (sorted := sorted_desc snd counts) in *.
  assert (Helem : forall k m, (k, m) ∈ sorted -> 0 < m /\ m = occurrences k L).
  { intros k m Hin. rewrite Hperm in Hin. split.
    - rewrite Forall_forall in Hpos. apply (Hpos (k, m)), Hin.
    - rewrite <- (Hcount k). symmetry.
      apply (count_of_elem eqb eqb_spec); assumption. }
  assert (Hlisted : forall u, u ∈ L -> u ∈ sorted.*1).
  { intros u Hin. rewrite Hperm.
    destruct (decide (u ∈ counts.*1)) as [?|Hnin]; [assumption|].
    apply (count_of_absent eqb eqb_spec) in Hnin.
    rewrite (Hcount u) in Hnin. apply occurrences_pos in Hin. lia. }
  split; [rewrite length_fmap, length_take; lia|].
  split.
  { rewrite fmap_take. eapply sublist_NoDup; cycle 1; [apply sublist_take|].
    rewrite Hperm. exact Hnd. }
  split.
  { intros v Hv. apply list_elem_of_fmap in Hv as [[k m] [-> Hin]]. simpl.
    apply elem_of_take in Hin as (i & Hin & _).
    apply list_elem_of_lookup_2 in Hin.
    destruct (Helem k m Hin) as (Hm & Hocc).
    apply occurrences_pos. lia. }
  split.
  { intros v u Hv Hu.
    apply list_elem_of_fmap in Hv as [[k m] [-> Hin]]. simpl.
    assert (Hin' : (k, m) ∈ sorted).
    { apply elem_of_take in Hin as (i & Hin' & _).
      apply (list_elem_of_lookup_2 _ _ _ Hin'). }
    destruct (Helem k m Hin') as (Hm & <-).
    destruct (decide (u ∈ L)) as [Huin|Hunin].
    - apply Hlisted in Huin.
      apply list_elem_of_fmap in Huin as [[u' m'] [Heq Hum]]. simpl in Heq.
      subst u'. destruct (Helem u m' Hum) as (_ & <-).
      rewrite <- (take_drop n sorted) in Hum.
      apply elem_of_app in Hum as [Hum|Hum].
      + exfalso. apply Hu. apply list_elem_of_fmap. exists (u, m'). auto.
      + apply (descending_take_drop snd n sorted (k, m) (u, m') Hdesc Hin Hum).
    - assert (H0 : occurrences u L = 0).
      { destruct (decide (0 < occurrences u L)) as [Hp|Hp].
        - apply occurrences_pos in Hp. contradiction.
        - unfold occurrences in *. lia. }
      rewrite H0. lia. }
  intros Hlen u Hin.
  rewrite length_fmap, length_take in Hlen.
  rewrite take_ge by lia. apply Hlisted; assumption.
Qed.
End Ranking.

Lemma opt_str_eqb_spec (a b : option string) : opt_str_eqb a b = true <-> a = b.
Proof. unfold opt_str_eqb. apply bool_decide_eq_true. Qed.

(** X20. [_analyze_content_types] counts the posts by content type: the
    dict has one entry per content type that occurs (a missing type is
    the key [None]), each with the number of posts of that type, and the
    counts add up to the number of posts. *)
Theorem content_types_count_posts (posts : list PostDict.t) :
  let types := AIService._analyze_content_types posts in
  NoDup types.*1
  /\ (forall t n, (t, n) ∈ types ->
        0 < n /\ n = occurrences t (PostDict.content_type <$> posts))
  /\ (forall t, t ∈ PostDict.content_type <$> posts -> t ∈ types.*1)
  /\ sum_counts types = Z.of_nat (length posts).
Proof.
  unfold AIService._analyze_content_types.
  rewrite <- (foldl_fmap (fun types k => count_up opt_str_eqb k types) []
                posts PostDict.content_type).
  destruct (count_fold opt_str_eqb opt_str_eqb_spec
              (PostDict.content_type <$> posts) [] [] (NoDup_nil_2)
              (Forall_nil_2 _) ltac:(intros k; reflexivity))
    as (Hnd & Hpos & Hcount).
  rewrite app_nil_l in Hcount. cbv zeta.
  set (types := foldl _ [] _) in *.
  split; [exact Hnd|]. split; [|split].
  - intros t n Hin. split.
    + rewrite Forall_forall in Hpos. apply (Hpos (t, n)), Hin.
    + rewrite <- (Hcount t). symmetry.
      apply (count_of_elem opt_str_eqb opt_str_eqb_spec); assumption.
  - intros t Hin. destruct (decide (t ∈ types.*1)) as [?|Hnin]; [assumption|].
    apply (count_of_absent opt_str_eqb opt_str_eqb_spec) in Hnin.
    rewrite (Hcount t) in Hnin. apply occurrences_pos in Hin. lia.
  - subst types. rewrite sum_count_fold, length_fmap. reflexivity.
Qed.

Lemma content_types_count_posts_witness :
  sum_counts (AIService._analyze_content_types
                [sample_post_dict 40; sample_post_dict 2]) = 2.
Proof.
  exact (proj2 (proj2 (proj2 (content_types_count_posts
                                [sample_post_dict 40; sample_post_dict 2])))).
Defined.

Lemma hashtag_counts (posts : list PostDict.t) (acc : list (string * Z)) :
  foldl (fun acc post =>
           rbind acc (fun counts =>
             match post.(PostDict.hashtags) with
             | Some tags =>
                 Ok (foldl (fun c tag => count_up String.eqb tag c) counts tags)
             | None => Raise TypeError
             end)) (Ok acc) posts
  = if forallb (fun p => Store.not_null p.(PostDict.hashtags)) posts
    then Ok (foldl (fun c tag => count_up String.eqb tag c) acc (all_hashtags posts))
    else Raise TypeError.
Proof.
  revert acc. induction posts as [|p posts IH]; intros acc; [reflexivity|].
  simpl. destruct (PostDict.hashtags p) as [tags|] eqn:Htags; simpl.
  - rewrite IH. unfold all_hashtags. rewrite fmap_cons. cbn [concat].
    rewrite Htags. cbn [default]. rewrite foldl_app. reflexivity.
  - clear IH. induction posts as [|q posts IH]; [reflexivity|exact IH].
Qed.

Lemma top_hashtags_need_lists (posts : list PostDict.t) (tags : list string) :
  AIService._get_top_hashtags posts = Ok tags ->
  Forall (fun p => is_Some p.(PostDict.hashtags)) posts.
Proof.
  unfold AIService._get_top_hashtags. rewrite hashtag_counts.
  destruct (forallb _ posts) eqn:Hall; simpl; [|discriminate]. intros _.
  rewrite forallb_forall in Hall. apply Forall_forall. intros p Hp.
  specialize (Hall p (proj1 (list_elem_of_In _ _) Hp)).
  destruct (PostDict.hashtags p); [eauto|discriminate].
Qed.

(** X21. [_get_top_hashtags] raises [TypeError] exactly when some post has
    no hashtag list; otherwise it answers the most used hashtags: at most
    ten, without repetition, each used by some post, a listed one used at
    least as often as any one left out, and all of them when fewer than
    ten are listed. *)
Theorem top_hashtags_are_most_used (posts : list PostDict.t) :
  match AIService._get_top_hashtags posts with
  | Ok top =>
      Forall (fun p => is_Some p.(PostDict.hashtags)) posts
      /\ (length top <= 10)%nat
      /\ NoDup top
      /\ (forall v, v ∈ top -> v ∈ all_hashtags posts)
      /\ (forall v u, v ∈ top -> u ∉ top ->
            occurrences u (all_hashtags posts)
            <= occurrences v (all_hashtags posts))
      /\ ((length top < 10)%nat ->
          forall u, u ∈ all_hashtags posts -> u ∈ top)
  | Raise e =>
      e = TypeError
      /\ exists p, p ∈ posts /\ p.(PostDict.hashtags) = None
  end.
Proof.
  unfold AIService._get_top_hashtags. rewrite hashtag_counts.
  destruct (forallb _ posts) eqn:Hall; simpl.
  - split.
    { rewrite forallb_forall in Hall. apply Forall_forall. intros p Hp.
      specialize (Hall p (proj1 (list_elem_of_In _ _) Hp)).
      destruct (PostDict.hashtags p); [eauto|discriminate]. }
    destruct (count_fold String.eqb String.eqb_eq (all_hashtags posts) [] []
                (NoDup_nil_2) (Forall_nil_2 _) ltac:(intros k; reflexivity))
      as (Hnd & Hpos & Hcount).
    rewrite app_nil_l in Hcount.
    apply (ranked_counts String.eqb String.eqb_eq 10 _ (all_hashtags posts)
             Hnd Hpos Hcount).
  - split; [reflexivity|].
    assert (Hex : existsb (fun p => negb (Store.not_null p.(PostDict.hashtags)))
                    posts = true).
    { clear -Hall. induction posts as [|p posts IH]; [discriminate|].
      simpl in *. destruct (Store.not_null (PostDict.hashtags p)); simpl in *;
        [apply IH, Hall|reflexivity]. }
    apply existsb_exists in Hex as (p & Hp & Hnull).
    exists p. split; [apply list_elem_of_In, Hp|].
    destruct (PostDict.hashtags p); [discriminate|reflexivity].
Qed.

Lemma top_hashtags_are_most_used_witness :
  exists top,
    AIService._get_top_hashtags [sample_post_dict 40; sample_post_dict 2] = Ok top
    /\ NoDup top.
Proof.
  pose proof (top_hashtags_are_most_used
                [sample_post_dict 40; sample_post_dict 2]) as H.
  destruct (AIService._get_top_hashtags [sample_post_dict 40; sample_post_dict 2])
    as [top|e] eqn:E; [|vm_compute in E; discriminate E].
  exists top. split; [reflexivity|]. exact (proj1 (proj2 (proj2 H))).
Defined.

(** ** The figures handed to the narrative engine *)

Lemma py_sum_ok (l : list (option Z)) (s : Z) :
  py_sum l = Ok s ->
  Forall is_Some l /\ s = foldr (fun o acc => default 0 o + acc) 0 l.
Proof.
  revert s. induction l as [|[n|] l IH]; intros s; simpl.
  - intros H. injection H as <-. split; [constructor|reflexivity].
  - destruct (py_sum l) as [s'|e]; simpl; [|discriminate].
    intros H. injection H as <-. destruct (IH s' eq_refl) as [Hall ->].
    split; [constructor; eauto|reflexivity].
  - discriminate.
Qed.

Lemma total_of_fmap (counter : PostDict.t -> option Z) (posts : list PostDict.t) :
  foldr (fun o acc => default 0 o + acc) 0 (counter <$> posts)
  = total_of counter posts.
Proof.
  unfold total_of. induction posts as [|p posts IH]; simpl; [reflexivity|].
  f_equal. exact IH.
Qed.

(** X22. When [_prepare_context] returns for a non-empty list of posts,
    every post had its three counters and its hashtag list, and the
    content block carries the number of posts, the three averages as the
    totals over that number (which is not zero), the total engagement as
    the sum of the three totals, and at most five sample posts. *)
Theorem context_figures_follow_posts (page_data : PageDict.t)
  (posts : list PostDict.t) (employees_data : option (list EmployeeDict.t))
  (context : SummaryContext) :
  posts <> [] ->
  AIService._prepare_context page_data (Some posts) employees_data = Ok context ->
  Forall (fun p => is_Some p.(PostDict.like_count)
                   /\ is_Some p.(PostDict.comment_count)
                   /\ is_Some p.(PostDict.share_count)
                   /\ is_Some p.(PostDict.hashtags)) posts
  /\ exists content,
       context.(ctx_content) = Some content
       /\ content.(total_posts_analyzed) = Z.of_nat (length posts)
       /\ 0 < content.(total_posts_analyzed)
       /\ content.(ctx_avg_likes)
          = mkRatio (total_of PostDict.like_count posts) (Z.of_nat (length posts))
       /\ content.(ctx_avg_comments)
          = mkRatio (total_of PostDict.comment_count posts) (Z.of_nat (length posts))
       /\ content.(ctx_avg_shares)
          = mkRatio (total_of PostDict.share_count posts) (Z.of_nat (length posts))
       /\ content.(total_engagement)
          = total_of PostDict.like_count posts
            + total_of PostDict.comment_count posts
            + total_of PostDict.share_count posts
       /\ (length content.(sample_posts) <= 5)%nat.
Proof.
  intros Hne. unfold AIService._prepare_context.
  destruct posts as [|p l]; [contradiction|]. cbv zeta.
  set (posts := p :: l) in *.
  destruct (py_sum (PostDict.like_count <$> posts)) as [likes|e] eqn:Hl;
    [|discriminate].
  destruct (py_sum (PostDict.comment_count <$> posts)) as [comments|e] eqn:Hc;
    [|discriminate].
  destruct (py_sum (PostDict.share_count <$> posts)) as [shares|e] eqn:Hs;
    [|discriminate].
  cbn [rbind].
  destruct (AIService._get_top_hashtags posts) as [tags|e] eqn:Htags;
    [|discriminate].
  apply top_hashtags_need_lists in Htags. cbn [rbind].
  set (best := take 5 (sorted_desc _ posts)).
  assert (Hbest : (length best <= 5)%nat) by (subst best; rewrite length_take; lia).
  clearbody best.
  assert (Hsamples : forall samples,
    foldr (fun p acc =>
             rbind (AIService.text_prefix p.(PostDict.text)) (fun text =>
               rbind acc (fun rest =>
                 Ok ((text, default 0 p.(PostDict.like_count)) :: rest))))
      (Ok []) best = Ok samples ->
    length samples = length best).
  { clear. induction best as [|q best IH]; intros samples; simpl.
    - intros H. injection H as <-. reflexivity.
    - destruct (AIService.text_prefix (PostDict.text q)); simpl; [|discriminate].
      destruct (foldr _ (Ok []) best) as [rest|]; simpl; [|discriminate].
      intros H. injection H as <-. simpl. rewrite (IH rest eq_refl). reflexivity. }
  destruct (foldr _ (Ok []) best) as [samples|e]; [|discriminate].
  specialize (Hsamples samples eq_refl). cbn [rbind].
  intros H. injection H as <-. cbn [ctx_content].
  apply py_sum_ok in Hl as [Hl ->]. apply py_sum_ok in Hc as [Hc ->].
  apply py_sum_ok in Hs as [Hs ->]. rewrite !total_of_fmap.
  split.
  - rewrite Forall_fmap in Hl, Hc, Hs.
    rewrite Forall_forall in Hl, Hc, Hs, Htags. apply Forall_forall.
    intros q Hq. specialize (Hl q Hq). specialize (Hc q Hq).
    specialize (Hs q Hq). specialize (Htags q Hq). auto.
  - eexists. split; [reflexivity|]. simpl.
    repeat split; try reflexivity; lia.
Qed.

Lemma context_figures_follow_posts_witness :
  exists context content,
    AIService._prepare_context sample_page_dict
      (Some [sample_post_dict 40; sample_post_dict 2]) None = Ok context
    /\ context.(ctx_content) = Some content
    /\ content.(ctx_avg_likes) = mkRatio 42 2.
Proof.
  destruct (AIService._prepare_context sample_page_dict
              (Some [sample_post_dict 40; sample_post_dict 2]) None)
    as [context|e] eqn:E; [|vm_compute in E; discriminate E].
  destruct (context_figures_follow_posts sample_page_dict
              [sample_post_dict 40; sample_post_dict 2] None context
              ltac:(discriminate) E)
    as (_ & content & Hc & _ & _ & Hlikes & _).
  exists context, content. split; [reflexivity|]. split; [exact Hc|exact Hlikes].
Defined.

(** ** A page detail composed from the store *)


